(** * Eno: synthesis dispatch, per-resource reconciliation and the watchdog

    A shallow embedding of three control loops of the Eno engine:

    - [flowcontrol.Reconcile], the synthesis concurrency limiter of
      [internal/controllers/flowcontrol/synthesis.go];
    - [reconciliation.Reconcile] with [reconcileResource], [buildPatch],
      [getCurrent], [mungePatch] and [patchResourceState], the per-resource
      reconciler of [internal/controllers/reconciliation];
    - [watchdog.Reconcile] with its tests, of
      [internal/controllers/watchdog/controller.go].

    Calls to the API servers are modelled by explicit state passing: the
    limiter runs against a store of Compositions and a listing of it that
    may be out of date, the reconciler against an environment that fixes the
    answer of every request it may send, with its reads and writes of the
    resource recorded in a trace.  Logging and metrics are left out. *)

From Stdlib Require Import ZArith QArith Lia.
From stdpp Require Import base option list strings gmap.
Close Scope Q_scope.

(** ** Kubernetes values shared by both controllers *)

(** [metav1.Time] and [time.Duration], both counted in nanoseconds. *)
Definition Time := Z.
Definition Duration := Z.

Definition Second : Duration := 1000000000%Z.

(** A [time.Duration] is an [int64]: its arithmetic wraps around. *)
Definition MinInt64 : Z := (- 2 ^ 63)%Z.
Definition MaxInt64 : Z := (2 ^ 63 - 1)%Z.

Definition int64 (z : Z) : Z := ((z + 2 ^ 63) mod 2 ^ 64 - 2 ^ 63)%Z.

(** [Time.Sub]: the time between two instants, or the largest or smallest
    duration when it does not fit. *)
Definition Sub (t u : Time) : Duration :=
  Z.max MinInt64 (Z.min MaxInt64 (t - u)).

(** The conversion of a [float64] to a [time.Duration] drops the fraction. *)
Definition truncate (q : Q) : Z := (Qnum q ÷ Zpos (Qden q))%Z.

(** [ctrl.Result] *)
Record Result := mkResult { Requeue : bool; RequeueAfter : Duration }.

Definition noRequeue : Result := {| Requeue := false; RequeueAfter := 0%Z |}.

(** Go errors.  [StatusError] stands for the typed errors of
    [k8s.io/apimachinery/pkg/api/errors], [WrapError msg e] for
    [fmt.Errorf(msg + ": %w", e)] and [Terminal] for
    [reconcile.TerminalError]; both wrappers are transparent to [errors.As]. *)
Inductive StatusReason :=
| ReasonNotFound
| ReasonConflict
| ReasonInvalid
| ReasonOther.

Inductive error :=
| StatusError (reason : StatusReason) (msg : string)
| ErrorString (msg : string)
| WrapError (msg : string) (err : error)
| Terminal (err : error).

Fixpoint Error (e : error) : string :=
  match e with
  | StatusError _ msg => msg
  | ErrorString msg => msg
  | WrapError msg err => msg +:+ ": " +:+ Error err
  | Terminal err => "terminal error: " +:+ Error err
  end.

(** [apierrors.IsNotFound]: looks through wrappers for a status error whose
    reason is NotFound. *)
Fixpoint IsNotFound (e : error) : bool :=
  match e with
  | StatusError ReasonNotFound _ => true
  | StatusError _ _ => false
  | ErrorString _ => false
  | WrapError _ err => IsNotFound err
  | Terminal err => IsNotFound err
  end.

(** [client.IgnoreNotFound] *)
Definition IgnoreNotFound (err : option error) : option error :=
  match err with
  | Some e => if IsNotFound e then None else Some e
  | None => None
  end.

(** [strings.Contains] *)
Fixpoint Contains (s substr : string) : bool :=
  String.prefix substr s ||
  match s with
  | EmptyString => false
  | String _ rest => Contains rest substr
  end.

(** ** API objects *)

(** [apiv1.Synthesis], a status slot of a Composition.  [Failed] stands for the
    result of the [Failed()] method. *)
Record Synthesis := mkSynthesis {
  UUID : string;
  ObservedCompositionGeneration : Z;
  ObservedSynthesizerGeneration : Z;
  Synthesized : option Time;
  Reconciled : option Time;
  Ready : option Time;
  Failed : bool
}.

(** [apiv1.Composition] with its [Status] flattened. *)
Record Composition := mkComposition {
  Name : string;
  Namespace : string;
  Generation : Z;
  Annotations : gmap string string;
  CurrentSynthesis : option Synthesis;
  PreviousSynthesis : option Synthesis
}.

(** [types.NamespacedName] *)
Definition NamespacedName : Type := string * string.

Definition ObjectKey (comp : Composition) : NamespacedName :=
  (Namespace comp, Name comp).

(** [comp.Status.GetCurrentSynthesisUUID()] *)
Definition GetCurrentSynthesisUUID (comp : Composition) : string :=
  match CurrentSynthesis comp with
  | Some syn => UUID syn
  | None => ""
  end.

(** * The synthesis concurrency limiter *)

Module flowcontrol.

Record synthesisConcurrencyLimiter := mkLimiter {
  limit : Z;
  cooldown : Duration
}.

(** One operation of an RFC 6902 patch; [value = None] is JSON null. *)
Record JSONPatchOp := mkOp {
  op : string;
  path : string;
  value : option string
}.

Definition uuidPath : string := "/status/currentSynthesis/uuid".

(** The document the limiter sends: test-for-null, then add. *)
Definition dispatchPatch (uuid : string) : list JSONPatchOp :=
  [ {| op := "test"; path := uuidPath; value := None |};
    {| op := "add"; path := uuidPath; value := Some uuid |} ].

(** *** The upstream API server

    The Compositions it holds, in the order [List] returns them. *)
Definition Store := list Composition.

Definition setUUID (uuid : string) (syn : Synthesis) : Synthesis :=
  {| UUID := uuid;
     ObservedCompositionGeneration := ObservedCompositionGeneration syn;
     ObservedSynthesizerGeneration := ObservedSynthesizerGeneration syn;
     Synthesized := Synthesized syn;
     Reconciled := Reconciled syn;
     Ready := Ready syn;
     Failed := Failed syn |}.

Definition withCurrentSynthesis (syn : Synthesis) (comp : Composition) : Composition :=
  {| Name := Name comp;
     Namespace := Namespace comp;
     Generation := Generation comp;
     Annotations := Annotations comp;
     CurrentSynthesis := Some syn;
     PreviousSynthesis := PreviousSynthesis comp |}.

(** How the server evaluates one operation on the uuid path of a stored
    Composition.  An empty UUID is omitted from the serialized status, hence
    reads as null; [add] needs the enclosing [currentSynthesis] object. *)
Definition applyOp (o : JSONPatchOp) (comp : Composition) : option Composition :=
  if negb (String.eqb (path o) uuidPath) then None
  else if String.eqb (op o) "test" then
    match CurrentSynthesis comp, value o with
    | None, None => Some comp
    | None, Some _ => None
    | Some syn, None => if String.eqb (UUID syn) "" then Some comp else None
    | Some syn, Some v =>
        if String.eqb (UUID syn) "" then None
        else if String.eqb (UUID syn) v then Some comp else None
    end
  else if String.eqb (op o) "add" then
    match CurrentSynthesis comp with
    | None => None
    | Some syn => Some (withCurrentSynthesis (setUUID (default "" (value o)) syn) comp)
    end
  else None.

Fixpoint applyPatch (ops : list JSONPatchOp) (comp : Composition) : option Composition :=
  match ops with
  | [] => Some comp
  | o :: rest =>
      match applyOp o comp with
      | Some comp' => applyPatch rest comp'
      | None => None
      end
  end.

Definition sameKey (k : NamespacedName) (comp : Composition) : bool :=
  String.eqb (fst k) (Namespace comp) && String.eqb (snd k) (Name comp).

(** The server applies a patch to the object stored under the key, all of it
    or nothing. *)
Fixpoint serverPatch (k : NamespacedName) (ops : list JSONPatchOp) (api : Store)
  : error + Store :=
  match api with
  | [] => inl (StatusError ReasonNotFound "not found")
  | comp :: rest =>
      if sameKey k comp then
        match applyPatch ops comp with
        | Some comp' => inr (comp' :: rest)
        | None => inl (StatusError ReasonInvalid "the server rejected our request due to an error in our request")
        end
      else
        match serverPatch k ops rest with
        | inr rest' => inr (comp :: rest')
        | inl err => inl err
        end
  end.

(** What one tick cannot compute by itself. *)
Record Oracle := mkOracle {
  listErr : option error;   (* failure of client.List *)
  seed : nat;               (* state of the math/rand source *)
  newUUID : string;         (* uuid.NewString() *)
  patchErr : option error   (* failure of the patch request before the server applies it *)
}.

(** [rand.Intn(n)], a number in [[0, n)]. *)
Definition rand_Intn (o : Oracle) (n : nat) : nat := seed o mod n.

(** [c.client.Status().Patch(ctx, next, client.RawPatch(types.JSONPatchType, patchJS))] *)
Definition client_Status_Patch (o : Oracle) (next : Composition)
    (ops : list JSONPatchOp) (api : Store) : error + Store :=
  match patchErr o with
  | Some err => inl err
  | None => serverPatch (ObjectKey next) ops api
  end.

(** A request of the limiter that writes. *)
Inductive Action :=
| StatusPatch (target : Composition) (ops : list JSONPatchOp).

(** The loop over [list.Items]: the number of active syntheses and the
    Compositions that wait for dispatch. *)
Definition scanStep (acc : nat * list Composition) (comp : Composition)
  : nat * list Composition :=
  let '(active, pending) := acc in
  match CurrentSynthesis comp with
  | None => (active, pending)
  | Some current =>
      match Synthesized current with
      | Some _ => (active, pending)
      | None =>
          if String.eqb (UUID current) "" then (active, pending ++ [comp])
          else (S active, pending)
      end
  end.

Definition scan (items : list Composition) : nat * list Composition :=
  foldl scanStep (0, []) items.

Record Outcome := mkOutcome {
  api' : Store;
  actions : list Action;
  result : Result;
  err : option error
}.

(** [synthesisConcurrencyLimiter.Reconcile].  The client of the manager
    reads through a cache: [listing] is what [c.client.List] returns, the
    Compositions as the cache holds them, which may be behind the store of
    the server; [api] is that store, which the patch is applied to.  The
    marshalling of the patch cannot fail (a slice of maps from strings to
    strings or nil), so the patch is kept as data. *)
Definition ReconcileCached (c : synthesisConcurrencyLimiter) (o : Oracle)
    (listing api : Store) : Outcome :=
  match listErr o with
  | Some e => mkOutcome api [] noRequeue (Some e)
  | None =>
      let '(active, pending) := scan listing in
      if (Z.of_nat active >=? limit c)%Z then mkOutcome api [] noRequeue None
      else
        match pending with
        | [] => mkOutcome api [] noRequeue None
        | first :: _ =>
            let next := nth (rand_Intn o (length pending)) pending first in
            let patch := dispatchPatch (newUUID o) in
            match client_Status_Patch o next patch api with
            | inl e =>
                mkOutcome api [StatusPatch next patch] noRequeue
                  (Some (WrapError "writing uuid to composition status" e))
            | inr api1 =>
                mkOutcome api1 [StatusPatch next patch]
                  {| Requeue := true; RequeueAfter := cooldown c |} None
            end
        end
  end.

(** A tick whose listing is up to date: it shows the store as it is. *)
Definition Reconcile (c : synthesisConcurrencyLimiter) (o : Oracle) (api : Store)
  : Outcome :=
  ReconcileCached c o api api.

(** *** The classification in the words of the specification *)

Inductive Class := Ignored | Pending | Active.

Definition classify (comp : Composition) : Class :=
  match CurrentSynthesis comp with
  | None => Ignored
  | Some syn =>
      match Synthesized syn with
      | Some _ => Ignored
      | None => if String.eqb (UUID syn) "" then Pending else Active
      end
  end.

Definition isActive (comp : Composition) : bool :=
  match classify comp with Active => true | _ => false end.

Definition isPending (comp : Composition) : bool :=
  match classify comp with Pending => true | _ => false end.

(** The number of Compositions with a non-empty UUID and no Synthesized
    timestamp. *)
Definition activeCount (api : Store) : nat :=
  length (List.filter isActive api).

(** *** The system around the limiter *)

(** The three classes in the words of the specification. *)
Definition ignored (comp : Composition) : Prop :=
  CurrentSynthesis comp = None \/
  exists syn, CurrentSynthesis comp = Some syn /\ Synthesized syn <> None.

Definition pending (comp : Composition) : Prop :=
  exists syn, CurrentSynthesis comp = Some syn /\ Synthesized syn = None /\ UUID syn = "".

Definition active (comp : Composition) : Prop :=
  exists syn, CurrentSynthesis comp = Some syn /\ Synthesized syn = None /\ UUID syn <> "".

(** A run of the system while the cache keeps up: the ticks of the limiter,
    each on a listing that shows no fewer active syntheses than the store
    holds, as an up-to-date listing does, and the steps of everything else,
    which never hands out a UUID and so never adds an active synthesis. *)
Inductive step (c : synthesisConcurrencyLimiter) : Store -> Store -> Prop :=
| step_tick (o : Oracle) (listing api : Store) :
    activeCount api <= activeCount listing ->
    step c api (api' (ReconcileCached c o listing api))
| step_other (api api1 : Store) :
    activeCount api1 <= activeCount api -> step c api api1.

Inductive reachable (c : synthesisConcurrencyLimiter) (api : Store) : Store -> Prop :=
| reachable_refl : reachable c api api
| reachable_step (api1 api2 : Store) :
    reachable c api api1 -> step c api1 api2 -> reachable c api api2.

(** *** A worked example *)

(** A limit of one, and a store where one Composition waits for dispatch and
    another has no synthesis. *)
Definition exampleSynthesis (uuid : string) : Synthesis :=
  {| UUID := uuid;
     ObservedCompositionGeneration := 1%Z;
     ObservedSynthesizerGeneration := 1%Z;
     Synthesized := None;
     Reconciled := None;
     Ready := None;
     Failed := false |}.

Definition exampleComposition (name : string) (syn : option Synthesis) : Composition :=
  {| Name := name;
     Namespace := "default";
     Generation := 1%Z;
     Annotations := ∅;
     CurrentSynthesis := syn;
     PreviousSynthesis := None |}.

Definition exampleLimiter : synthesisConcurrencyLimiter :=
  {| limit := 1%Z; cooldown := (5 * Second)%Z |}.

Definition exampleOracle (failure : option error) : Oracle :=
  {| listErr := None; seed := 0; newUUID := "6f1c"; patchErr := failure |}.

Definition waitingStore : Store :=
  [ exampleComposition "comp-a" (Some (exampleSynthesis ""));
    exampleComposition "comp-b" None ].

(** The answer of the server to a write that lost against another one. *)
Definition conflict : error :=
  StatusError ReasonConflict "the object has been modified".

(** Two Compositions wait for dispatch. *)
Definition queueStore : Store :=
  [ exampleComposition "comp-a" (Some (exampleSynthesis ""));
    exampleComposition "comp-b" (Some (exampleSynthesis "")) ].

(** A second tick, which draws the second of the Compositions it lists. *)
Definition secondOracle : Oracle :=
  {| listErr := None; seed := 1; newUUID := "9e2b"; patchErr := None |}.

(** *** Several ticks *)

(** The store after a row of ticks, one oracle each. *)
Definition ticks (c : synthesisConcurrencyLimiter) (oracles : list Oracle) (api : Store)
  : Store :=
  foldl (fun api o => api' (Reconcile c o api)) api oracles.

(** The same oracle with another state of the random source. *)
Definition withSeed (n : nat) (o : Oracle) : Oracle :=
  {| listErr := listErr o; seed := n; newUUID := newUUID o; patchErr := patchErr o |}.

(** A store with one synthesis under way, one Composition waiting and one
    without a synthesis. *)
Definition busyStore : Store :=
  [ exampleComposition "comp-a" (Some (exampleSynthesis "41d0"));
    exampleComposition "comp-b" (Some (exampleSynthesis ""));
    exampleComposition "comp-c" None ].

End flowcontrol.

(** * The resource reconciler *)

Module reconciliation.

(** ** Documents *)

(** [[]byte]; nil and the empty slice are both [[]]. *)
Definition bytes := list Byte.byte.

(** What [encoding/json] decodes into [interface{}]; a number keeps its
    literal. *)
#[local] Set Warnings "-register-all".
Inductive JSON :=
| JNull
| JBool (b : bool)
| JNumber (literal : string)
| JString (s : string)
| JArray (items : list JSON)
| JObject (fields : gmap string JSON).

(** [jsonpatch.Patch] *)
Definition JSONPatch := list JSON.

(** [types.PatchType]; [NoPatchType] is the empty string. *)
Inductive PatchType :=
| NoPatchType
| JSONPatchType
| MergePatchType
| StrategicMergePatchType.

(** [schema.GroupVersionKind] *)
Record GroupVersionKind := mkGVK { Group : string; Version : string; Kind : string }.

Definition GVK_eqb (a b : GroupVersionKind) : bool :=
  String.eqb (Group a) (Group b) && String.eqb (Version a) (Version b)
  && String.eqb (Kind a) (Kind b).

Definition GroupKind (gvk : GroupVersionKind) : string * string := (Group gvk, Kind gvk).

(** The functions of other libraries that the reconciler calls: [encoding/json],
    [jsonmergepatch], [strategicpatch] (with overwrite set). *)
Class Libraries := {
  OpenAPIModel : Type;
  json_Unmarshal : bytes -> error + option (gmap string JSON);
  json_Marshal : gmap string JSON -> error + bytes;
  json_MarshalPatch : JSONPatch -> error + bytes;
  CreateThreeWayJSONMergePatch : bytes -> bytes -> bytes -> error + bytes;
  CreateThreeWayMergePatch : bytes -> bytes -> bytes -> OpenAPIModel -> error + bytes
}.

(** ** Objects *)

(** [unstructured.Unstructured] as the reconciler reads it. *)
Record Unstructured := mkUnstructured {
  GetResourceVersion : string;
  GetDeletionTimestamp : option Time;
  MarshalJSON : error + bytes
}.

(** [apiv1.ResourceState] *)
Record ResourceState := mkResourceState {
  rsReconciled : bool;
  rsReady : option Time;
  rsDeleted : bool
}.

(** [apiv1.ResourceSlice], reduced to [Status.Resources]. *)
Record ResourceSlice := mkResourceSlice { Resources : list ResourceState }.

(** [reconstitution.ManifestRef] *)
Record ManifestRef := mkManifestRef { Slice : NamespacedName; Index : nat }.

(** [reconstitution.ResourceRef] *)
Record ResourceRef := mkResourceRef {
  refName : string;
  refNamespace : string;
  refKind : string
}.

(** [reconstitution.Resource].  The type is declared outside of these sources;
    the fields below are the attributes and the results of the methods that
    the reconciler uses.  The resource version last observed is mutable and
    lives in [State]. *)
Record Resource := mkResource {
  Ref : ResourceRef;
  Manifest : ManifestRef;
  GVK : GroupVersionKind;
  ReadinessGroup : Z;
  ReconcileInterval : option Duration;
  Patch : option JSONPatch;
  DisableUpdates : bool;
  Deleted : bool;
  Parse : error + Unstructured;
  Finalize : error + bytes;
  NeedsToBePatched : option Unstructured -> bool;
  EvalOptionally : option Unstructured -> option Time
}.

(** [reconstitution.SynthesisRef] *)
Record SynthesisRef := mkSynthesisRef {
  CompositionName : string;
  srNamespace : string;
  srUUID : string
}.

Definition NewSynthesisRef (comp : Composition) : SynthesisRef :=
  {| CompositionName := Name comp;
     srNamespace := Namespace comp;
     srUUID := GetCurrentSynthesisUUID comp |}.

Definition withUUID (uuid : string) (ref : SynthesisRef) : SynthesisRef :=
  {| CompositionName := CompositionName ref;
     srNamespace := srNamespace ref;
     srUUID := uuid |}.

(** [reconstitution.Request] *)
Record Request := mkRequest {
  reqComposition : NamespacedName;
  reqResource : ResourceRef
}.

(** The desired-state cache behind [reconstitution.Client]: its two lookups
    and the resources it holds for a synthesis. *)
Record Cache := mkCache {
  cache_Get : SynthesisRef -> ResourceRef -> option Resource;
  cache_GetDefiningCRD : SynthesisRef -> string * string -> option Resource;
  cache_Resources : SynthesisRef -> list Resource
}.

Inductive RangeDirection := RangeAsc | RangeDesc.

(** Modelled from the spec: [Cache.RangeByReadinessGroup] is not in these
    sources.  It enumerates the resources of the synthesis in strictly lower
    (descending) or strictly higher (ascending) readiness groups than the one
    given. *)
Definition RangeByReadinessGroup (cache : Cache) (synRef : SynthesisRef)
    (group : Z) (dir : RangeDirection) : list Resource :=
  List.filter
    (fun r => match dir with
              | RangeDesc => (ReadinessGroup r <? group)%Z
              | RangeAsc => (group <? ReadinessGroup r)%Z
              end)
    (cache_Resources cache synRef).

(** Modelled from the spec: [Resource.FindStatus] is not in these sources.  A
    slice carries the state of its i-th resource in [Status.Resources[i]]. *)
Definition FindStatus (r : Resource) (slice : ResourceSlice) : option ResourceState :=
  Resources slice !! Index (Manifest r).

(** Modelled from the spec: [Resource.Finalize] on an absent previous resource
    is not in these sources.  An absent previous state is treated as empty. *)
Definition FinalizeOptional (r : option Resource) : error + bytes :=
  match r with
  | Some r => Finalize r
  | None => inr []
  end.

(** ** The world of one reconcile *)

Section WithLibraries.
Context `{!Libraries}.

(** The answer to every request that one run may send, the clock and the
    number that [rand.Float64] draws from [[0, 1)]. *)
Record Env := mkEnv {
  now : Time;
  upstream_GetComposition : NamespacedName -> error + Composition;
  upstream_GetSlice : NamespacedName -> error + ResourceSlice;
  cache : Cache;
  downstream_GetMetadata : error + string;
  downstream_Get : error + Unstructured;
  downstream_Delete : option error;
  downstream_Create : option error;
  downstream_Patch : option error;
  discovery_Get : GroupVersionKind -> error + option OpenAPIModel;
  rand_Float64 : Q
}.

(** [time.Since] *)
Definition Since (env : Env) (t : Time) : Duration := Sub (now env) t.

(** [wait.Jitter(duration, maxFactor)] of [k8s.io/apimachinery]:
    [duration + time.Duration(rand.Float64() * maxFactor * float64(duration))],
    where a [maxFactor] that is not positive counts as 1.  The product is
    taken exactly, without the rounding of [float64]. *)
Definition Jitter (env : Env) (duration : Duration) (maxFactor : Q) : Duration :=
  let maxFactor := if Qle_bool maxFactor 0 then 1%Q else maxFactor in
  (duration + truncate (rand_Float64 env * maxFactor * inject_Z duration)%Q)%Z.

(** [Controller], reduced to its settings; the clients are in [Env]. *)
Record Controller := mkController {
  timeout : Duration;
  readinessPollInterval : Duration
}.

(** What a run does to the outside: its reads and writes of the resource, of
    the cache entry and of the status.  The lookup of the merge metadata in
    [buildPatch] is not recorded. *)
Inductive Effect :=
| DownstreamGetMetadata
| DownstreamGet
| CacheObserveVersion (rv : string)
| DownstreamDelete (res : option error)
| DownstreamCreate (obj : Unstructured) (res : option error)
| DownstreamPatch (patchType : PatchType) (patch : bytes) (res : option error)
| PatchStatusAsync (ref : ManifestRef) (deleted : bool) (ready : option Time).

(** The mutable part of the cache entry of the resource at hand: the
    downstream resource version last observed, empty when there is none. *)
Definition State := string.

(** *** Control flow

    A Go function body: it threads the state, records what it sends, and
    either falls through with a value or returns. *)
Inductive Flow (R A : Type) :=
| Returned (r : R)
| Continue (a : A).
#[global] Arguments Returned {R A} r.
#[global] Arguments Continue {R A} a.

Definition M (R A : Type) : Type := State -> State * list Effect * Flow R A.

Definition ret {R A} (a : A) : M R A := fun s => (s, [], Continue a).

Definition exit {R A} (r : R) : M R A := fun s => (s, [], Returned r).

Definition bind {R A B} (m : M R A) (k : A -> M R B) : M R B :=
  fun s =>
    match m s with
    | (s1, w1, Returned r) => (s1, w1, Returned r)
    | (s1, w1, Continue a) =>
        match k a s1 with
        | (s2, w2, f) => (s2, w1 ++ w2, f)
        end
    end.

(** A call: what the callee returns is the value of the call. *)
Definition call {R A} (f : State -> State * list Effect * A) : M R A :=
  fun s => match f s with (s1, w1, a) => (s1, w1, Continue a) end.

(** A whole body: falling off its end yields its last value. *)
Definition body {R} (m : M R R) : State -> State * list Effect * R :=
  fun s =>
    match m s with
    | (s1, w1, Returned r) => (s1, w1, r)
    | (s1, w1, Continue r) => (s1, w1, r)
    end.

Definition emit {R} (e : Effect) : M R unit := fun s => (s, [e], Continue tt).

Definition getLastSeen {R} : M R string := fun s => (s, [], Continue s).

Notation "x <~ m ;; k" := (bind m (fun x => k))
  (at level 100, m at next level, right associativity).
Notation "m ;;; k" := (bind m (fun _ => k))
  (at level 100, right associativity).

(** Modelled from the spec: [Resource.ObserveVersion], [Resource.HasBeenSeen]
    and [Resource.MatchesLastSeen] are not in these sources.  The cache entry
    holds the downstream resource version last observed, a string; the
    resource has been seen when one is recorded, and writing the empty string
    invalidates the record. *)
Definition ObserveVersion {R} (rv : string) : M R unit :=
  fun _ => (rv, [CacheObserveVersion rv], Continue tt).

Definition HasBeenSeen {R} : M R bool :=
  seen <~ getLastSeen ;; ret (negb (String.eqb seen "")).

Definition MatchesLastSeen {R} (rv : string) : M R bool :=
  seen <~ getLastSeen ;; ret (String.eqb seen rv).

(** ** Patches *)

(** [unstructured.SetNestedField] and [unstructured.RemoveNestedField] for a
    path of two fields.  Go maps are shared, so writing into the inner map
    shows in the outer one.  A first field that holds something else than a
    map is an error that the accessors drop. *)
Definition SetNestedField (obj : gmap string JSON) (value : JSON) (f1 f2 : string)
  : gmap string JSON :=
  match obj !! f1 with
  | Some (JObject m) => <[f1 := JObject (<[f2 := value]> m)]> obj
  | Some _ => obj
  | None => <[f1 := JObject {[f2 := value]}]> obj
  end.

Definition RemoveNestedField (obj : gmap string JSON) (f1 f2 : string)
  : gmap string JSON :=
  match obj !! f1 with
  | Some (JObject m) => <[f1 := JObject (delete f2 m)]> obj
  | _ => obj
  end.

(** [Unstructured.SetResourceVersion] *)
Definition SetResourceVersion (rv : string) (obj : gmap string JSON) : gmap string JSON :=
  if String.eqb rv "" then RemoveNestedField obj "metadata" "resourceVersion"
  else SetNestedField obj (JString rv) "metadata" "resourceVersion".

(** [Unstructured.SetCreationTimestamp(metav1.Time{})]: the zero time removes
    the field. *)
Definition SetCreationTimestampZero (obj : gmap string JSON) : gmap string JSON :=
  RemoveNestedField obj "metadata" "creationTimestamp".

(** [mungePatch].  A JSON null decodes to a nil map: the accessors then write
    to a map of their own and [len(patchMap)] is 0.  [meta.Accessor] cannot
    fail on an [Unstructured]. *)
Definition mungePatch (patch : bytes) (rv : string) : error + bytes :=
  match json_Unmarshal patch with
  | inl err => inl (Terminal err)
  | inr None => inr []
  | inr (Some patchMap) =>
      let patchMap := delete "status" patchMap in
      let patchMap := SetResourceVersion rv patchMap in
      let patchMap := SetCreationTimestampZero patchMap in
      if size patchMap <=? 1 then inr [] (* resource version only == empty patch *)
      else json_Marshal patchMap
  end.

(** [metav1.Time{}], the first instant of year 1. *)
Definition zeroTime : Time := (-62135596800 * 1000000000)%Z.

(** [patchResourceState]: the function handed to the write buffer. *)
Definition patchResourceState (deleted : bool) (ready : option Time)
    (rs : option ResourceState) : option ResourceState :=
  let next := {| rsDeleted := deleted; rsReady := ready; rsReconciled := true |} in
  match rs with
  | Some rs =>
      if Bool.eqb (rsDeleted rs) deleted && rsReconciled rs
         && (default zeroTime (rsReady rs) =? default zeroTime ready)%Z
      then None
      else Some next
  | None => Some next
  end.

(** [isErrMissingNS] *)
Definition isErrMissingNS (err : option error) : bool :=
  match err with
  | None => false
  | Some e => Contains (Error e) "an empty namespace may not be set"
  end.

Definition pdbGVK : GroupVersionKind :=
  {| Group := "policy"; Version := "v1"; Kind := "PodDisruptionBudget" |}.

(** [Controller.buildPatch]; [current] is not nil where it is called. *)
Definition buildPatch (env : Env) (prev : option Resource) (next : Resource)
    (current : Unstructured) : error + (bytes * PatchType) :=
  match Patch next with
  | Some p =>
      if negb (NeedsToBePatched next (Some current)) then inr ([], JSONPatchType)
      else
        match json_MarshalPatch p with
        | inl err => inl err
        | inr patch => inr (patch, JSONPatchType)
        end
  | None =>
      match FinalizeOptional prev with
      | inl err =>
          inl (Terminal (WrapError "building json representation of previous state" err))
      | inr prevJS =>
      match Finalize next with
      | inl err =>
          inl (Terminal (WrapError "building json representation of next state" err))
      | inr nextJS =>
      match MarshalJSON current with
      | inl err =>
          inl (Terminal (WrapError "building json representation of current state" err))
      | inr currentJS =>
      match discovery_Get env (GVK next) with
      | inl err => inl (WrapError "getting merge metadata" err)
      | inr model =>
          let merge :=
            match CreateThreeWayJSONMergePatch prevJS nextJS currentJS with
            | inl err => inl (Terminal err)
            | inr patch => inr (patch, MergePatchType)
            end in
          match model with
          | None => merge
          | Some model =>
              if GVK_eqb (GVK next) pdbGVK then merge
              else
                match CreateThreeWayMergePatch prevJS nextJS currentJS model with
                | inl err => inl (Terminal err)
                | inr patch => inr (patch, StrategicMergePatchType)
                end
          end
      end end end end
  end.

(** ** The reconciler *)

(** [Controller.getCurrent] *)
Definition getCurrent (env : Env) (resource : Resource)
  : State -> State * list Effect * (option Unstructured * bool * option error) :=
  body (
    seen <~ HasBeenSeen ;;
    (if seen && negb (Deleted resource) then
       emit DownstreamGetMetadata ;;;
       match downstream_GetMetadata env with
       | inl err => exit (None, false, Some err)
       | inr rv =>
           same <~ MatchesLastSeen rv ;;
           if same then exit (None, false, None) else ret tt
       end
     else ret tt) ;;;
    emit DownstreamGet ;;;
    match downstream_Get env with
    | inl err => exit (None, true, Some err)
    | inr current => exit (Some current, true, None)
    end).

(** [Controller.reconcileResource] *)
Definition reconcileResource (env : Env) (comp : Composition)
    (prev : option Resource) (resource : Resource) (current : option Unstructured)
  : State -> State * list Effect * (bool * option error) :=
  body (
    (if Deleted resource then
       match current with
       | None => exit (false, None)
       | Some cur =>
           match GetDeletionTimestamp cur with
           | Some _ => exit (false, None)
           | None =>
               if String.eqb
                    (default "" (Annotations comp !! "eno.azure.io/deletion-strategy"))
                    "orphan"
               then exit (false, None)
               else
                 emit (DownstreamDelete (downstream_Delete env)) ;;;
                 match downstream_Delete env with
                 | Some err =>
                     exit (false, IgnoreNotFound (Some (WrapError "deleting resource" err)))
                 | None => exit (true, None)
                 end
           end
       end
     else ret tt) ;;;
    (match Patch resource, current with
     | Some _, None => exit (false, None)
     | _, _ => ret tt
     end) ;;;
    match current with
    | None =>
        match Parse resource with
        | inl err => exit (false, Some (WrapError "invalid resource" err))
        | inr obj =>
            emit (DownstreamCreate obj (downstream_Create env)) ;;;
            match downstream_Create env with
            | Some err => exit (false, Some (WrapError "creating resource" err))
            | None => exit (true, None)
            end
        end
    | Some cur =>
        if DisableUpdates resource then exit (false, None)
        else
          match buildPatch env prev resource cur with
          | inl err => exit (false, Some (WrapError "building patch" err))
          | inr (patch, patchType) =>
              patch <~ match patchType with
                       | JSONPatchType => ret patch
                       | _ =>
                           match mungePatch patch (GetResourceVersion cur) with
                           | inl err =>
                               exit (false, Some (WrapError "adding resource version" err))
                           | inr patch => ret patch
                           end
                       end ;;
              if length patch =? 0 then exit (false, None)
              else
                emit (DownstreamPatch patchType patch (downstream_Patch env)) ;;;
                match downstream_Patch env with
                | Some err => exit (false, Some (WrapError "applying patch" err))
                | None => exit (true, None)
                end
          end
    end).

(** [status == nil || status.Ready == nil] *)
Definition notReady (status : option ResourceState) : bool :=
  match status with
  | None => true
  | Some status => match rsReady status with None => true | Some _ => false end
  end.

(** The loop over the resources of the earlier readiness groups. *)
Fixpoint rangeDependencies (env : Env) (dependencies : list Resource)
  : M (Result * option error) unit :=
  match dependencies with
  | [] => ret tt
  | dep :: rest =>
      match upstream_GetSlice env (Slice (Manifest dep)) with
      | inl err => exit (noRequeue, Some (WrapError "getting resource slice" err))
      | inr slice =>
          if notReady (FindStatus dep slice) then exit (noRequeue, None)
          else rangeDependencies env rest
      end
  end.

(** [Controller.Reconcile].  The deadline of the context shows as errors of
    the requests; the observation of the reconcile schedule only feeds a
    metric. *)
Definition Reconcile (c : Controller) (env : Env) (req : Request)
  : State -> State * list Effect * (Result * option error) :=
  body (
    comp <~ match upstream_GetComposition env (reqComposition req) with
            | inl err =>
                exit (noRequeue, IgnoreNotFound (Some (WrapError "getting composition" err)))
            | inr comp => ret comp
            end ;;
    (match CurrentSynthesis comp with
     | None => exit (noRequeue, None)
     | Some syn => if Failed syn then exit (noRequeue, None) else ret tt
     end) ;;;
    (* Find the current and (optionally) previous desired states in the cache *)
    let synRef := NewSynthesisRef comp in
    resource <~ match cache_Get (cache env) synRef (reqResource req) with
                | None => exit (noRequeue, None)
                | Some resource => ret resource
                end ;;
    let prev :=
      match PreviousSynthesis comp with
      | Some previous =>
          cache_Get (cache env) (withUUID (UUID previous) (NewSynthesisRef comp))
            (reqResource req)
      | None => None
      end in
    (* CRDs must be reconciled before any CRs that use the type they define *)
    (match cache_GetDefiningCRD (cache env) synRef (GroupKind (GVK resource)) with
     | None => ret tt
     | Some crdResource =>
         match upstream_GetSlice env (Slice (Manifest crdResource)) with
         | inl err => exit (noRequeue, Some (WrapError "getting resource slice" err))
         | inr slice =>
             match FindStatus crdResource slice with
             | None => exit (noRequeue, None)
             | Some status =>
                 match rsReady status with
                 | None => exit (noRequeue, None)
                 | Some readyTime =>
                     let delta := int64 (Second - Since env readyTime) in
                     if (0 <? delta)%Z
                     then exit ({| Requeue := false; RequeueAfter := delta |}, None)
                     else ret tt
                 end
             end
         end
     end) ;;;
    (* Fetch the current resource *)
    got <~ call (getCurrent env resource) ;;
    let '(current, hasChanged, err) := got in
    (match IgnoreNotFound err with
     | Some _ =>
         if negb (isErrMissingNS err)
         then exit (noRequeue,
                    match err with
                    | Some e => Some (WrapError "getting current state" e)
                    | None => None
                    end)
         else ret tt
     | None => ret tt
     end) ;;;
    (* Evaluate resource readiness *)
    slice <~ match upstream_GetSlice env (Slice (Manifest resource)) with
             | inl err => exit (noRequeue, Some (WrapError "getting resource slice" err))
             | inr slice => ret slice
             end ;;
    let status := FindStatus resource slice in
    let ready :=
      if notReady status then EvalOptionally resource current
      else match status with Some status => rsReady status | None => None end in
    (* Evaluate the readiness of resources in the previous readiness group *)
    (if (match status with None => true | Some status => negb (rsReconciled status) end)
        && negb (Deleted resource)
     then rangeDependencies env
            (RangeByReadinessGroup (cache env) synRef (ReadinessGroup resource) RangeDesc)
     else ret tt) ;;;
    modified <~ (if hasChanged : bool then
                   ObserveVersion "" ;;;
                   res <~ call (reconcileResource env comp prev resource current) ;;
                   match snd res with
                   | Some e => exit (noRequeue, Some e)
                   | None => ret (fst res)
                   end
                 else ret false) ;;
    (if modified : bool then exit ({| Requeue := true; RequeueAfter := 0%Z |}, None)
     else ret tt) ;;;
    (match current with
     | Some cur =>
         if negb (String.eqb (GetResourceVersion cur) "")
         then ObserveVersion (GetResourceVersion cur)
         else ret tt
     | None => ret tt
     end) ;;;
    (* Store the results *)
    let deleted :=
      match current with
      | None => true
      | Some cur => match GetDeletionTimestamp cur with Some _ => true | None => false end
      end in
    emit (PatchStatusAsync (Manifest resource) deleted ready) ;;;
    match ready with
    | None =>
        exit ({| Requeue := false;
                 RequeueAfter := Jitter env (readinessPollInterval c) (1 # 10) |}, None)
    | Some _ =>
        match ReconcileInterval resource with
        | Some interval =>
            if negb (Deleted resource)
            then exit ({| Requeue := false; RequeueAfter := Jitter env interval (1 # 10) |},
                       None)
            else exit (noRequeue, None)
        | None => exit (noRequeue, None)
        end
    end).

(** ** Reading a trace *)

Definition isCreate (e : Effect) : bool :=
  match e with DownstreamCreate _ _ => true | _ => false end.

Definition isPatch (e : Effect) : bool :=
  match e with DownstreamPatch _ _ _ => true | _ => false end.

Definition isDelete (e : Effect) : bool :=
  match e with DownstreamDelete _ => true | _ => false end.

(** A request that changes the downstream. *)
Definition isWrite (e : Effect) : bool := isCreate e || isPatch e || isDelete e.

(** A request that did change the downstream: a write that went through. *)
Definition hasModified (e : Effect) : bool :=
  match e with
  | DownstreamCreate _ None | DownstreamPatch _ _ None | DownstreamDelete None => true
  | _ => false
  end.

Definition isStatusWrite (e : Effect) : bool :=
  match e with PatchStatusAsync _ _ _ => true | _ => false end.


(** The patch body once [mungePatch] is done with it. *)
Definition munged (rv : string) (patchMap : gmap string JSON) : gmap string JSON :=
  SetCreationTimestampZero (SetResourceVersion rv (delete "status" patchMap)).

(** A request that only reads the downstream. *)
Definition isRead (e : Effect) : Prop := e = DownstreamGetMetadata \/ e = DownstreamGet.

(** ** The runs of the reconciler *)

(** A resource of an earlier readiness group whose slice can be read and
    records a Ready time for it. *)
Definition depReady (env : Env) (dep : Resource) : Prop :=
  exists slice status readyTime,
    upstream_GetSlice env (Slice (Manifest dep)) = inr slice /\
    FindStatus dep slice = Some status /\
    rsReady status = Some readyTime.

(** The gate of the readiness groups lets the resource through: its slice
    records it as reconciled, or it is marked Deleted, or every resource of
    the earlier groups of the synthesis is ready. *)
Definition gateOpen (env : Env) (comp : Composition) (resource : Resource)
    (status : option ResourceState) : Prop :=
  (exists st, status = Some st /\ rsReconciled st = true) \/
  Deleted resource = true \/
  Forall (depReady env)
    (RangeByReadinessGroup (cache env) (NewSynthesisRef comp)
       (ReadinessGroup resource) RangeDesc).

(** The readiness that [Reconcile] works out for the resource. *)
Definition readiness (resource : Resource) (status : option ResourceState)
    (current : option Unstructured) : option Time :=
  if notReady status then EvalOptionally resource current
  else match status with Some status => rsReady status | None => None end.

(** A run has got past every gate, with these values at hand. *)
Definition Reached (env : Env) (req : Request) (seen : State) (comp : Composition)
    (prev : option Resource) (resource : Resource) (current : option Unstructured)
    (hasChanged : bool) (wget : list Effect) (ready : option Time) : Prop :=
  upstream_GetComposition env (reqComposition req) = inr comp /\
  cache_Get (cache env) (NewSynthesisRef comp) (reqResource req) = Some resource /\
  prev = match PreviousSynthesis comp with
         | Some previous =>
             cache_Get (cache env) (withUUID (UUID previous) (NewSynthesisRef comp))
               (reqResource req)
         | None => None
         end /\
  (exists gerr, getCurrent env resource seen = (seen, wget, (current, hasChanged, gerr))) /\
  exists slice,
    upstream_GetSlice env (Slice (Manifest resource)) = inr slice /\
    ready = readiness resource (FindStatus resource slice) current /\
    gateOpen env comp resource (FindStatus resource slice).

(** What the end of [Reconcile] records in the cache entry. *)
Definition observation (current : option Unstructured) : list Effect :=
  match current with
  | Some cur =>
      if negb (String.eqb (GetResourceVersion cur) "")
      then [CacheObserveVersion (GetResourceVersion cur)]
      else []
  | None => []
  end.

Definition observed (current : option Unstructured) (s : State) : State :=
  match current with
  | Some cur =>
      if negb (String.eqb (GetResourceVersion cur) "") then GetResourceVersion cur else s
  | None => s
  end.

(** The Deleted flag that the status write reports. *)
Definition gone (current : option Unstructured) : bool :=
  match current with
  | None => true
  | Some cur => match GetDeletionTimestamp cur with Some _ => true | None => false end
  end.

(** The requeue at the end of a reconcile. *)
Definition requeue (c : Controller) (env : Env) (resource : Resource)
    (ready : option Time) : Result :=
  match ready with
  | None =>
      {| Requeue := false; RequeueAfter := Jitter env (readinessPollInterval c) (1 # 10) |}
  | Some _ =>
      match ReconcileInterval resource with
      | Some interval =>
          if Deleted resource then noRequeue
          else {| Requeue := false; RequeueAfter := Jitter env interval (1 # 10) |}
      | None => noRequeue
      end
  end.

(** The ways a run of [Reconcile] ends. *)
Inductive Outcome (c : Controller) (env : Env) (req : Request) (seen : State)
  : State -> list Effect -> Result -> option error -> Prop :=
| Stopped (w : list Effect) (result : Result) (err : option error) :
    Forall isRead w ->
    Outcome c env req seen seen w result err
| Errored (comp : Composition) (prev : option Resource) (resource : Resource)
    (current : option Unstructured) (wget wr : list Effect) (ready : option Time)
    (modified : bool) (e : error) :
    Reached env req seen comp prev resource current true wget ready ->
    reconcileResource env comp prev resource current "" = ("", wr, (modified, Some e)) ->
    Outcome c env req seen "" (wget ++ CacheObserveVersion "" :: wr) noRequeue (Some e)
| Modified (comp : Composition) (prev : option Resource) (resource : Resource)
    (current : option Unstructured) (wget wr : list Effect) (ready : option Time) :
    Reached env req seen comp prev resource current true wget ready ->
    reconcileResource env comp prev resource current "" = ("", wr, (true, None)) ->
    Outcome c env req seen "" (wget ++ CacheObserveVersion "" :: wr)
      {| Requeue := true; RequeueAfter := 0%Z |} None
| Completed (comp : Composition) (prev : option Resource) (resource : Resource)
    (current : option Unstructured) (hasChanged : bool) (wget wr : list Effect)
    (ready : option Time) (s : State) :
    Reached env req seen comp prev resource current hasChanged wget ready ->
    (hasChanged = false /\ wr = [] /\ s = seen) \/
    (hasChanged = true /\ s = "" /\
     exists wr1, reconcileResource env comp prev resource current "" = ("", wr1, (false, None)) /\
                 wr = CacheObserveVersion "" :: wr1) ->
    Outcome c env req seen (observed current s)
      (wget ++ wr ++ observation current
         ++ [PatchStatusAsync (Manifest resource) (gone current) ready])
      (requeue c env resource ready) None.

(** ** More to read runs with *)

(** [errors.Is(err, reconcile.TerminalError)]: a terminal error under any
    number of wrappers. *)
Fixpoint IsTerminal (e : error) : bool :=
  match e with
  | Terminal _ => true
  | WrapError _ err => IsTerminal err
  | StatusError _ _ => false
  | ErrorString _ => false
  end.

(** The CRD gate lets the resource through: no resource of the synthesis
    defines its kind, or the one that does has been ready for a second. *)
Definition crdGatePassed (env : Env) (comp : Composition) (resource : Resource) : Prop :=
  match cache_GetDefiningCRD (cache env) (NewSynthesisRef comp)
          (GroupKind (GVK resource)) with
  | None => True
  | Some crdResource =>
      exists slice status readyTime,
        upstream_GetSlice env (Slice (Manifest crdResource)) = inr slice /\
        FindStatus crdResource slice = Some status /\
        rsReady status = Some readyTime /\
        (Second <= now env - readyTime)%Z
  end.

(** A work item gets as far as the gates: its Composition is there with a
    current synthesis that has not failed, and the cache holds the resource. *)
Definition workable (env : Env) (req : Request) (comp : Composition)
    (resource : Resource) : Prop :=
  upstream_GetComposition env (reqComposition req) = inr comp /\
  (exists syn, CurrentSynthesis comp = Some syn /\ Failed syn = false) /\
  cache_Get (cache env) (NewSynthesisRef comp) (reqResource req) = Some resource.

(** The previous desired state that [Reconcile] looks up. *)
Definition previousOf (env : Env) (req : Request) (comp : Composition)
  : option Resource :=
  match PreviousSynthesis comp with
  | Some previous =>
      cache_Get (cache env) (withUUID (UUID previous) (NewSynthesisRef comp))
        (reqResource req)
  | None => None
  end.

End WithLibraries.

(** ** A worked example

    The three ConfigMaps of the ordering test, in readiness groups 0, 2 and
    4, held by one slice. *)

Definition emptyObject : bytes := [Byte.x7b; Byte.x7d].

(** A patch body with a status, a creation timestamp and one change. *)
Definition examplePatchBody : gmap string JSON :=
  <["status" := JObject ∅]>
    (<["metadata" := JObject {[ "creationTimestamp" := JNull ]}]>
       {[ "data" := JObject {[ "image" := JString "updated" ]} ]}).

(** Stand-ins for the libraries: every patch decodes to [examplePatchBody],
    and the merge of three documents is the next one. *)
Definition exampleLibraries : Libraries :=
  {| OpenAPIModel := unit;
     json_Unmarshal := fun _ => inr (Some examplePatchBody);
     json_Marshal := fun _ => inr emptyObject;
     json_MarshalPatch := fun _ => inr emptyObject;
     CreateThreeWayJSONMergePatch := fun _ nextJS _ => inr nextJS;
     CreateThreeWayMergePatch := fun _ nextJS _ _ => inr nextJS |}.

Definition exampleObject (rv : string) : Unstructured :=
  {| GetResourceVersion := rv;
     GetDeletionTimestamp := None;
     MarshalJSON := inr emptyObject |}.

(** A ConfigMap of the example, ready as soon as it exists. *)
Definition exampleResource (name : string) (index : nat) (group : Z)
    (deleted disableUpdates : bool) (interval : option Duration)
    (patch : option JSONPatch) : Resource :=
  {| Ref := {| refName := name; refNamespace := "default"; refKind := "ConfigMap" |};
     Manifest := {| Slice := ("default", "slice-0"); Index := index |};
     GVK := {| Group := ""; Version := "v1"; Kind := "ConfigMap" |};
     ReadinessGroup := group;
     ReconcileInterval := interval;
     Patch := patch;
     DisableUpdates := disableUpdates;
     Deleted := deleted;
     Parse := inr (exampleObject "");
     Finalize := inr emptyObject;
     NeedsToBePatched := fun _ => true;
     EvalOptionally := fun current =>
                         match current with Some _ => Some 100%Z | None => None end |}.

Definition obj0 : Resource := exampleResource "test-obj-0" 0 0 false false None None.
Definition obj1 : Resource := exampleResource "test-obj-1" 2 2 false false None None.
Definition obj2 : Resource := exampleResource "test-obj-2" 1 4 false false None None.

Definition exampleComposition : Composition :=
  flowcontrol.exampleComposition "comp-a" (Some (flowcontrol.exampleSynthesis "6f1c")).

Definition exampleRequest (name : string) : Request :=
  {| reqComposition := ("default", "comp-a");
     reqResource := {| refName := name; refNamespace := "default"; refKind := "ConfigMap" |} |}.

Definition exampleController : Controller :=
  {| timeout := (10 * Second)%Z; readinessPollInterval := (2 * Second)%Z |}.

Definition notFound : error := StatusError ReasonNotFound "not found".

(** A world with the resources of one synthesis, the states that their slice
    records, and the answers of the downstream to the reads, the create and
    the patch. *)
Definition exampleEnv (resources : list Resource) (statuses : list ResourceState)
    (metadata : error + string) (object : error + Unstructured)
    (create patch : option error) : @Env exampleLibraries :=
  {| now := 1000%Z;
     upstream_GetComposition := fun _ => inr exampleComposition;
     upstream_GetSlice := fun _ => inr {| Resources := statuses |};
     cache :=
       {| cache_Get := fun _ ref =>
            List.find (fun r => String.eqb (refName (Ref r)) (refName ref)) resources;
          cache_GetDefiningCRD := fun _ _ => None;
          cache_Resources := fun _ => resources |};
     downstream_GetMetadata := metadata;
     downstream_Get := object;
     downstream_Delete := None;
     downstream_Create := create;
     downstream_Patch := patch;
     discovery_Get := fun _ => inr None;
     rand_Float64 := 0%Q |}.

(** Nothing exists yet and nothing is on record. *)
Definition freshEnv : @Env exampleLibraries :=
  exampleEnv [obj0; obj2; obj1] [] (inl notFound) (inl notFound) None None.

(** The first ConfigMap, marked Deleted, with a reconcile interval; it is
    gone from the downstream and its slice records it as reconciled and
    ready. *)
Definition deletedObj0 : Resource :=
  exampleResource "test-obj-0" 0 0 true false (Some (60 * Second)%Z) None.

Definition deletedEnv : @Env exampleLibraries :=
  exampleEnv [deletedObj0]
    [ {| rsReconciled := true; rsReady := Some 50%Z; rsDeleted := false |} ]
    (inl notFound) (inl notFound) None None.




(** The first ConfigMap was seen at version 5 and is now at version 6; the
    patch runs into a conflict. *)
Definition conflictEnv : @Env exampleLibraries :=
  exampleEnv [obj0; obj2; obj1] [] (inr "6") (inr (exampleObject "6")) None
    (Some flowcontrol.conflict).

(** A read that fails for another reason than the object being absent. *)
Definition serverTimeout : error := StatusError ReasonOther "the server timed out".

Definition brokenEnv : @Env exampleLibraries :=
  exampleEnv [obj0; obj2; obj1] [] (inl serverTimeout) (inl serverTimeout) None None.

(** The first ConfigMap was seen at version 5 and still is at version 5. *)
Definition quietEnv : @Env exampleLibraries :=
  exampleEnv [obj0; obj2; obj1] [] (inr "5") (inr (exampleObject "5")) None None.

(** The first ConfigMap in its JSON patch form. *)
Definition patchObj0 : Resource :=
  exampleResource "test-obj-0" 0 0 false false None (Some []).

(** The same world as [conflictEnv], with the discovery of the merge metadata
    failing. *)
Definition blindEnv : @Env exampleLibraries :=
  {| now := now conflictEnv;
     upstream_GetComposition := upstream_GetComposition conflictEnv;
     upstream_GetSlice := upstream_GetSlice conflictEnv;
     cache := cache conflictEnv;
     downstream_GetMetadata := downstream_GetMetadata conflictEnv;
     downstream_Get := downstream_Get conflictEnv;
     downstream_Delete := downstream_Delete conflictEnv;
     downstream_Create := downstream_Create conflictEnv;
     downstream_Patch := downstream_Patch conflictEnv;
     discovery_Get := fun _ => inl serverTimeout;
     rand_Float64 := rand_Float64 conflictEnv |}.

(** A CRD of the synthesis, fourth in the slice, that defines the kind of
    every other resource. *)
Definition exampleCRD : Resource :=
  {| Ref := {| refName := "widgets.example.com"; refNamespace := "";
               refKind := "CustomResourceDefinition" |};
     Manifest := {| Slice := ("default", "slice-0"); Index := 3 |};
     GVK := {| Group := "apiextensions.k8s.io"; Version := "v1";
               Kind := "CustomResourceDefinition" |};
     ReadinessGroup := 0%Z;
     ReconcileInterval := None;
     Patch := None;
     DisableUpdates := false;
     Deleted := false;
     Parse := inr (exampleObject "");
     Finalize := inr emptyObject;
     NeedsToBePatched := fun _ => true;
     EvalOptionally := fun current =>
                         match current with Some _ => Some 100%Z | None => None end |}.

Definition crdEnv (statuses : list ResourceState) : @Env exampleLibraries :=
  {| now := now freshEnv;
     upstream_GetComposition := upstream_GetComposition freshEnv;
     upstream_GetSlice := fun _ => inr {| Resources := statuses |};
     cache :=
       {| cache_Get := cache_Get (cache freshEnv);
          cache_GetDefiningCRD := fun _ _ => Some exampleCRD;
          cache_Resources := fun _ => [obj0; obj2; obj1; exampleCRD] |};
     downstream_GetMetadata := downstream_GetMetadata freshEnv;
     downstream_Get := downstream_Get freshEnv;
     downstream_Delete := downstream_Delete freshEnv;
     downstream_Create := downstream_Create freshEnv;
     downstream_Patch := downstream_Patch freshEnv;
     discovery_Get := discovery_Get freshEnv;
     rand_Float64 := rand_Float64 freshEnv |}.

Definition unreconciled : ResourceState :=
  {| rsReconciled := false; rsReady := None; rsDeleted := false |}.

(** The slice when the CRD became ready half a microsecond ago. *)
Definition crdJustReady : list ResourceState :=
  [ unreconciled; unreconciled; unreconciled;
    {| rsReconciled := true; rsReady := Some 500%Z; rsDeleted := false |} ].

(** Stand-ins for the libraries when the desired state differs from the
    current one in a label only: every patch decodes to that change. *)
Definition labelPatchBody : gmap string JSON :=
  {[ "metadata" := JObject {[ "labels" := JObject {[ "app" := JString "web" ]} ]} ]}.

Definition labelLibraries : Libraries :=
  {| OpenAPIModel := unit;
     json_Unmarshal := fun _ => inr (Some labelPatchBody);
     json_Marshal := fun _ => inr emptyObject;
     json_MarshalPatch := fun _ => inr emptyObject;
     CreateThreeWayJSONMergePatch := fun _ nextJS _ => inr nextJS;
     CreateThreeWayMergePatch := fun _ nextJS _ _ => inr nextJS |}.

Definition labelEnv : @Env labelLibraries :=
  {| now := 1000%Z;
     upstream_GetComposition := fun _ => inr exampleComposition;
     upstream_GetSlice := fun _ => inr {| Resources := [] |};
     cache :=
       {| cache_Get := fun _ _ => Some obj0;
          cache_GetDefiningCRD := fun _ _ => None;
          cache_Resources := fun _ => [obj0] |};
     downstream_GetMetadata := inr "6";
     downstream_Get := inr (exampleObject "6");
     downstream_Delete := None;
     downstream_Create := None;
     downstream_Patch := None;
     discovery_Get := fun _ => inr None;
     rand_Float64 := 0%Q |}.

(** The error of a write that names no namespace. *)
Definition missingNamespace : error :=
  ErrorString "an empty namespace may not be set during creation".

End reconciliation.

(** * The watchdog *)

Module watchdog.

(** [apiv1.Synthesis] and [apiv1.Composition] with the fields that the
    watchdog reads. *)
Record Synthesis := mkSynthesis {
  Initialized : option Time;
  Synthesized : option Time;
  Reconciled : option Time;
  Ready : option Time;
  Failed : bool
}.

Record Composition := mkComposition {
  CreationTimestamp : Time;
  SynthesizerName : string;
  CurrentSynthesis : option Synthesis;
  PreviousSynthesis : option Synthesis
}.

(** [apiv1.Synthesizer] *)
Record Synthesizer := mkSynthesizer { synthesizerName : string; synthesizerGeneration : Z }.

Record watchdogController := mkWatchdog { threshold : Duration }.

(** One tick of the watchdog: the clock, the answers of the client, and the
    two methods of [apiv1.Composition] that are declared outside of these
    sources.  The clock and the stored Synthesizers do not move within a
    tick. *)
Record Env := mkEnv {
  now : Time;
  client_List : error + list Composition;
  client_Get : string -> error + Synthesizer;
  InputsExist : Composition -> Synthesizer -> bool;
  InputsOutOfLockstep : Composition -> Synthesizer -> bool
}.

(** [time.Since] *)
Definition Since (env : Env) (t : Time) : Duration := (now env - t)%Z.

Definition getInputsExist (env : Env) (comp : Composition) : bool :=
  match client_Get env (SynthesizerName comp) with
  | inl _ => true
  | inr syn => InputsExist env comp syn
  end.

Definition getNotInLockstep (env : Env) (comp : Composition) : bool :=
  match client_Get env (SynthesizerName comp) with
  | inl _ => true
  | inr syn => InputsOutOfLockstep env comp syn
  end.

Definition waitingOnInputs (c : watchdogController) (env : Env) (comp : Composition)
  : bool :=
  negb (getInputsExist env comp)
  && (threshold c <? Since env (CreationTimestamp comp))%Z.

Definition notInLockstep (c : watchdogController) (env : Env) (comp : Composition)
  : bool :=
  getNotInLockstep env comp
  && (threshold c <? Since env (CreationTimestamp comp))%Z.

Definition synthesisHasReconciled (syn : option Synthesis) : bool :=
  match syn with
  | Some syn => match Reconciled syn with Some _ => true | None => false end
  | None => false
  end.

Definition synthesisIsReady (syn : option Synthesis) : bool :=
  match syn with
  | Some syn => match Ready syn with Some _ => true | None => false end
  | None => false
  end.

Definition pendingInitialReconciliation (c : watchdogController) (env : Env)
    (comp : Composition) : bool :=
  negb (synthesisHasReconciled (CurrentSynthesis comp))
  && negb (synthesisHasReconciled (PreviousSynthesis comp))
  && (threshold c <? Since env (CreationTimestamp comp))%Z.

Definition pendingReconciliation (c : watchdogController) (env : Env)
    (comp : Composition) : bool :=
  match CurrentSynthesis comp with
  | None => false
  | Some current =>
      match Initialized current with
      | None => false
      | Some initialized =>
          negb (synthesisHasReconciled (CurrentSynthesis comp))
          && (threshold c <? Since env initialized)%Z
      end
  end.

Definition timeSinceReconcilePastThreshold (c : watchdogController) (env : Env)
    (comp : Composition) : bool :=
  match CurrentSynthesis comp with
  | None => false
  | Some current =>
      match Reconciled current with
      | None => false
      | Some reconciled => (threshold c <? Since env reconciled)%Z
      end
  end.

Definition pendingReadiness (c : watchdogController) (env : Env) (comp : Composition)
  : bool :=
  negb (synthesisIsReady (CurrentSynthesis comp))
  && negb (synthesisIsReady (PreviousSynthesis comp))
  && timeSinceReconcilePastThreshold c env comp.

Definition inTerminalError (comp : Composition) : bool :=
  match CurrentSynthesis comp with
  | None => false
  | Some synthesis =>
      match Synthesized synthesis with
      | None => Failed synthesis
      | Some _ => false
      end
  end.

(** The six gauges that a tick sets. *)
Record Gauges := mkGauges {
  waitingOnInputsGauge : nat;
  inputsNotInLockstepGauge : nat;
  pendingInitialReconciliationGauge : nat;
  stuckReconcilingGauge : nat;
  pendingReadinessGauge : nat;
  terminalErrorsGauge : nat
}.

Definition bump (b : bool) (n : nat) : nat := if b then S n else n.

(** One round of the loop over [list.Items]. *)
Definition tally (c : watchdogController) (env : Env) (g : Gauges) (comp : Composition)
  : Gauges :=
  {| waitingOnInputsGauge := bump (waitingOnInputs c env comp) (waitingOnInputsGauge g);
     inputsNotInLockstepGauge :=
       bump (notInLockstep c env comp) (inputsNotInLockstepGauge g);
     pendingInitialReconciliationGauge :=
       bump (pendingInitialReconciliation c env comp)
         (pendingInitialReconciliationGauge g);
     stuckReconcilingGauge :=
       bump (pendingReconciliation c env comp) (stuckReconcilingGauge g);
     pendingReadinessGauge :=
       bump (pendingReadiness c env comp) (pendingReadinessGauge g);
     terminalErrorsGauge := bump (inTerminalError comp) (terminalErrorsGauge g) |}.

(** [watchdogController.Reconcile]: the gauges it sets, if it gets to set
    them, and what it returns. *)
Definition Reconcile (c : watchdogController) (env : Env)
  : option Gauges * (Result * option error) :=
  match client_List env with
  | inl err => (None, (noRequeue, Some err))
  | inr items =>
      (Some (foldl (tally c env) (mkGauges 0 0 0 0 0 0) items), (noRequeue, None))
  end.

(** The age of a Composition. *)
Definition age (env : Env) (comp : Composition) : Duration :=
  Since env (CreationTimestamp comp).

(** ** A worked example

    The clock stands at 100 seconds and the threshold is 10 seconds. *)

Definition exampleWatchdog : watchdogController := {| threshold := (10 * Second)%Z |}.

Definition exampleSynthesis (initialized reconciled ready : option Time) : Synthesis :=
  {| Initialized := initialized;
     Synthesized := initialized;
     Reconciled := reconciled;
     Ready := ready;
     Failed := false |}.

Definition exampleComposition (created : Time) (current : option Synthesis)
  : Composition :=
  {| CreationTimestamp := created;
     SynthesizerName := "test-syn";
     CurrentSynthesis := current;
     PreviousSynthesis := None |}.

(** Created at 0 and initialized at 1 second, never reconciled. *)
Definition stuckComposition : Composition :=
  exampleComposition 0%Z (Some (exampleSynthesis (Some Second) None None)).

(** Reconciled at 2 seconds, never ready. *)
Definition unreadyComposition : Composition :=
  exampleComposition 0%Z
    (Some (exampleSynthesis (Some Second) (Some (2 * Second)%Z) None)).

(** Reconciled and ready. *)
Definition settledComposition : Composition :=
  exampleComposition 0%Z
    (Some (exampleSynthesis (Some Second) (Some (2 * Second)%Z) (Some (3 * Second)%Z))).

(** Created 5 seconds ago. *)
Definition youngComposition : Composition := exampleComposition (95 * Second)%Z None.

Definition exampleEnv (items : list Composition) (lookup : error + Synthesizer) : Env :=
  {| now := (100 * Second)%Z;
     client_List := inr items;
     client_Get := fun _ => lookup;
     InputsExist := fun _ _ => false;
     InputsOutOfLockstep := fun _ _ => false |}.

Definition testSynthesizer : Synthesizer :=
  {| synthesizerName := "test-syn"; synthesizerGeneration := 1 |}.

End watchdog.

(** * Properties of the concurrency limiter *)

Module limiter.
Import flowcontrol.

Lemma classify_ignored (comp : Composition) :
  classify comp = Ignored <-> ignored comp.
Proof.
  unfold classify, ignored.
  destruct (CurrentSynthesis comp) as [syn|]; [|intuition].
  destruct (Synthesized syn) eqn:Hs.
  - split; [intros _; right; exists syn; split; congruence | done].
  - destruct (String.eqb (UUID syn) ""); split; try done;
      intros [?|(syn' & ? & ?)]; congruence.
Qed.

Lemma classify_pending (comp : Composition) :
  classify comp = Pending <-> pending comp.
Proof.
  unfold classify, pending.
  destruct (CurrentSynthesis comp) as [syn|]; [|split; [done | intros (? & ? & _); done]].
  destruct (Synthesized syn) eqn:Hs.
  - split; [done | intros (syn' & ? & ? & _); simplify_eq].
  - destruct (String.eqb (UUID syn) "") eqn:Hu.
    + apply String.eqb_eq in Hu. split; [eauto | done].
    + apply String.eqb_neq in Hu.
      split; [done | intros (syn' & ? & _ & ?); simplify_eq].
Qed.

Lemma classify_active (comp : Composition) :
  classify comp = Active <-> active comp.
Proof.
  unfold classify, active.
  destruct (CurrentSynthesis comp) as [syn|]; [|split; [done | intros (? & ? & _); done]].
  destruct (Synthesized syn) eqn:Hs.
  - split; [done | intros (syn' & ? & ? & _); simplify_eq].
  - destruct (String.eqb (UUID syn) "") eqn:Hu.
    + apply String.eqb_eq in Hu.
      split; [done | intros (syn' & ? & _ & ?); simplify_eq].
    + apply String.eqb_neq in Hu. split; [eauto | done].
Qed.

Lemma isActive_spec (comp : Composition) : isActive comp = true <-> active comp.
Proof.
  rewrite <- classify_active. unfold isActive.
  destruct (classify comp); split; done.
Qed.

Lemma isPending_spec (comp : Composition) : isPending comp = true <-> pending comp.
Proof.
  rewrite <- classify_pending. unfold isPending.
  destruct (classify comp); split; done.
Qed.

(** One round of the loop, by the class of the Composition. *)
Lemma scanStep_classify (n : nat) (acc : list Composition) (comp : Composition) :
  scanStep (n, acc) comp
  = match classify comp with
    | Ignored => (n, acc)
    | Pending => (n, acc ++ [comp])
    | Active => (S n, acc)
    end.
Proof.
  unfold scanStep, classify.
  destruct (CurrentSynthesis comp) as [syn|]; [|done].
  destruct (Synthesized syn); [done|].
  by destruct (String.eqb (UUID syn) "").
Qed.

(** The loop computes the two classes, whatever it starts from. *)
Lemma scan_from (items : list Composition) (n : nat) (acc : list Composition) :
  foldl scanStep (n, acc) items
  = (n + length (List.filter isActive items), acc ++ List.filter isPending items).
Proof.
  revert n acc. induction items as [|comp items IH]; intros n acc.
  - simpl. by rewrite Nat.add_0_r, app_nil_r.
  - cbn [foldl List.filter]. rewrite scanStep_classify.
    unfold isActive at 1, isPending at 1.
    destruct (classify comp); rewrite IH; cbn [length].
    + done.
    + by rewrite <- app_assoc.
    + f_equal. lia.
Qed.

Lemma scan_spec (items : list Composition) :
  scan items = (activeCount items, List.filter isPending items).
Proof. unfold scan. by rewrite scan_from. Qed.

(** A patch touches one stored object, so it adds at most one active
    synthesis, whatever it holds. *)
Lemma serverPatch_activeCount (k : NamespacedName) (ops : list JSONPatchOp)
    (api api1 : Store) :
  serverPatch k ops api = inr api1 -> activeCount api1 <= S (activeCount api).
Proof.
  unfold activeCount. revert api1.
  induction api as [|comp rest IH]; intros api1 Hp; simpl in Hp; [done|].
  destruct (sameKey k comp).
  - destruct (applyPatch ops comp) as [comp'|]; [|done].
    injection Hp as <-. simpl.
    destruct (isActive comp'), (isActive comp); simpl; lia.
  - destruct (serverPatch k ops rest) as [|rest'] eqn:Hrest; [done|].
    injection Hp as <-. specialize (IH rest' eq_refl). simpl.
    destruct (isActive comp); simpl; lia.
Qed.

(** At the limit, as the listing shows it, a tick sends nothing and changes
    nothing. *)
Lemma Reconcile_at_limit (c : synthesisConcurrencyLimiter) (o : Oracle)
    (listing api : Store) :
  (limit c <= Z.of_nat (activeCount listing))%Z ->
  actions (ReconcileCached c o listing api) = [] /\
  api' (ReconcileCached c o listing api) = api /\
  result (ReconcileCached c o listing api) = noRequeue.
Proof.
  intros Hlim. unfold ReconcileCached.
  destruct (listErr o); [done|].
  rewrite scan_spec.
  destruct (Z.geb_spec (Z.of_nat (activeCount listing)) (limit c)); [done | lia].
Qed.

(** A tick keeps the number of active syntheses within the limit when its
    listing shows no fewer of them than the store holds. *)
Lemma Reconcile_preserves_limit (c : synthesisConcurrencyLimiter) (o : Oracle)
    (listing api : Store) :
  activeCount api <= activeCount listing ->
  (Z.of_nat (activeCount api) <= limit c)%Z ->
  (Z.of_nat (activeCount (api' (ReconcileCached c o listing api))) <= limit c)%Z.
Proof.
  intros Hfresh Hinv. unfold ReconcileCached.
  destruct (listErr o); [done|].
  rewrite scan_spec.
  destruct (Z.geb_spec (Z.of_nat (activeCount listing)) (limit c)) as [|Hlt]; [done|].
  destruct (List.filter isPending listing) as [|first others]; [done|].
  destruct (client_Status_Patch _ _ _ _) as [e|api1] eqn:Hpatch; [done|].
  simpl. unfold client_Status_Patch in Hpatch.
  destruct (patchErr o); [done|].
  apply serverPatch_activeCount in Hpatch. lia.
Qed.

Lemma step_preserves_limit (c : synthesisConcurrencyLimiter) (api api1 : Store) :
  step c api api1 ->
  (Z.of_nat (activeCount api) <= limit c)%Z ->
  (Z.of_nat (activeCount api1) <= limit c)%Z.
Proof.
  intros [o listing api0 Hfresh|api0 api2 Hle] Hinv.
  - by apply Reconcile_preserves_limit.
  - lia.
Qed.

(** C1, amended.  A tick counts as active exactly the listed Compositions
    whose current synthesis has a UUID and no Synthesized timestamp, collects
    as pending exactly those with an empty UUID and no Synthesized timestamp,
    and leaves out those without a current synthesis or with a synthesized
    one; when the count has reached the limit it sends no patch and leaves
    the store as it is.  From a store that respects the limit, every store
    that the system reaches while the cache keeps up respects it: there, each
    tick works on a listing that shows no fewer active syntheses than the
    store holds. *)
Theorem concurrency_limit_invariant (c : synthesisConcurrencyLimiter)
    (api api1 : Store) :
  (Z.of_nat (activeCount api) <= limit c)%Z ->
  reachable c api api1 ->
  (Z.of_nat (activeCount api1) <= limit c)%Z /\
  (forall listing, scan listing = (activeCount listing, List.filter isPending listing)) /\
  (forall comp, isActive comp = true <-> active comp) /\
  (forall comp, isPending comp = true <-> pending comp) /\
  (forall comp, (isActive comp = false /\ isPending comp = false) <-> ignored comp) /\
  (forall o listing,
      (limit c <= Z.of_nat (activeCount listing))%Z ->
      actions (ReconcileCached c o listing api1) = [] /\
      api' (ReconcileCached c o listing api1) = api1 /\
      result (ReconcileCached c o listing api1) = noRequeue).
Proof.
  intros Hinit Hreach.
  split; [|split; [|split; [|split; [|split]]]].
  - induction Hreach as [|api1 api2 _ IH Hstep]; [done|].
    by eapply step_preserves_limit.
  - apply scan_spec.
  - apply isActive_spec.
  - apply isPending_spec.
  - intros comp. rewrite <- classify_ignored. unfold isActive, isPending.
    destruct (classify comp); intuition congruence.
  - intros o listing. apply Reconcile_at_limit.
Qed.

Lemma concurrency_limit_invariant_witness :
  (Z.of_nat (activeCount waitingStore) <= limit exampleLimiter)%Z /\
  reachable exampleLimiter waitingStore
    (api' (ReconcileCached exampleLimiter (exampleOracle None) waitingStore waitingStore)) /\
  (Z.of_nat
     (activeCount
        (api' (ReconcileCached exampleLimiter (exampleOracle None) waitingStore
                 waitingStore)))
   <= limit exampleLimiter)%Z.
Proof.
  assert (H0 : (Z.of_nat (activeCount waitingStore) <= limit exampleLimiter)%Z)
    by (vm_compute; discriminate).
  assert (H1 : reachable exampleLimiter waitingStore
                 (api' (ReconcileCached exampleLimiter (exampleOracle None)
                          waitingStore waitingStore)))
    by (eapply reachable_step; [apply reachable_refl | by apply step_tick]).
  split; [exact H0 | split; [exact H1 |]].
  exact (proj1 (concurrency_limit_invariant exampleLimiter waitingStore _ H0 H1)).
Defined.

(** The claim as the specification words it fails when the cache lags
    behind.  Two Compositions wait and the limit is one.  A first tick
    dispatches the first of them.  A second tick still lists both as waiting
    and none as active, draws the second one, and its patch goes through, as
    the UUID of that Composition is empty on the server: two syntheses are
    active. *)
Lemma stale_listing_counterexample :
  (Z.of_nat (activeCount queueStore) <= limit exampleLimiter)%Z /\
  api' (Reconcile exampleLimiter (exampleOracle None) queueStore)
  = [ exampleComposition "comp-a" (Some (exampleSynthesis "6f1c"));
      exampleComposition "comp-b" (Some (exampleSynthesis "")) ] /\
  api' (ReconcileCached exampleLimiter secondOracle queueStore
          [ exampleComposition "comp-a" (Some (exampleSynthesis "6f1c"));
            exampleComposition "comp-b" (Some (exampleSynthesis "")) ])
  = [ exampleComposition "comp-a" (Some (exampleSynthesis "6f1c"));
      exampleComposition "comp-b" (Some (exampleSynthesis "9e2b")) ] /\
  activeCount
    [ exampleComposition "comp-a" (Some (exampleSynthesis "6f1c"));
      exampleComposition "comp-b" (Some (exampleSynthesis "9e2b")) ]
  = 2 /\
  ~ (Z.of_nat
       (activeCount
          [ exampleComposition "comp-a" (Some (exampleSynthesis "6f1c"));
            exampleComposition "comp-b" (Some (exampleSynthesis "9e2b")) ])
     <= limit exampleLimiter)%Z.
Proof.
  split; [vm_compute; discriminate|]. split; [reflexivity|]. split; [reflexivity|].
  split; [reflexivity|]. vm_compute. by intros H; apply H.
Qed.

(** ** Dispatch *)







(** ** What a tick leaves alone *)

(** The ways a tick ends: without a request, or with one patch for a waiting
    Composition, whose fate decides the rest. *)
Lemma Reconcile_cases (c : synthesisConcurrencyLimiter) (o : Oracle) (api : Store) :
  (api' (Reconcile c o api) = api /\ actions (Reconcile c o api) = [] /\
   result (Reconcile c o api) = noRequeue /\ err (Reconcile c o api) = listErr o) \/
  (listErr o = None /\ (Z.of_nat (activeCount api) < limit c)%Z /\
   exists next,
     List.filter isPending api !! rand_Intn o (length (List.filter isPending api))
     = Some next /\
     actions (Reconcile c o api) = [StatusPatch next (dispatchPatch (newUUID o))] /\
     match client_Status_Patch o next (dispatchPatch (newUUID o)) api with
     | inl e =>
         api' (Reconcile c o api) = api /\ result (Reconcile c o api) = noRequeue /\
         err (Reconcile c o api)
         = Some (WrapError "writing uuid to composition status" e)
     | inr api1 =>
         api' (Reconcile c o api) = api1 /\
         result (Reconcile c o api) = {| Requeue := true; RequeueAfter := cooldown c |} /\
         err (Reconcile c o api) = None
     end).
Proof.
  unfold Reconcile, ReconcileCached. destruct (listErr o) as [e|] eqn:Hlist; [by left|].
  rewrite scan_spec.
  destruct (Z.geb_spec (Z.of_nat (activeCount api)) (limit c)) as [|Hlt]; [by left|].
  destruct (List.filter isPending api) as [|first others] eqn:Hfilter; [by left|].
  right. split; [done|]. split; [lia|].
  set (waiting := first :: others) in *.
  assert (Hi : rand_Intn o (length waiting) < length waiting)
    by (apply Nat.mod_upper_bound; done).
  destruct (lookup_lt_is_Some_2 _ _ Hi) as [next Hnext].
  exists next. rewrite nth_lookup, Hnext. simpl. split; [done|].
  by destruct (client_Status_Patch o next (dispatchPatch (newUUID o)) api).
Qed.

(** The server lets the limiter's patch through only on an object whose
    current synthesis has no UUID yet. *)
Lemma applyPatch_dispatch_inv (uuid : string) (comp comp1 : Composition) :
  applyPatch (dispatchPatch uuid) comp = Some comp1 ->
  exists syn,
    CurrentSynthesis comp = Some syn /\ UUID syn = "" /\
    comp1 = withCurrentSynthesis (setUUID uuid syn) comp.
Proof.
  unfold dispatchPatch, applyPatch, applyOp. simpl.
  destruct (CurrentSynthesis comp) as [syn|] eqn:Hsyn; simpl.
  - destruct (String.eqb (UUID syn) "") eqn:Huuid; [|done].
    apply String.eqb_eq in Huuid. rewrite Hsyn. intros [= <-]. by exists syn.
  - by rewrite Hsyn.
Qed.

Lemma serverPatch_dispatch_inv (k : NamespacedName) (uuid : string) (api api1 : Store) :
  serverPatch k (dispatchPatch uuid) api = inr api1 ->
  exists pre comp post syn,
    api = pre ++ comp :: post /\
    CurrentSynthesis comp = Some syn /\ UUID syn = "" /\
    api1 = pre ++ withCurrentSynthesis (setUUID uuid syn) comp :: post.
Proof.
  revert api1. induction api as [|comp rest IH]; intros api1 Hp.
  { simpl in Hp. discriminate. }
  cbn [serverPatch] in Hp.
  destruct (sameKey k comp).
  - destruct (applyPatch (dispatchPatch uuid) comp) as [comp1|] eqn:Happly; [|done].
    injection Hp as <-.
    apply applyPatch_dispatch_inv in Happly as (syn & Hsyn & Huuid & ->).
    by exists [], comp, rest, syn.
  - destruct (serverPatch k (dispatchPatch uuid) rest) as [|rest1] eqn:Hrest; [done|].
    injection Hp as <-.
    destruct (IH rest1 eq_refl) as (pre & comp0 & post & syn & -> & Hsyn & Huuid & ->).
    by exists (comp :: pre), comp0, post, syn.
Qed.

(** The store after a tick. *)
Lemma tick_store (c : synthesisConcurrencyLimiter) (o : Oracle) (api : Store) :
  api' (Reconcile c o api) = api \/
  exists pre comp post syn,
    api = pre ++ comp :: post /\
    CurrentSynthesis comp = Some syn /\ UUID syn = "" /\
    api' (Reconcile c o api)
    = pre ++ withCurrentSynthesis (setUUID (newUUID o) syn) comp :: post.
Proof.
  destruct (Reconcile_cases c o api)
    as [(Hidle & _) | (_ & _ & next & _ & _ & Hpatch)]; [by left|].
  destruct (client_Status_Patch o next (dispatchPatch (newUUID o)) api)
    as [e|api1] eqn:Hsend.
  - left. by destruct Hpatch.
  - right. destruct Hpatch as (-> & _). unfold client_Status_Patch in Hsend.
    destruct (patchErr o); [done|]. by apply serverPatch_dispatch_inv in Hsend.
Qed.

(** X1.  A tick changes one Composition at most, and of it the UUID of the
    current synthesis alone, which was empty: every other Composition of the
    store, every other field, the order and the number of Compositions stay as
    they were, whatever the oracle, the limit and the keys in the store. *)
Theorem tick_changes_one_uuid (c : synthesisConcurrencyLimiter) (o : Oracle)
    (api : Store) :
  api' (Reconcile c o api) = api \/
  exists pre comp post syn,
    api = pre ++ comp :: post /\
    CurrentSynthesis comp = Some syn /\ UUID syn = "" /\
    api' (Reconcile c o api)
    = pre ++ withCurrentSynthesis (setUUID (newUUID o) syn) comp :: post.
Proof. exact (tick_store c o api). Qed.

Lemma tick_keeps_assigned (c : synthesisConcurrencyLimiter) (o : Oracle) (api : Store)
    (i : nat) (comp : Composition) :
  api !! i = Some comp -> GetCurrentSynthesisUUID comp <> "" ->
  api' (Reconcile c o api) !! i = Some comp.
Proof.
  intros Hi Hassigned. unfold Store in *.
  destruct (tick_store c o api)
    as [-> | (pre & comp0 & post & syn & -> & Hsyn & Huuid & ->)]; [done|].
  destruct (decide (i = length pre)) as [-> | Hne].
  - rewrite list_lookup_middle in Hi by done. injection Hi as ->.
    unfold GetCurrentSynthesisUUID in Hassigned. by rewrite Hsyn in Hassigned.
  - destruct (decide (i < length pre)).
    + rewrite lookup_app_l in Hi |- * by done. done.
    + rewrite lookup_app_r in Hi |- * by lia.
      destruct (i - length pre) as [|j] eqn:Hj; [lia|]. done.
Qed.

(** X2.  Once the current synthesis of a Composition has a UUID, no row of
    ticks touches that Composition: it stays in its place in the store with
    its UUID and everything else. *)
Theorem assigned_uuid_is_stable (c : synthesisConcurrencyLimiter)
    (oracles : list Oracle) (api : Store) (i : nat) (comp : Composition) :
  api !! i = Some comp ->
  GetCurrentSynthesisUUID comp <> "" ->
  ticks c oracles api !! i = Some comp.
Proof.
  unfold ticks. revert api. induction oracles as [|o oracles IH]; intros api Hi Hassigned.
  - done.
  - simpl. apply IH; [|done]. by apply tick_keeps_assigned.
Qed.

Lemma assigned_uuid_is_stable_witness :
  busyStore !! 0 = Some (exampleComposition "comp-a" (Some (exampleSynthesis "41d0"))) /\
  GetCurrentSynthesisUUID (exampleComposition "comp-a" (Some (exampleSynthesis "41d0")))
  <> "" /\
  ticks {| limit := 3; cooldown := Second |}
    [exampleOracle None; exampleOracle (Some conflict); exampleOracle None] busyStore !! 0
  = Some (exampleComposition "comp-a" (Some (exampleSynthesis "41d0"))).
Proof.
  assert (H0 : busyStore !! 0
               = Some (exampleComposition "comp-a" (Some (exampleSynthesis "41d0"))))
    by reflexivity.
  assert (H1 : GetCurrentSynthesisUUID
                 (exampleComposition "comp-a" (Some (exampleSynthesis "41d0"))) <> "")
    by discriminate.
  split; [exact H0|]. split; [exact H1|].
  exact (assigned_uuid_is_stable _ _ _ _ _ H0 H1).
Defined.

(** ** Progress and choice *)




(** X4.  Below the limit, every waiting Composition can be the one that the
    tick picks: for each of them some state of the random source makes the
    tick send its patch for that Composition. *)
Theorem every_pending_can_be_drawn (c : synthesisConcurrencyLimiter) (o : Oracle)
    (api : Store) (comp : Composition) :
  listErr o = None ->
  (Z.of_nat (activeCount api) < limit c)%Z ->
  In comp api ->
  isPending comp = true ->
  exists n,
    actions (Reconcile c (withSeed n o) api)
    = [StatusPatch comp (dispatchPatch (newUUID o))].
Proof.
  intros Hlist Hactive Hin Hpending.
  assert (Hwaits : comp ∈ List.filter isPending api)
    by (apply list_elem_of_In, filter_In; done).
  apply list_elem_of_lookup in Hwaits as [i Hi].
  exists i. pose proof (lookup_lt_Some _ _ _ Hi) as Hlt.
  unfold Reconcile, ReconcileCached. simpl. rewrite Hlist, scan_spec.
  destruct (Z.geb_spec (Z.of_nat (activeCount api)) (limit c)); [lia|].
  destruct (List.filter isPending api) as [|first others] eqn:Hfilter; [done|].
  unfold rand_Intn. simpl seed. rewrite Nat.mod_small by done.
  rewrite nth_lookup, Hi. simpl.
  by destruct (client_Status_Patch _ _ _ _).
Qed.

Lemma every_pending_can_be_drawn_witness :
  listErr (exampleOracle None) = None /\
  (Z.of_nat (activeCount busyStore) < limit {| limit := 3; cooldown := Second |})%Z /\
  In (exampleComposition "comp-b" (Some (exampleSynthesis ""))) busyStore /\
  isPending (exampleComposition "comp-b" (Some (exampleSynthesis ""))) = true /\
  exists n,
    actions (Reconcile {| limit := 3; cooldown := Second |}
               (withSeed n (exampleOracle None)) busyStore)
    = [StatusPatch (exampleComposition "comp-b" (Some (exampleSynthesis "")))
         (dispatchPatch "6f1c")].
Proof.
  assert (H0 : listErr (exampleOracle None) = None) by reflexivity.
  assert (H1 : (Z.of_nat (activeCount busyStore)
                < limit {| limit := 3; cooldown := Second |})%Z) by reflexivity.
  assert (H2 : In (exampleComposition "comp-b" (Some (exampleSynthesis ""))) busyStore)
    by (right; left; reflexivity).
  assert (H3 : isPending (exampleComposition "comp-b" (Some (exampleSynthesis "")))
               = true) by reflexivity.
  do 4 (split; [assumption|]).
  exact (every_pending_can_be_drawn _ _ _ _ H0 H1 H2 H3).
Defined.

(** X5.  A tick that cannot list the Compositions, or that finds none
    waiting, sends nothing, leaves the store as it is and asks for no requeue;
    it returns the error of the listing as it got it, and none otherwise. *)
Theorem idle_tick (c : synthesisConcurrencyLimiter) (o : Oracle) (api : Store) :
  listErr o <> None \/ List.filter isPending api = [] ->
  api' (Reconcile c o api) = api /\
  actions (Reconcile c o api) = [] /\
  result (Reconcile c o api) = noRequeue /\
  err (Reconcile c o api) = listErr o.
Proof.
  intros Hidle.
  destruct (Reconcile_cases c o api)
    as [Hdone | (Hlist & _ & next & Hnext & _)]; [done|].
  destruct Hidle as [Hfail | Hnone]; [done|].
  rewrite Hnone in Hnext. done.
Qed.

Lemma idle_tick_witness :
  (listErr (exampleOracle None) <> None \/
   List.filter isPending [exampleComposition "comp-c" None] = []) /\
  Reconcile exampleLimiter (exampleOracle None) [exampleComposition "comp-c" None]
  = {| api' := [exampleComposition "comp-c" None];
       actions := [];
       result := noRequeue;
       err := None |}.
Proof.
  assert (H0 : listErr (exampleOracle None) <> None \/
               List.filter isPending [exampleComposition "comp-c" None] = [])
    by (right; reflexivity).
  split; [exact H0|].
  pose proof (idle_tick exampleLimiter (exampleOracle None)
                [exampleComposition "comp-c" None] H0) as (Hs & Ha & Hr & He).
  destruct (Reconcile exampleLimiter (exampleOracle None)
              [exampleComposition "comp-c" None]) as [s a r e].
  simpl in *. by subst.
Defined.

End limiter.

(** * Properties of the resource reconciler *)

Module reconciler.
Import reconciliation.

Section Properties.
Context `{!Libraries}.

(** Opens a function body into its cases. *)
Ltac open_body :=
  unfold body, bind, call, exit, ret, emit, HasBeenSeen, MatchesLastSeen,
    getLastSeen, ObserveVersion in *.

Ltac by_cases := repeat (simpl in *; case_match; simplify_eq); simpl in *; try done.

(** Checks a property of every effect of an explicit trace. *)
Ltac each_effect :=
  repeat (apply List.Forall_cons; [by auto |]); try apply List.Forall_nil.

(** ** getCurrent *)

(** C10.  For a resource marked Deleted, [getCurrent] skips the
    metadata-only read: whatever version was last observed and whatever the
    downstream holds, it sends the full read and nothing else, and reports
    the state as changed. *)
Theorem getCurrent_deleted_full_read (env : Env) (resource : Resource) (seen : State) :
  Deleted resource = true ->
  getCurrent env resource seen
  = (seen, [DownstreamGet],
     match downstream_Get env with
     | inl e => (None, true, Some e)
     | inr current => (Some current, true, None)
     end) /\
  snd (fst (snd (getCurrent env resource seen))) = true /\
  DownstreamGetMetadata ∉ snd (fst (getCurrent env resource seen)).
Proof.
  intros Hdel.
  assert (Hrun : getCurrent env resource seen
                 = (seen, [DownstreamGet],
                    match downstream_Get env with
                    | inl e => (None, true, Some e)
                    | inr current => (Some current, true, None)
                    end)).
  { unfold getCurrent. open_body. rewrite Hdel. simpl. rewrite andb_false_r.
    by destruct (downstream_Get env). }
  rewrite Hrun. split; [done|]. simpl. split.
  - by destruct (downstream_Get env).
  - intros Hin. apply list_elem_of_singleton in Hin. discriminate.
Qed.

(** Without a recorded version there is no metadata-only read either. *)
Lemma getCurrent_unseen (env : Env) (resource : Resource) :
  getCurrent env resource ""
  = ("", [DownstreamGet],
     match downstream_Get env with
     | inl e => (None, true, Some e)
     | inr current => (Some current, true, None)
     end).
Proof. unfold getCurrent. open_body. simpl. by destruct (downstream_Get env). Qed.

(** [getCurrent] only reads. *)
Lemma getCurrent_reads (env : Env) (resource : Resource) (seen seen1 : State)
    (w : list Effect) (got : option Unstructured * bool * option error) :
  getCurrent env resource seen = (seen1, w, got) ->
  seen1 = seen /\ Forall isRead w.
Proof.
  unfold getCurrent. open_body. intros Hrun.
  by_cases; split; try done; unfold isRead; each_effect.
Qed.

(** ** reconcileResource *)

(** C7.  For a resource marked Deleted whose downstream object exists and
    carries no deletion timestamp: when the Composition is annotated with
    eno.azure.io/deletion-strategy=orphan nothing is sent; otherwise one delete
    is sent, and a not-found answer to it counts as success, with no error
    passed on. *)
Theorem deleted_resource_is_removed (env : Env) (comp : Composition)
    (prev : option Resource) (resource : Resource) (cur : Unstructured)
    (seen : State) :
  Deleted resource = true ->
  GetDeletionTimestamp cur = None ->
  reconcileResource env comp prev resource (Some cur) seen
  = if String.eqb (default "" (Annotations comp !! "eno.azure.io/deletion-strategy"))
         "orphan"
    then (seen, [], (false, None))
    else (seen, [DownstreamDelete (downstream_Delete env)],
          match downstream_Delete env with
          | None => (true, None)
          | Some e =>
              if IsNotFound e then (false, None)
              else (false, Some (WrapError "deleting resource" e))
          end).
Proof.
  intros Hdel Hts. unfold reconcileResource. open_body. rewrite Hdel, Hts.
  destruct (String.eqb _ "orphan"); [done|].
  destruct (downstream_Delete env) as [e|]; simpl; [|done].
  by destruct (IsNotFound e).
Qed.

(** A resource marked Deleted is never created nor patched. *)
Lemma reconcileResource_deleted_no_update (env : Env) (comp : Composition)
    (prev : option Resource) (resource : Resource) (current : option Unstructured)
    (seen seen1 : State) (w : list Effect) (res : bool * option error) :
  Deleted resource = true ->
  reconcileResource env comp prev resource current seen = (seen1, w, res) ->
  Forall (fun e => isCreate e = false /\ isPatch e = false) w.
Proof.
  intros Hdel. unfold reconcileResource. open_body. rewrite Hdel. intros Hrun.
  by_cases; each_effect.
Qed.

(** C6.  A resource whose desired form is an explicit JSON patch is never
    created: with no downstream object, [reconcileResource] sends nothing at
    all and reports no modification; whatever the downstream holds it sends
    no create; and it sends a patch only when the downstream object exists. *)
Theorem reconcileResource_json_patch_never_creates (env : Env) (comp : Composition)
    (prev : option Resource) (resource : Resource) (current : option Unstructured)
    (seen seen1 : State) (w : list Effect) (res : bool * option error)
    (p : JSONPatch) :
  Patch resource = Some p ->
  reconcileResource env comp prev resource current seen = (seen1, w, res) ->
  (current = None -> w = [] /\ res = (false, None)) /\
  Forall (fun e => isCreate e = false) w /\
  (Exists (fun e => isPatch e = true) w -> current <> None).
Proof.
  intros Hpatch. unfold reconcileResource. open_body. rewrite Hpatch. intros Hrun.
  destruct current as [cur|].
  - split; [done|]. split; [|done].
    by_cases; each_effect.
  - split.
    + by_cases.
    + by_cases; split; try each_effect; intros Hex; by apply Exists_nil in Hex.
Qed.

(** ** buildPatch *)

Lemma GVK_eqb_spec (a b : GroupVersionKind) : GVK_eqb a b = true <-> a = b.
Proof.
  unfold GVK_eqb. destruct a as [g v k], b as [g' v' k']. simpl.
  rewrite !andb_true_iff, !String.eqb_eq. split.
  - by intros [[-> ->] ->].
  - by intros [= -> -> ->].
Qed.

(** C4.  For a resource whose desired form is not an explicit JSON patch, and
    once the three documents and the schema lookup are at hand, [buildPatch]
    merges the previous desired state (the empty document when there is no
    previous resource), the next desired state and the current state: by a
    strategic merge, typed as such, when discovery has a schema and the kind
    is not policy/v1 PodDisruptionBudget; by a JSON merge, typed as a merge
    patch, when there is no schema or the kind is that one.  A patch it
    returns is strategic exactly in the first case and a merge patch exactly
    in the second. *)
Theorem buildPatch_three_way_merge (env : Env) (prev : option Resource)
    (next : Resource) (current : Unstructured) (prevJS nextJS currentJS : bytes)
    (model : option OpenAPIModel) :
  Patch next = None ->
  FinalizeOptional prev = inr prevJS ->
  Finalize next = inr nextJS ->
  MarshalJSON current = inr currentJS ->
  discovery_Get env (GVK next) = inr model ->
  (prev = None -> prevJS = []) /\
  (forall m, model = Some m ->
     GVK next <> {| Group := "policy"; Version := "v1"; Kind := "PodDisruptionBudget" |} ->
     buildPatch env prev next current
     = match CreateThreeWayMergePatch prevJS nextJS currentJS m with
       | inr patch => inr (patch, StrategicMergePatchType)
       | inl e => inl (Terminal e)
       end) /\
  (model = None \/
   GVK next = {| Group := "policy"; Version := "v1"; Kind := "PodDisruptionBudget" |} ->
     buildPatch env prev next current
     = match CreateThreeWayJSONMergePatch prevJS nextJS currentJS with
       | inr patch => inr (patch, MergePatchType)
       | inl e => inl (Terminal e)
       end) /\
  (forall patch patchType,
     buildPatch env prev next current = inr (patch, patchType) ->
     (patchType = StrategicMergePatchType <->
      (exists m, model = Some m) /\
      GVK next <> {| Group := "policy"; Version := "v1"; Kind := "PodDisruptionBudget" |}) /\
     (patchType = MergePatchType <->
      model = None \/
      GVK next = {| Group := "policy"; Version := "v1"; Kind := "PodDisruptionBudget" |})).
Proof.
  intros Hpatch Hprev Hnext Hcur Hmodel.
  fold pdbGVK.
  assert (Hrun : buildPatch env prev next current
                 = match model with
                   | Some m =>
                       if GVK_eqb (GVK next) pdbGVK
                       then match CreateThreeWayJSONMergePatch prevJS nextJS currentJS with
                            | inr patch => inr (patch, MergePatchType)
                            | inl e => inl (Terminal e)
                            end
                       else match CreateThreeWayMergePatch prevJS nextJS currentJS m with
                            | inr patch => inr (patch, StrategicMergePatchType)
                            | inl e => inl (Terminal e)
                            end
                   | None =>
                       match CreateThreeWayJSONMergePatch prevJS nextJS currentJS with
                       | inr patch => inr (patch, MergePatchType)
                       | inl e => inl (Terminal e)
                       end
                   end).
  { unfold buildPatch. rewrite Hpatch, Hprev, Hnext, Hcur, Hmodel.
    destruct model as [m|]; [|done]. by destruct (GVK_eqb _ _). }
  rewrite Hrun. clear Hrun.
  destruct (GVK_eqb (GVK next) pdbGVK) eqn:Hpdb.
  - apply GVK_eqb_spec in Hpdb.
    split; [by intros ->; simpl in Hprev; injection Hprev|].
    split; [intros m -> Hne; done|].
    split; [intros _; by destruct model|].
    intros patch patchType Hres.
    assert (patchType = MergePatchType) as ->.
    { destruct model; destruct (CreateThreeWayJSONMergePatch _ _ _); congruence. }
    split; split; try done; [intros [_ ?]; done | auto].
  - assert (Hne : GVK next <> pdbGVK).
    { intros Heq. apply GVK_eqb_spec in Heq. congruence. }
    split; [by intros ->; simpl in Hprev; injection Hprev|].
    split; [by intros m ->|].
    split; [intros [-> | ?]; done|].
    intros patch patchType Hres.
    destruct model as [m|].
    + assert (patchType = StrategicMergePatchType) as ->.
      { destruct (CreateThreeWayMergePatch _ _ _ _); congruence. }
      split; split; try done; [eauto | intros [?|?]; done].
    + assert (patchType = MergePatchType) as ->.
      { destruct (CreateThreeWayJSONMergePatch _ _ _); congruence. }
      split; split; try done; [intros [[m ?] _]; done | auto].
Qed.

(** ** mungePatch *)

Lemma RemoveNestedField_other (obj : gmap string JSON) (f1 f2 k : string) :
  k <> f1 -> RemoveNestedField obj f1 f2 !! k = obj !! k.
Proof.
  intros Hk. unfold RemoveNestedField.
  destruct (obj !! f1) as [[]|]; try done. by rewrite lookup_insert_ne.
Qed.

Lemma SetNestedField_other (obj : gmap string JSON) (v : JSON) (f1 f2 k : string) :
  k <> f1 -> SetNestedField obj v f1 f2 !! k = obj !! k.
Proof.
  intros Hk. unfold SetNestedField.
  destruct (obj !! f1) as [[]|]; try done; by rewrite lookup_insert_ne.
Qed.

Lemma SetResourceVersion_other (obj : gmap string JSON) (rv k : string) :
  k <> "metadata" -> SetResourceVersion rv obj !! k = obj !! k.
Proof.
  intros Hk. unfold SetResourceVersion.
  destruct (String.eqb rv "");
    [by apply RemoveNestedField_other | by apply SetNestedField_other].
Qed.

Lemma munged_other (rv : string) (patchMap : gmap string JSON) (k : string) :
  k <> "metadata" -> munged rv patchMap !! k = delete "status" patchMap !! k.
Proof.
  intros Hk. unfold munged, SetCreationTimestampZero.
  by rewrite RemoveNestedField_other, SetResourceVersion_other.
Qed.

(** With metadata missing or an object, a resource version ends up in it and
    the creation timestamp is gone; the other metadata fields stay. *)
Lemma munged_metadata (rv : string) (patchMap : gmap string JSON)
    (meta : gmap string JSON) :
  rv <> "" ->
  patchMap !! "metadata" = None /\ meta = ∅ \/
  patchMap !! "metadata" = Some (JObject meta) ->
  munged rv patchMap !! "metadata"
  = Some (JObject (delete "creationTimestamp" (<["resourceVersion" := JString rv]> meta))).
Proof.
  intros Hrv Hmeta. unfold munged, SetCreationTimestampZero, SetResourceVersion.
  apply String.eqb_neq in Hrv. rewrite Hrv.
  unfold SetNestedField. rewrite lookup_delete_ne by done.
  destruct Hmeta as [[Hnone ->] | Hsome].
  - rewrite Hnone. unfold RemoveNestedField. rewrite lookup_insert_eq.
    rewrite lookup_insert_eq. by rewrite insert_empty.
  - rewrite Hsome. unfold RemoveNestedField. rewrite lookup_insert_eq.
    by rewrite lookup_insert_eq.
Qed.

Lemma mungePatch_unfold (patch : bytes) (rv : string) (patchMap : gmap string JSON) :
  json_Unmarshal patch = inr (Some patchMap) ->
  mungePatch patch rv
  = if size (munged rv patchMap) <=? 1 then inr [] else json_Marshal (munged rv patchMap).
Proof. intros Hparse. unfold mungePatch. by rewrite Hparse. Qed.

(** A patch that changes metadata only, labels say, has one field once the
    resource version is in: [mungePatch] drops it like an empty one. *)
Lemma mungePatch_drops_metadata_only_patch (patch : bytes) (rv : string)
    (meta : gmap string JSON) :
  json_Unmarshal patch = inr (Some {[ "metadata" := JObject meta ]}) ->
  mungePatch patch rv = inr [].
Proof.
  intros Hparse. rewrite (mungePatch_unfold _ _ _ Hparse).
  assert (Hsize : size (munged rv {[ "metadata" := JObject meta ]}) = 1).
  { unfold munged, SetCreationTimestampZero, SetResourceVersion,
      SetNestedField, RemoveNestedField.
    rewrite delete_singleton_ne by done.
    destruct (String.eqb rv "").
    - rewrite lookup_singleton_eq, insert_singleton_eq.
      rewrite lookup_singleton_eq, insert_singleton_eq.
      apply map_size_singleton.
    - rewrite lookup_singleton_eq, insert_singleton_eq.
      rewrite lookup_singleton_eq, insert_singleton_eq.
      apply map_size_singleton. }
  by rewrite Hsize.
Qed.

(** With an empty patch at the end of the patch computation, nothing is sent. *)
Lemma reconcileResource_empty_patch (env : Env) (comp : Composition)
    (prev : option Resource) (resource : Resource) (cur : Unstructured)
    (seen : State) (patch : bytes) (patchType : PatchType) :
  Deleted resource = false ->
  DisableUpdates resource = false ->
  buildPatch env prev resource cur = inr (patch, patchType) ->
  match patchType with
  | JSONPatchType => patch = []
  | _ => mungePatch patch (GetResourceVersion cur) = inr []
  end ->
  reconcileResource env comp prev resource (Some cur) seen = (seen, [], (false, None)).
Proof.
  intros Hdel Hupd Hbuild Hempty. unfold reconcileResource. open_body.
  rewrite Hdel, Hupd, Hbuild.
  destruct (Patch resource); destruct patchType; simpl;
    first [by rewrite Hempty | by subst patch].
Qed.

(** C5.  On a patch that decodes to an object, [mungePatch] works on the
    body [munged]: the status field is gone, every other field next to
    metadata is kept, and, metadata being an object or missing and the
    observed resource version not empty, metadata carries that resource
    version and no creation timestamp.  The result is the empty patch when
    the body has one field at most, in particular when it holds the resource
    version only.  A reconcile whose patch computation ends in an empty patch
    sends no request. *)
Theorem mungePatch_strips_and_skips (patch : bytes) (rv : string)
    (patchMap : gmap string JSON) :
  json_Unmarshal patch = inr (Some patchMap) ->
  munged rv patchMap !! "status" = None /\
  (forall k, k <> "status" -> k <> "metadata" -> munged rv patchMap !! k = patchMap !! k) /\
  (forall meta,
      rv <> "" ->
      patchMap !! "metadata" = None /\ meta = ∅ \/
      patchMap !! "metadata" = Some (JObject meta) ->
      exists meta1,
        munged rv patchMap !! "metadata" = Some (JObject meta1) /\
        meta1 !! "resourceVersion" = Some (JString rv) /\
        meta1 !! "creationTimestamp" = None /\
        forall k, k <> "resourceVersion" -> k <> "creationTimestamp" ->
                  meta1 !! k = meta !! k) /\
  mungePatch patch rv
  = (if size (munged rv patchMap) <=? 1 then inr []
     else json_Marshal (munged rv patchMap)) /\
  (munged rv patchMap = {[ "metadata" := JObject {[ "resourceVersion" := JString rv ]} ]} ->
   mungePatch patch rv = inr []) /\
  (forall env comp prev resource cur seen raw patchType,
      Deleted resource = false ->
      DisableUpdates resource = false ->
      buildPatch env prev resource cur = inr (raw, patchType) ->
      match patchType with
      | JSONPatchType => raw = []
      | _ => mungePatch raw (GetResourceVersion cur) = inr []
      end ->
      reconcileResource env comp prev resource (Some cur) seen = (seen, [], (false, None))).
Proof.
  intros Hparse.
  split; [|split; [|split; [|split; [|split]]]].
  - rewrite munged_other by done. apply lookup_delete_eq.
  - intros k Hs Hm. rewrite munged_other by done. by rewrite lookup_delete_ne.
  - intros meta Hrv Hmeta. eexists. split; [by apply munged_metadata|].
    split; [|split].
    + rewrite lookup_delete_ne by done. apply lookup_insert_eq.
    + apply lookup_delete_eq.
    + intros k Hk1 Hk2. rewrite lookup_delete_ne by done.
      by rewrite lookup_insert_ne.
  - by apply mungePatch_unfold.
  - intros Honly. rewrite (mungePatch_unfold _ _ _ Hparse), Honly.
    by rewrite map_size_singleton.
  - intros. by eapply reconcileResource_empty_patch.
Qed.

(** ** Reconcile *)

Lemma body_bind_inv {R A : Type} (m : M R A) (k : A -> M R R) (s s' : State)
    (w : list Effect) (r : R) :
  body (bind m k) s = (s', w, r) ->
  m s = (s', w, Returned r) \/
  exists s1 w1 a w2,
    m s = (s1, w1, Continue a) /\ body (k a) s1 = (s', w2, r) /\ w = w1 ++ w2.
Proof.
  unfold body, bind. destruct (m s) as [[s1 w1] [r1|a]].
  - intros [= -> -> ->]. by left.
  - intros Hk. right. exists s1, w1, a.
    destruct (k a s1) as [[s2 w2] [r2|r2]]; injection Hk as <- <- <-; by exists w2.
Qed.

(** [reconcileResource] leaves the cache entry alone and records nothing but
    writes; it reports a modification exactly when a write went through. *)
Lemma reconcileResource_inv (env : Env) (comp : Composition)
    (prev : option Resource) (resource : Resource) (current : option Unstructured)
    (seen seen1 : State) (w : list Effect) (modified : bool) (err : option error) :
  reconcileResource env comp prev resource current seen = (seen1, w, (modified, err)) ->
  seen1 = seen /\
  Forall (fun e => isWrite e = true) w /\
  (modified = false -> Forall (fun e => hasModified e = false) w) /\
  (modified = true -> err = None).
Proof.
  unfold reconcileResource. open_body. intros Hrun.
  by_cases; repeat split; try done; intros; each_effect.
Qed.

Lemma notReady_false (status : option ResourceState) :
  notReady status = false <->
  exists st readyTime, status = Some st /\ rsReady st = Some readyTime.
Proof.
  unfold notReady. destruct status as [st|].
  - destruct (rsReady st) eqn:Hr; split; try done.
    + intros _. eauto.
    + intros (st' & t & [= <-] & Ht). congruence.
  - split; [done | intros (? & ? & ? & _); done].
Qed.

(** The loop over the dependencies neither sends nor records anything, and
    falls through exactly when every dependency is ready. *)
Lemma rangeDependencies_inv (env : Env) (deps : list Resource) (s : State) :
  (rangeDependencies env deps s = (s, [], Continue tt) /\ Forall (depReady env) deps) \/
  (exists r, rangeDependencies env deps s = (s, [], Returned r) /\
             ~ Forall (depReady env) deps).
Proof.
  induction deps as [|dep rest IH]; simpl.
  - left. split; [done | constructor].
  - destruct (upstream_GetSlice env (Slice (Manifest dep))) as [e|slice] eqn:Hslice.
    + right. eexists. split; [done|].
      intros Hall. inversion Hall as [|? ? (sl & ? & ? & Hs & _) _]; congruence.
    + destruct (notReady (FindStatus dep slice)) eqn:Hnr.
      * right. eexists. split; [done|].
        intros Hall. inversion Hall as [|? ? (sl & st & t & Hs & Hst & Ht) _]; subst.
        assert (notReady (FindStatus dep slice) = false); [|congruence].
        apply notReady_false. rewrite Hslice in Hs. injection Hs as <-. eauto.
      * apply notReady_false in Hnr as (st & t & Hst & Ht).
        destruct IH as [[Hrun Hall] | (r & Hrun & Hnot)].
        -- left. split; [done|]. constructor; [|done]. by exists slice, st, t.
        -- right. exists r. split; [done|].
           intros Hall. inversion Hall; subst. by apply Hnot.
Qed.

Lemma Outcome_eq (c : Controller) (env : Env) (req : Request)
    (seen s s' : State) (w w' : list Effect) (r r' : Result) (e e' : option error) :
  Outcome c env req seen s w r e ->
  s = s' -> w = w' -> r = r' -> e = e' ->
  Outcome c env req seen s' w' r' e'.
Proof. by intros Hout <- <- <- <-. Qed.

(** A stage that neither sends nor records anything. *)
Ltac silent Hm :=
  match type of Hm with
  | _ ?s0 = (?s, ?w, _) =>
      let Hs := fresh in
      assert (Hs : s = s0 /\ w = [])
        by (clear -Hm; unfold exit, ret in Hm; by_cases);
      destruct Hs as [-> ->]
  end.

(** The gate of the readiness groups, as [Reconcile] runs it. *)
Lemma readinessGate_inv (env : Env) (comp : Composition) (resource : Resource)
    (status : option ResourceState) (s s' : State) (w' : list Effect)
    (f : Flow (Result * option error) ()) :
  (if match status with
      | Some status => negb (rsReconciled status)
      | None => true
      end && negb (Deleted resource)
   then rangeDependencies env
          (RangeByReadinessGroup (cache env) (NewSynthesisRef comp)
             (ReadinessGroup resource) RangeDesc)
   else ret ()) s = (s', w', f) ->
  s' = s /\ w' = [] /\
  (forall a, f = Continue a -> gateOpen env comp resource status).
Proof.
  intros Hg. unfold gateOpen.
  destruct (Deleted resource) eqn:Hdel.
  { rewrite andb_false_r in Hg. unfold ret in Hg. injection Hg as <- <- <-. auto. }
  rewrite andb_true_r in Hg.
  assert (Hclosed :
            match status with
            | Some status => negb (rsReconciled status)
            | None => true
            end = false ->
            exists st, status = Some st /\ rsReconciled st = true).
  { destruct status as [st|]; [|done]. intros Hrec%negb_false_iff. by exists st. }
  destruct (match status with Some _ => _ | None => _ end).
  - destruct (rangeDependencies_inv env
                (RangeByReadinessGroup (cache env) (NewSynthesisRef comp)
                   (ReadinessGroup resource) RangeDesc) s)
      as [[Hr Hall] | (r & Hr & _)];
      rewrite Hr in Hg; injection Hg as <- <- <-; repeat split; auto.
    intros a [=].
  - unfold ret in Hg. injection Hg as <- <- <-. auto.
Qed.

Lemma Reconcile_outcome (c : Controller) (env : Env) (req : Request)
    (seen seen1 : State) (w : list Effect) (result : Result) (err : option error) :
  Reconcile c env req seen = (seen1, w, (result, err)) ->
  Outcome c env req seen seen1 w result err.
Proof.
  unfold Reconcile. intros Hrun.
  (* the Composition *)
  apply body_bind_inv in Hrun as [Hrun | (s1 & w1 & comp0 & w2 & Hm & Hrun & ->)].
  { unfold exit, ret in Hrun. by_cases; apply Stopped; constructor. }
  unfold exit, ret in Hm.
  destruct (upstream_GetComposition _ _) as [|comp] eqn:Hcomp; [done|].
  injection Hm as <- <- <-. simpl.
  apply body_bind_inv in Hrun as [Hrun | (s1 & w1 & [] & w3 & Hm & Hrun & ->)].
  { unfold exit, ret in Hrun. by_cases; apply Stopped; constructor. }
  silent Hm. clear Hm. simpl.
  (* the desired state *)
  apply body_bind_inv in Hrun as [Hrun | (s1 & w1 & resource0 & w4 & Hm & Hrun & ->)].
  { unfold exit, ret in Hrun. by_cases; apply Stopped; constructor. }
  unfold exit, ret in Hm.
  destruct (cache_Get _ _ _) as [resource|] eqn:Hres; [|done].
  injection Hm as <- <- <-. simpl.
  (* the CRD gate *)
  apply body_bind_inv in Hrun as [Hrun | (s1 & w1 & [] & w5 & Hm & Hrun & ->)].
  { unfold exit, ret in Hrun. by_cases; apply Stopped; constructor. }
  silent Hm. clear Hm. simpl.
  (* the current state *)
  apply body_bind_inv in Hrun as [Hrun | (s1 & wget0 & got0 & w6 & Hm & Hrun & ->)].
  { unfold call in Hrun. by destruct (getCurrent _ _ _) as [[? ?] ?]. }
  unfold call in Hm.
  destruct (getCurrent env resource seen) as [[sg wget] got] eqn:Hget.
  injection Hm as <- <- <-.
  destruct (getCurrent_reads _ _ _ _ _ _ Hget) as [-> Hreads].
  destruct got as [[current hasChanged] gerr]. cbv beta iota in Hrun.
  apply body_bind_inv in Hrun as [Hrun | (s1 & w1 & [] & w7 & Hm & Hrun & ->)].
  { assert (seen1 = seen /\ w6 = []) as [-> ->]
      by (clear -Hrun; unfold exit, ret in Hrun; by_cases).
    apply Stopped. by rewrite app_nil_r. }
  silent Hm. clear Hm. simpl.
  (* the slice *)
  apply body_bind_inv in Hrun as [Hrun | (s1 & w1 & slice0 & w8 & Hm & Hrun & ->)].
  { assert (seen1 = seen /\ w7 = []) as [-> ->]
      by (clear -Hrun; unfold exit, ret in Hrun; by_cases).
    apply Stopped. by rewrite app_nil_r. }
  unfold exit, ret in Hm.
  destruct (upstream_GetSlice _ _) as [|slice] eqn:Hslice; [done|].
  injection Hm as <- <- <-. simpl.
  (* the gate of the readiness groups *)
  apply body_bind_inv in Hrun as [Hrun | (s1 & w1 & [] & w9 & Hm & Hrun & ->)].
  { apply (readinessGate_inv env comp) in Hrun as (-> & -> & _).
    apply Stopped. by rewrite app_nil_r. }
  apply (readinessGate_inv env comp) in Hm as (-> & -> & Hopen).
  specialize (Hopen () eq_refl).
  simpl.
  assert (Hreached :
            Reached env req seen comp
              match PreviousSynthesis comp with
              | Some previous =>
                  cache_Get (cache env) (withUUID (UUID previous) (NewSynthesisRef comp))
                    (reqResource req)
              | None => None
              end resource current hasChanged wget
              (readiness resource (FindStatus resource slice) current)).
  { clear Hrun. unfold Reached. do 3 (split; [done|]). split; [by eexists|].
    by exists slice. }
  clear Hopen. unfold readiness in Hreached.
  set (prev := match PreviousSynthesis comp with Some _ => _ | None => _ end) in *.
  set (ready := if notReady _ then _ else _) in *.
  clearbody prev ready.
  (* the reconcile proper *)
  apply body_bind_inv in Hrun as [Hrun | (s1 & w1 & modified & w10 & Hm & Hrun & ->)].
  { destruct hasChanged; [|done].
    unfold bind, ObserveVersion, call in Hrun.
    destruct (reconcileResource env comp prev resource current "")
      as [[sr wr] [m rerr]] eqn:Hrr.
    destruct (reconcileResource_inv _ _ _ _ _ _ _ _ _ _ Hrr) as (-> & _).
    simpl in Hrun. destruct rerr as [e|]; [|done].
    unfold exit in Hrun. injection Hrun as <- <- <- <-.
    eapply Outcome_eq; [by eapply Errored | done | | done | done].
    simpl. by rewrite app_nil_r. }
  assert (Hrec :
            (hasChanged = false /\ modified = false /\ s1 = seen /\ w1 = []) \/
            (hasChanged = true /\ s1 = "" /\
             exists wr, reconcileResource env comp prev resource current ""
                        = ("", wr, (modified, None)) /\
                        w1 = CacheObserveVersion "" :: wr)).
  { clear Hrun. destruct hasChanged.
    - right. unfold bind, ObserveVersion, call in Hm.
      destruct (reconcileResource env comp prev resource current "")
        as [[sr wr] [m rerr]] eqn:Hrr.
      destruct (reconcileResource_inv _ _ _ _ _ _ _ _ _ _ Hrr) as (-> & _).
      simpl in Hm. destruct rerr as [e|]; [done|].
      unfold ret in Hm. injection Hm as <- <- <-.
      split; [done|]. split; [done|]. exists wr. split; [done|].
      simpl. by rewrite app_nil_r.
    - left. unfold ret in Hm. by injection Hm as <- <- <-. }
  clear Hm.
  apply body_bind_inv in Hrun as [Hrun | (s2 & w2 & [] & w11 & Hm & Hrun & ->)].
  { destruct modified; [|done]. unfold exit in Hrun. injection Hrun as <- <- <- <-.
    destruct Hrec as [(_ & [=] & _) | (-> & -> & wr & Hrr & ->)].
    eapply Outcome_eq; [by eapply Modified | done | | done | done].
    simpl. by rewrite app_nil_r. }
  assert (modified = false /\ s2 = s1 /\ w2 = []) as (-> & -> & ->).
  { clear -Hm. destruct modified; [done|]. unfold ret in Hm. by injection Hm as <- <-. }
  clear Hm.
  (* the cache entry and the status *)
  apply body_bind_inv in Hrun as [Hrun | (s3 & w3 & [] & w12 & Hm & Hrun & ->)].
  { clear -Hrun. unfold ObserveVersion, ret in Hrun. by by_cases. }
  assert (s3 = observed current s1 /\ w3 = observation current) as [-> ->].
  { clear -Hm. unfold observed, observation, ObserveVersion, ret in *.
    destruct current as [cur|]; [|by injection Hm as <- <-].
    destruct (negb _); by injection Hm as <- <-. }
  clear Hm.
  apply body_bind_inv in Hrun as [Hrun | (s4 & w4 & [] & w13 & Hm & Hrun & ->)].
  { done. }
  unfold emit in Hm. injection Hm as <- <-.
  fold (gone current) in Hrun |- *.
  assert (seen1 = observed current s1 /\ w13 = [] /\
          result = requeue c env resource ready /\ err = None) as (-> & -> & -> & ->).
  { clear -Hrun. unfold body, exit, requeue in *. by_cases. }
  clear Hrun.
  eapply Outcome_eq; [eapply (Completed _ _ _ _ _ _ _ _ _ _ w1 _ s1); [done|] | done | | done | done].
  - destruct Hrec as [(-> & _ & -> & ->) | (-> & -> & wr & Hrr & ->)]; [by left|].
    right. split; [done|]. split; [done|]. by exists wr.
  - done.
Qed.


(** *** What the parts of a trace are made of *)

Lemma Forall_Exists_absurd {A : Type} (P Q : A -> Prop) (l : list A) :
  Forall P l -> Exists Q l -> (forall x, P x -> Q x -> False) -> False.
Proof.
  intros Hall Hex Hpq. induction Hex as [x l Hq | x l _ IH];
    inversion Hall; subst; eauto.
Qed.



Lemma Reached_reads (env : Env) (req : Request) (seen : State) (comp : Composition)
    (prev : option Resource) (resource : Resource) (current : option Unstructured)
    (hasChanged : bool) (wget : list Effect) (ready : option Time) :
  Reached env req seen comp prev resource current hasChanged wget ready ->
  Forall isRead wget.
Proof.
  intros (_ & _ & _ & [gerr Hget] & _). by apply getCurrent_reads in Hget as [_ ?].
Qed.




(** In a trace that opens with reads and a marker, whatever comes later
    comes after the marker. *)
Lemma marker_before (l1 l2 pre post : list Effect) (m e : Effect) :
  l1 ++ m :: l2 = pre ++ e :: post ->
  Forall isRead l1 -> ~ isRead e -> e <> m ->
  m ∈ pre.
Proof.
  revert pre. induction l1 as [|a l1 IH]; intros pre Heq Hreads Hne Hm.
  - destruct pre as [|b pre]; simpl in Heq.
    + injection Heq as -> _. done.
    + injection Heq as <- _. left.
  - inversion Hreads as [|? ? Ha Hl1]; subst.
    destruct pre as [|b pre]; simpl in Heq.
    + injection Heq as -> _. done.
    + injection Heq as <- Heq. right. by apply IH.
Qed.

Lemma write_is_not_read (e : Effect) : isWrite e = true -> ~ isRead e.
Proof. by intros Hw [-> | ->]. Qed.

Lemma reads_are_not_writes (w : list Effect) :
  Forall isRead w -> Forall (fun e => isWrite e = false) w.
Proof. intros Hall. eapply Forall_impl; [done|]. by intros e [-> | ->]. Qed.

Lemma reads_do_not_modify (w : list Effect) :
  Forall isRead w -> Forall (fun e => hasModified e = false) w.
Proof. intros Hall. eapply Forall_impl; [done|]. by intros e [-> | ->]. Qed.

Lemma observation_kind (current : option Unstructured) :
  Forall (fun e => isWrite e = false /\ hasModified e = false /\
                   isCreate e = false /\ isPatch e = false)
    (observation current).
Proof.
  unfold observation. destruct current as [cur|]; [|constructor].
  destruct (negb _); repeat constructor.
Qed.

(** A part of a trace that holds no write holds none in the middle. *)
Lemma no_write_inside (w pre post : list Effect) (e : Effect) :
  Forall (fun e => isWrite e = false) w -> w = pre ++ e :: post ->
  isWrite e = true -> False.
Proof.
  intros Hall -> Hw. apply Forall_app in Hall as [_ Hall].
  inversion Hall; subst. congruence.
Qed.

Lemma not_observed_in_reads (w : list Effect) (rv : string) :
  Forall isRead w -> CacheObserveVersion rv ∉ w.
Proof.
  intros Hall Hin. eapply Forall_forall in Hall; [|done]. by destruct Hall.
Qed.

Lemma not_observed_in_writes (w : list Effect) (rv : string) :
  Forall (fun e => isWrite e = true) w -> CacheObserveVersion rv ∉ w.
Proof.
  intros Hall Hin. eapply Forall_forall in Hall; [|done]. done.
Qed.

(** What every run of [Reconcile] shows of the record: a request that writes
    downstream comes only after the recorded resource version has been
    cleared; a record that was cleared stays so when the run ends in an
    error; and a version is recorded only at the end of a run whose requests
    modified nothing. *)
Lemma clear_comes_first (c : Controller) (env : Env)
    (req : Request) (seen seen1 : State) (w : list Effect) (result : Result)
    (err : option error) :
  Reconcile c env req seen = (seen1, w, (result, err)) ->
  (forall pre e post,
      w = pre ++ e :: post -> isWrite e = true -> CacheObserveVersion "" ∈ pre) /\
  (CacheObserveVersion "" ∈ w -> err <> None ->
   seen1 = "" /\
   forall (env1 : Env) (resource1 : Resource),
     getCurrent env1 resource1 seen1
     = ("", [DownstreamGet],
        match downstream_Get env1 with
        | inl e => (None, true, Some e)
        | inr current => (Some current, true, None)
        end)) /\
  (forall rv,
      rv <> "" -> CacheObserveVersion rv ∈ w ->
      seen1 = rv /\ err = None /\ Forall (fun e => hasModified e = false) w).
Proof.
  intros Hrun. apply Reconcile_outcome in Hrun.
  destruct Hrun as [w result err Hreads
                   | comp prev resource current wget wr ready modified e Hreached Hrr
                   | comp prev resource current wget wr ready Hreached Hrr
                   | comp prev resource current hasChanged wget wr ready s Hreached Hrec].
  - split; [|split].
    + intros pre e post Hw He. exfalso.
      eapply no_write_inside; [by apply reads_are_not_writes | done | done].
    + intros Hin. by apply not_observed_in_reads in Hin.
    + intros rv _ Hin. by apply not_observed_in_reads in Hin.
  - pose proof (Reached_reads _ _ _ _ _ _ _ _ _ _ Hreached) as Hreads.
    apply reconcileResource_inv in Hrr as (_ & Hwrites & _).
    split; [|split].
    + intros pre e' post Hw He. symmetry in Hw.
      eapply marker_before; [done | done | by apply write_is_not_read |].
      by intros ->.
    + intros _ _. split; [done|]. intros env1 resource1. apply getCurrent_unseen.
    + intros rv Hrv Hin. exfalso.
      apply elem_of_app in Hin as [Hin | Hin];
        [by apply not_observed_in_reads in Hin|].
      apply elem_of_cons in Hin as [[= ->] | Hin]; [done|].
      by apply not_observed_in_writes in Hin.
  - pose proof (Reached_reads _ _ _ _ _ _ _ _ _ _ Hreached) as Hreads.
    apply reconcileResource_inv in Hrr as (_ & Hwrites & _).
    split; [|split].
    + intros pre e' post Hw He. symmetry in Hw.
      eapply marker_before; [done | done | by apply write_is_not_read |].
      by intros ->.
    + done.
    + intros rv Hrv Hin. exfalso.
      apply elem_of_app in Hin as [Hin | Hin];
        [by apply not_observed_in_reads in Hin|].
      apply elem_of_cons in Hin as [[= ->] | Hin]; [done|].
      by apply not_observed_in_writes in Hin.
  - pose proof (Reached_reads _ _ _ _ _ _ _ _ _ _ Hreached) as Hreads.
    split; [|split].
    + intros pre e' post Hw He.
      destruct Hrec as [(-> & -> & ->) | (-> & -> & wr1 & Hrr & ->)].
      * exfalso. eapply no_write_inside; [| exact Hw | done].
        apply Forall_app. split; [by apply reads_are_not_writes|].
        apply Forall_app. split; [constructor|].
        apply Forall_app. split; [|by repeat constructor].
        eapply Forall_impl; [apply observation_kind|]. by intros ? [? _].
      * symmetry in Hw. simpl in Hw.
        eapply marker_before; [done | done | by apply write_is_not_read |].
        by intros ->.
    + done.
    + intros rv Hrv Hin.
      assert (Hobs : CacheObserveVersion rv ∈ observation current).
      { apply elem_of_app in Hin as [Hin | Hin];
          [by apply not_observed_in_reads in Hin|].
        apply elem_of_app in Hin as [Hin | Hin].
        - exfalso. destruct Hrec as [(_ & -> & _) | (_ & _ & wr1 & Hrr & ->)].
          + by apply elem_of_nil in Hin.
          + apply elem_of_cons in Hin as [[= ->] | Hin]; [done|].
            apply reconcileResource_inv in Hrr as (_ & Hwrites & _).
            by apply not_observed_in_writes in Hin.
        - apply elem_of_app in Hin as [Hin | Hin]; [done|].
          by apply list_elem_of_singleton in Hin. }
      split; [|split; [done|]].
      * unfold observation, observed in *. destruct current as [cur|];
          [|by apply elem_of_nil in Hobs].
        destruct (negb _); [|by apply elem_of_nil in Hobs].
        apply list_elem_of_singleton in Hobs. by injection Hobs as ->.
      * apply Forall_app. split; [by apply reads_do_not_modify|].
        apply Forall_app. split.
        { destruct Hrec as [(_ & -> & _) | (_ & _ & wr1 & Hrr & ->)]; [constructor|].
          constructor; [done|].
          apply reconcileResource_inv in Hrr as (_ & _ & Hmod & _). by apply Hmod. }
        apply Forall_app. split; [|by repeat constructor].
        eapply Forall_impl; [apply observation_kind|]. by intros ? (_ & ? & _).
Qed.

Lemma reads_are_not_updates (w : list Effect) :
  Forall isRead w -> Forall (fun e => isCreate e = false /\ isPatch e = false) w.
Proof. intros Hall. eapply Forall_impl; [done|]. by intros e [-> | ->]. Qed.

(** The resources that the gate looks at are those of the earlier groups. *)
Lemma RangeByReadinessGroup_desc (cache : Cache) (synRef : SynthesisRef)
    (group : Z) (dep : Resource) :
  In dep (RangeByReadinessGroup cache synRef group RangeDesc) <->
  In dep (cache_Resources cache synRef) /\ (ReadinessGroup dep < group)%Z.
Proof.
  unfold RangeByReadinessGroup. rewrite filter_In. by rewrite Z.ltb_lt.
Qed.

(** Past the gates, a resource marked Deleted is neither created nor
    patched, whichever way the run ends. *)
Lemma deleted_no_update (env : Env) (comp : Composition) (prev : option Resource)
    (resource : Resource) (current : option Unstructured) (wr : list Effect)
    (res : bool * option error) :
  Deleted resource = true ->
  reconcileResource env comp prev resource current "" = ("", wr, res) ->
  Forall (fun e => isCreate e = false /\ isPatch e = false)
    (CacheObserveVersion "" :: wr).
Proof.
  intros Hdel Hrr. constructor; [done|].
  by eapply reconcileResource_deleted_no_update.
Qed.

(** C2.  Take a resource R whose slice can be read.  While the slice does
    not record R as reconciled and R is not marked Deleted, a run of
    [Reconcile] on R stops as soon as some resource of the same synthesis in
    a strictly lower readiness group has no Ready time on record: it sends
    no create, patch or delete, writes no status and leaves the cache entry
    alone.  Hence a run that creates or patches R has found R recorded as
    reconciled or a Ready time on every resource of the lower groups. *)
Theorem readiness_gate_orders_groups (c : Controller) (env : Env) (req : Request)
    (seen seen1 : State) (w : list Effect) (result : Result) (err : option error)
    (comp : Composition) (resource : Resource) (slice : ResourceSlice) :
  Reconcile c env req seen = (seen1, w, (result, err)) ->
  upstream_GetComposition env (reqComposition req) = inr comp ->
  cache_Get (cache env) (NewSynthesisRef comp) (reqResource req) = Some resource ->
  upstream_GetSlice env (Slice (Manifest resource)) = inr slice ->
  ((forall st, FindStatus resource slice = Some st -> rsReconciled st = false) ->
   Deleted resource = false ->
   (exists dep,
       In dep (cache_Resources (cache env) (NewSynthesisRef comp)) /\
       (ReadinessGroup dep < ReadinessGroup resource)%Z /\
       ~ depReady env dep) ->
   seen1 = seen /\
   Forall (fun e => isWrite e = false /\ isStatusWrite e = false) w) /\
  (Exists (fun e => isCreate e = true \/ isPatch e = true) w ->
   (exists st, FindStatus resource slice = Some st /\ rsReconciled st = true) \/
   (forall dep,
       In dep (cache_Resources (cache env) (NewSynthesisRef comp)) ->
       (ReadinessGroup dep < ReadinessGroup resource)%Z ->
       depReady env dep)).
Proof.
  intros Hrun Hcomp Hres Hslice.
  apply Reconcile_outcome in Hrun.
  assert (Hgate :
            forall prev current hasChanged wget ready,
              Reached env req seen comp prev resource current hasChanged wget ready ->
              gateOpen env comp resource (FindStatus resource slice)).
  { intros prev current hasChanged wget ready (_ & _ & _ & _ & slice1 & Hs1 & _ & Hopen).
    rewrite Hslice in Hs1. by injection Hs1 as <-. }
  assert (Hsame :
            forall comp1 prev resource1 current hasChanged wget ready,
              Reached env req seen comp1 prev resource1 current hasChanged wget ready ->
              comp1 = comp /\ resource1 = resource).
  { intros comp1 prev resource1 current hasChanged wget ready (Hc & Hr & _).
    rewrite Hcomp in Hc. injection Hc as <-.
    rewrite Hres in Hr. by injection Hr as <-. }
  assert (Hblocked :
            (forall st, FindStatus resource slice = Some st -> rsReconciled st = false) ->
            Deleted resource = false ->
            (exists dep,
                In dep (cache_Resources (cache env) (NewSynthesisRef comp)) /\
                (ReadinessGroup dep < ReadinessGroup resource)%Z /\
                ~ depReady env dep) ->
            ~ gateOpen env comp resource (FindStatus resource slice)).
  { intros Hnot Hdel (dep & Hin & Hlt & Hdep) [(st & Hst & Hrec) | [Hd | Hall]].
    - apply Hnot in Hst. congruence.
    - congruence.
    - apply Hdep. eapply List.Forall_forall; [exact Hall|].
      by apply RangeByReadinessGroup_desc. }
  assert (Hordered :
            gateOpen env comp resource (FindStatus resource slice) ->
            Deleted resource = false ->
            (exists st, FindStatus resource slice = Some st /\ rsReconciled st = true) \/
            (forall dep,
                In dep (cache_Resources (cache env) (NewSynthesisRef comp)) ->
                (ReadinessGroup dep < ReadinessGroup resource)%Z ->
                depReady env dep)).
  { intros [Hrec | [Hd | Hall]] Hdel; [by left | congruence |].
    right. intros dep Hin Hlt. eapply List.Forall_forall; [exact Hall|].
    by apply RangeByReadinessGroup_desc. }
  assert (Hupd : forall e, isCreate e = false /\ isPatch e = false ->
                           isCreate e = true \/ isPatch e = true -> False)
    by (intros e [? ?] [? | ?]; congruence).
  destruct Hrun as [w result err Hreads
                   | comp1 prev resource1 current wget wr ready modified e Hreached Hrr
                   | comp1 prev resource1 current wget wr ready Hreached Hrr
                   | comp1 prev resource1 current hasChanged wget wr ready s Hreached Hrec].
  - split.
    + intros _ _ _. split; [done|].
      eapply Forall_impl; [exact Hreads|]. by intros e [-> | ->].
    + intros Hex. exfalso.
      eapply Forall_Exists_absurd; [by apply reads_are_not_updates | exact Hex | exact Hupd].
  - destruct (Hsame _ _ _ _ _ _ _ Hreached) as [-> ->].
    pose proof (Hgate _ _ _ _ _ Hreached) as Hopen. split.
    + intros Hnot Hdel Hdep. by destruct (Hblocked Hnot Hdel Hdep).
    + intros Hex. destruct (Deleted resource) eqn:Hdel; [|by apply Hordered].
      exfalso. eapply Forall_Exists_absurd; [| exact Hex | exact Hupd].
      apply Forall_app. split;
        [by eapply reads_are_not_updates, Reached_reads | by eapply deleted_no_update].
  - destruct (Hsame _ _ _ _ _ _ _ Hreached) as [-> ->].
    pose proof (Hgate _ _ _ _ _ Hreached) as Hopen. split.
    + intros Hnot Hdel Hdep. by destruct (Hblocked Hnot Hdel Hdep).
    + intros Hex. destruct (Deleted resource) eqn:Hdel; [|by apply Hordered].
      exfalso. eapply Forall_Exists_absurd; [| exact Hex | exact Hupd].
      apply Forall_app. split;
        [by eapply reads_are_not_updates, Reached_reads | by eapply deleted_no_update].
  - destruct (Hsame _ _ _ _ _ _ _ Hreached) as [-> ->].
    pose proof (Hgate _ _ _ _ _ Hreached) as Hopen. split.
    + intros Hnot Hdel Hdep. by destruct (Hblocked Hnot Hdel Hdep).
    + intros Hex. destruct (Deleted resource) eqn:Hdel; [|by apply Hordered].
      exfalso. eapply Forall_Exists_absurd; [| exact Hex | exact Hupd].
      apply Forall_app. split; [by eapply reads_are_not_updates, Reached_reads|].
      apply Forall_app. split.
      { destruct Hrec as [(_ & -> & _) | (_ & _ & wr1 & Hrr & ->)]; [constructor|].
        by eapply deleted_no_update. }
      apply Forall_app. split; [|by repeat constructor].
      eapply Forall_impl; [apply observation_kind|]. by intros ? (_ & _ & ? & ?).
Qed.

(** ** Further properties of the parts *)

(** X11.  The function that [patchResourceState] hands to the write buffer
    always asks for a state that is reconciled and carries the given flag and
    Ready time, and asking again on that state is a no-op.  It declines (nil)
    only on a state that is already reconciled with the same flag and the same
    Ready time, no time counting as the zero time. *)
Theorem patchResourceState_settles (deleted : bool) (ready : option Time)
    (rs : option ResourceState) :
  (forall next,
      patchResourceState deleted ready rs = Some next ->
      next = {| rsReconciled := true; rsReady := ready; rsDeleted := deleted |} /\
      patchResourceState deleted ready (Some next) = None) /\
  (patchResourceState deleted ready rs = None ->
   exists st,
     rs = Some st /\ rsDeleted st = deleted /\ rsReconciled st = true /\
     default zeroTime (rsReady st) = default zeroTime ready).
Proof.
  assert (Hagain : patchResourceState deleted ready
                     (Some {| rsReconciled := true; rsReady := ready;
                              rsDeleted := deleted |}) = None).
  { unfold patchResourceState. simpl.
    by rewrite Bool.eqb_reflx, Z.eqb_refl. }
  split.
  - intros next Hnext.
    assert (next = {| rsReconciled := true; rsReady := ready; rsDeleted := deleted |})
      as ->; [|done].
    unfold patchResourceState in Hnext. destruct rs as [st|].
    + destruct (Bool.eqb (rsDeleted st) deleted && rsReconciled st
                && (default zeroTime (rsReady st) =? default zeroTime ready)%Z);
        congruence.
    + congruence.
  - unfold patchResourceState.
    intros Hnone. destruct rs as [st|]; [|done]. exists st.
    destruct (Bool.eqb (rsDeleted st) deleted) eqn:Hd; [|done].
    destruct (rsReconciled st); [|done].
    destruct (Z.eqb_spec (default zeroTime (rsReady st)) (default zeroTime ready));
      [|done].
    apply Bool.eqb_prop in Hd. done.
Qed.

(** X12.  What [getCurrent] returns hangs together: it never changes the
    cache entry; it returns an object only together with a change and no
    error; and it reports no change only for a resource that has been seen and
    is not marked Deleted, after the metadata read alone, which then failed or
    showed the version last seen. *)
Theorem getCurrent_result (env : Env) (resource : Resource) (seen seen1 : State)
    (w : list Effect) (current : option Unstructured) (hasChanged : bool)
    (err : option error) :
  getCurrent env resource seen = (seen1, w, (current, hasChanged, err)) ->
  seen1 = seen /\
  (current <> None -> hasChanged = true /\ err = None) /\
  (hasChanged = true -> last w = Some DownstreamGet) /\
  (hasChanged = false ->
   w = [DownstreamGetMetadata] /\ seen <> "" /\ Deleted resource = false /\
   (err = None -> downstream_GetMetadata env = inr seen)).
Proof.
  unfold getCurrent. open_body. intros Hrun.
  by_cases;
    repeat match goal with
           | H : _ && _ = true |- _ => apply andb_true_iff in H as [? ?]
           | H : negb _ = true |- _ => apply negb_true_iff in H
           | H : String.eqb _ _ = true |- _ => apply String.eqb_eq in H; subst
           | H : String.eqb _ _ = false |- _ => apply String.eqb_neq in H
           end;
    repeat split; try done; congruence.
Qed.

(** The unchanged case, computed. *)
Lemma getCurrent_unchanged (env : Env) (resource : Resource) (seen : State) :
  seen <> "" -> Deleted resource = false -> downstream_GetMetadata env = inr seen ->
  getCurrent env resource seen = (seen, [DownstreamGetMetadata], (None, false, None)).
Proof.
  intros Hseen%String.eqb_neq Hdel Hmeta. unfold getCurrent. open_body.
  simpl. rewrite Hseen, Hdel, Hmeta. simpl. by rewrite String.eqb_refl.
Qed.

(** The trace of [reconcileResource], counted; the lookup of the merge
    metadata in [buildPatch] leaves no mark in it. *)
Lemma reconcileResource_requests (env : Env) (comp : Composition)
    (prev : option Resource) (resource : Resource) (current : option Unstructured)
    (seen seen1 : State) (w : list Effect) (modified : bool) (err : option error) :
  reconcileResource env comp prev resource current seen = (seen1, w, (modified, err)) ->
  seen1 = seen /\
  length w <= 1 /\
  forallb isWrite w = true /\
  modified = existsb hasModified w /\
  (modified = true -> err = None).
Proof.
  unfold reconcileResource. open_body. intros Hrun.
  by_cases; repeat split; try done; simpl; lia.
Qed.

(** X13.  [reconcileResource] sends one write at most to the downstream (a
    create, a patch or a delete), writes no status, and leaves the cache
    entry alone; it reports a modification exactly when that write went
    through, and never reports both a modification and an error. *)
Theorem reconcileResource_single_request (env : Env) (comp : Composition)
    (prev : option Resource) (resource : Resource) (current : option Unstructured)
    (seen seen1 : State) (w : list Effect) (modified : bool) (err : option error) :
  reconcileResource env comp prev resource current seen = (seen1, w, (modified, err)) ->
  seen1 = seen /\
  length (List.filter isWrite w) <= 1 /\
  existsb isStatusWrite w = false /\
  (forall rv, ~ In (CacheObserveVersion rv) w) /\
  (modified = true <-> existsb hasModified w = true) /\
  (modified = true -> err = None).
Proof.
  intros (Hs & Hlen & Hw & Hm & He)%reconcileResource_requests.
  split; [done|]. split; [|split; [|split; [|split]]].
  - clear -Hlen. induction w as [|e w IH]; simpl in *; [lia|].
    destruct w; [|simpl in Hlen; lia]. destruct (isWrite e); simpl; lia.
  - clear -Hw. induction w as [|e w IH]; simpl in *; [done|].
    apply andb_true_iff in Hw as [He Hw]. rewrite (IH Hw). by destruct e.
  - intros rv Hin. eapply forallb_forall in Hw; [|exact Hin]. done.
  - by rewrite Hm.
  - done.
Qed.

(** X14.  [reconcileResource] deletes only a resource marked Deleted whose
    object exists and is not yet being deleted; it creates only a resource
    that is not marked Deleted, has no JSON patch form and no object
    downstream; it patches only a resource that is not marked Deleted, whose
    object exists and whose updates are not disabled. *)
Theorem reconcileResource_request_guards (env : Env) (comp : Composition)
    (prev : option Resource) (resource : Resource) (current : option Unstructured)
    (seen seen1 : State) (w : list Effect) (res : bool * option error) :
  reconcileResource env comp prev resource current seen = (seen1, w, res) ->
  (existsb isDelete w = true ->
   Deleted resource = true /\
   exists cur, current = Some cur /\ GetDeletionTimestamp cur = None) /\
  (existsb isCreate w = true ->
   Deleted resource = false /\ Patch resource = None /\ current = None) /\
  (existsb isPatch w = true ->
   Deleted resource = false /\ DisableUpdates resource = false /\
   exists cur, current = Some cur).
Proof.
  unfold reconcileResource. open_body. intros Hrun.
  by_cases; repeat split; try done; eauto.
Qed.

(** ** Further properties of the runs *)

Lemma existsb_reads (p : Effect -> bool) (w : list Effect) :
  Forall isRead w -> p DownstreamGetMetadata = false -> p DownstreamGet = false ->
  existsb p w = false.
Proof.
  intros Hall Hm Hg. induction Hall as [|e w [-> | ->] _ IH]; simpl; [done| |];
    by rewrite ?Hm, ?Hg.
Qed.

Lemma count_reads (p : Effect -> bool) (w : list Effect) :
  Forall isRead w -> p DownstreamGetMetadata = false -> p DownstreamGet = false ->
  length (List.filter p w) = 0.
Proof.
  intros Hall Hm Hg. induction Hall as [|e w [-> | ->] _ IH]; simpl; [done| |];
    by rewrite ?Hm, ?Hg.
Qed.

Lemma existsb_observation (p : Effect -> bool) (current : option Unstructured) :
  (forall rv, p (CacheObserveVersion rv) = false) ->
  existsb p (observation current) = false.
Proof.
  intros Hp. unfold observation. destruct current as [cur|]; [|done].
  destruct (negb _); simpl; [|done]. by rewrite Hp.
Qed.

Lemma count_observation (p : Effect -> bool) (current : option Unstructured) :
  (forall rv, p (CacheObserveVersion rv) = false) ->
  length (List.filter p (observation current)) = 0.
Proof.
  intros Hp. unfold observation. destruct current as [cur|]; [|done].
  destruct (negb _); simpl; [|done]. by rewrite Hp.
Qed.

Lemma existsb_writes_no_status (w : list Effect) :
  forallb isWrite w = true -> existsb isStatusWrite w = false.
Proof.
  induction w as [|e w IH]; simpl; [done|].
  intros [He Hw]%andb_true_iff. rewrite (IH Hw). by destruct e.
Qed.

Lemma count_writes_no_status (w : list Effect) :
  forallb isWrite w = true -> length (List.filter isStatusWrite w) = 0.
Proof.
  induction w as [|e w IH]; simpl; [done|].
  intros [He Hw]%andb_true_iff. destruct e; simpl in *; try done; by apply IH.
Qed.

Lemma count_filter_le (p : Effect -> bool) (w : list Effect) :
  length (List.filter p w) <= length w.
Proof. induction w as [|e w IH]; simpl; [done|]. destruct (p e); simpl; lia. Qed.

(** X15.  A run of [Reconcile] in which some request changed the downstream
    ends at once with an immediate requeue and no error: it writes no status
    and leaves the recorded resource version cleared, so that the next run
    reads the object again. *)
Theorem modification_requeues (c : Controller) (env : Env) (req : Request)
    (seen seen1 : State) (w : list Effect) (result : Result) (err : option error) :
  Reconcile c env req seen = (seen1, w, (result, err)) ->
  existsb hasModified w = true ->
  result = {| Requeue := true; RequeueAfter := 0%Z |} /\
  err = None /\
  seen1 = "" /\
  existsb isStatusWrite w = false.
Proof.
  intros Hrun Hmod. apply Reconcile_outcome in Hrun.
  destruct Hrun as [w result err Hreads
                   | comp prev resource current wget wr ready modified e Hreached Hrr
                   | comp prev resource current wget wr ready Hreached Hrr
                   | comp prev resource current hasChanged wget wr ready s Hreached Hrec].
  - by rewrite existsb_reads in Hmod.
  - exfalso. pose proof (Reached_reads _ _ _ _ _ _ _ _ _ _ Hreached) as Hreads.
    apply reconcileResource_requests in Hrr as (_ & _ & _ & Hm & He).
    rewrite existsb_app, (existsb_reads _ _ Hreads) in Hmod by done.
    simpl in Hmod. rewrite <- Hm in Hmod. by specialize (He Hmod).
  - pose proof (Reached_reads _ _ _ _ _ _ _ _ _ _ Hreached) as Hreads.
    apply reconcileResource_requests in Hrr as (_ & _ & Hw & _).
    do 3 (split; [done|]).
    rewrite existsb_app, (existsb_reads _ _ Hreads) by done.
    simpl. by apply existsb_writes_no_status.
  - exfalso. pose proof (Reached_reads _ _ _ _ _ _ _ _ _ _ Hreached) as Hreads.
    rewrite !existsb_app, (existsb_reads _ _ Hreads), existsb_observation in Hmod
      by done.
    simpl in Hmod. rewrite orb_false_r in Hmod.
    destruct Hrec as [(_ & -> & _) | (_ & _ & wr1 & Hrr & ->)]; [done|].
    apply reconcileResource_requests in Hrr as (_ & _ & _ & Hm & _).
    simpl in Hmod. congruence.
Qed.

(** X16.  No run of [Reconcile] sends more than one write to the downstream,
    nor more than one status write to the write buffer. *)
Theorem one_write_per_run (c : Controller) (env : Env) (req : Request)
    (seen seen1 : State) (w : list Effect) (result : Result) (err : option error) :
  Reconcile c env req seen = (seen1, w, (result, err)) ->
  length (List.filter isWrite w) <= 1 /\
  length (List.filter isStatusWrite w) <= 1.
Proof.
  intros Hrun. apply Reconcile_outcome in Hrun.
  destruct Hrun as [w result err Hreads
                   | comp prev resource current wget wr ready modified e Hreached Hrr
                   | comp prev resource current wget wr ready Hreached Hrr
                   | comp prev resource current hasChanged wget wr ready s Hreached Hrec].
  - rewrite (count_reads isWrite), (count_reads isStatusWrite) by done. lia.
  - pose proof (Reached_reads _ _ _ _ _ _ _ _ _ _ Hreached) as Hreads.
    apply reconcileResource_requests in Hrr as (_ & Hlen & Hw & _).
    rewrite !List.filter_app, !length_app,
      (count_reads isWrite), (count_reads isStatusWrite) by done. simpl.
    rewrite (count_writes_no_status _ Hw).
    pose proof (count_filter_le isWrite wr). lia.
  - pose proof (Reached_reads _ _ _ _ _ _ _ _ _ _ Hreached) as Hreads.
    apply reconcileResource_requests in Hrr as (_ & Hlen & Hw & _).
    rewrite !List.filter_app, !length_app,
      (count_reads isWrite), (count_reads isStatusWrite) by done. simpl.
    rewrite (count_writes_no_status _ Hw).
    pose proof (count_filter_le isWrite wr). lia.
  - pose proof (Reached_reads _ _ _ _ _ _ _ _ _ _ Hreached) as Hreads.
    rewrite !List.filter_app, !length_app, (count_reads isWrite),
      (count_reads isStatusWrite), (count_observation isWrite),
      (count_observation isStatusWrite) by done.
    simpl.
    destruct Hrec as [(_ & -> & _) | (_ & _ & wr1 & Hrr & ->)]; [simpl; lia|].
    apply reconcileResource_requests in Hrr as (_ & Hlen & Hw & _). simpl.
    rewrite (count_writes_no_status _ Hw).
    pose proof (count_filter_le isWrite wr1). lia.
Qed.

(** X17.  When the resource has been seen, is not marked Deleted and the
    metadata read shows the version last seen, a run of [Reconcile] sends no
    write to the downstream and keeps the recorded version; as no object was
    read, the status write of such a run, if it gets that far, reports the
    resource as deleted. *)
Theorem unchanged_resource_is_not_written (c : Controller) (env : Env)
    (req : Request) (seen seen1 : State) (w : list Effect) (result : Result)
    (err : option error) (comp : Composition) (resource : Resource) :
  Reconcile c env req seen = (seen1, w, (result, err)) ->
  workable env req comp resource ->
  seen <> "" ->
  Deleted resource = false ->
  downstream_GetMetadata env = inr seen ->
  seen1 = seen /\
  existsb isWrite w = false /\
  (forall ref deleted ready,
      In (PatchStatusAsync ref deleted ready) w ->
      ref = Manifest resource /\ deleted = true).
Proof.
  intros Hrun (Hcomp & _ & Hres) Hseen Hdel Hmeta.
  pose proof (getCurrent_unchanged env resource seen Hseen Hdel Hmeta) as Hget.
  assert (Hsame :
            forall comp1 prev resource1 current hasChanged wget ready,
              Reached env req seen comp1 prev resource1 current hasChanged wget ready ->
              current = None /\ hasChanged = false /\ wget = [DownstreamGetMetadata] /\
              resource1 = resource).
  { intros comp1 prev resource1 current hasChanged wget ready
      (Hc & Hr & _ & [gerr Hg] & _).
    rewrite Hcomp in Hc. injection Hc as <-.
    rewrite Hres in Hr. injection Hr as <-.
    rewrite Hget in Hg. by injection Hg as <- <- <- _. }
  apply Reconcile_outcome in Hrun.
  destruct Hrun as [w result err Hreads
                   | comp1 prev resource1 current wget wr ready modified e Hreached Hrr
                   | comp1 prev resource1 current wget wr ready Hreached Hrr
                   | comp1 prev resource1 current hasChanged wget wr ready s Hreached Hrec].
  - split; [done|]. split; [by apply existsb_reads|].
    intros ref deleted ready Hin. exfalso.
    eapply List.Forall_forall in Hreads; [|exact Hin]. by destruct Hreads.
  - by destruct (Hsame _ _ _ _ _ _ _ Hreached) as (_ & [=] & _).
  - by destruct (Hsame _ _ _ _ _ _ _ Hreached) as (_ & [=] & _).
  - destruct (Hsame _ _ _ _ _ _ _ Hreached) as (-> & -> & -> & ->).
    destruct Hrec as [(_ & -> & ->) | ([=] & _)].
    simpl. split; [done|]. split; [done|].
    intros ref deleted ready' [[=] | [[= <- <- _] | []]]. done.
Qed.

(** X26.  Once the slice records a Ready time for the resource, every status
    write of [Reconcile] for it carries that time, whatever the downstream
    holds: the readiness checks are not run again. *)
Theorem recorded_ready_time_is_kept (c : Controller) (env : Env) (req : Request)
    (seen seen1 : State) (w : list Effect) (result : Result) (err : option error)
    (comp : Composition) (resource : Resource) (slice : ResourceSlice)
    (status : ResourceState) (readyTime : Time)
    (ref : ManifestRef) (deleted : bool) (ready : option Time) :
  Reconcile c env req seen = (seen1, w, (result, err)) ->
  workable env req comp resource ->
  upstream_GetSlice env (Slice (Manifest resource)) = inr slice ->
  FindStatus resource slice = Some status ->
  rsReady status = Some readyTime ->
  In (PatchStatusAsync ref deleted ready) w ->
  ref = Manifest resource /\ ready = Some readyTime.
Proof.
  intros Hrun (Hcomp & _ & Hres) Hslice Hstatus Hready Hin.
  assert (Hnone : forall w0, existsb isStatusWrite w0 = false ->
                             ~ In (PatchStatusAsync ref deleted ready) w0).
  { intros w0 Hw0 Hin0.
    assert (existsb isStatusWrite w0 = true); [|congruence].
    apply existsb_exists. by eexists. }
  apply Reconcile_outcome in Hrun.
  destruct Hrun as [w result err Hreads
                   | comp1 prev resource1 current wget wr ready1 modified e Hreached Hrr
                   | comp1 prev resource1 current wget wr ready1 Hreached Hrr
                   | comp1 prev resource1 current hasChanged wget wr ready1 s Hreached Hrec].
  - exfalso. eapply Hnone; [|done]. by apply existsb_reads.
  - exfalso. eapply Hnone; [|done].
    pose proof (Reached_reads _ _ _ _ _ _ _ _ _ _ Hreached) as Hreads.
    apply reconcileResource_requests in Hrr as (_ & _ & Hw & _).
    rewrite existsb_app, (existsb_reads _ _ Hreads) by done. simpl.
    by apply existsb_writes_no_status.
  - exfalso. eapply Hnone; [|done].
    pose proof (Reached_reads _ _ _ _ _ _ _ _ _ _ Hreached) as Hreads.
    apply reconcileResource_requests in Hrr as (_ & _ & Hw & _).
    rewrite existsb_app, (existsb_reads _ _ Hreads) by done. simpl.
    by apply existsb_writes_no_status.
  - pose proof (Reached_reads _ _ _ _ _ _ _ _ _ _ Hreached) as Hreads.
    destruct Hreached as (Hc & Hr & _ & _ & slice1 & Hs & -> & _).
    rewrite Hcomp in Hc. injection Hc as <-.
    rewrite Hres in Hr. injection Hr as <-.
    rewrite Hslice in Hs. injection Hs as <-.
    rewrite !app_assoc in Hin. apply in_app_or in Hin as [Hin | [[= <- _ <-] | []]].
    + exfalso. eapply Hnone; [|done].
      rewrite !existsb_app, (existsb_reads _ _ Hreads), existsb_observation by done.
      simpl. rewrite orb_false_r.
      destruct Hrec as [(_ & -> & _) | (_ & _ & wr1 & Hrr & ->)]; [done|].
      apply reconcileResource_requests in Hrr as (_ & _ & Hw & _). simpl.
      by apply existsb_writes_no_status.
    + split; [done|]. unfold readiness, notReady. by rewrite Hstatus, Hready.
Qed.

(** ** Durations *)

Lemma int64_small (z : Z) : (MinInt64 <= z <= MaxInt64)%Z -> int64 z = z.
Proof.
  unfold int64, MinInt64, MaxInt64. intros Hz.
  rewrite Z.mod_small; lia.
Qed.

Lemma Sub_small (t u : Time) : (MinInt64 <= t - u <= MaxInt64)%Z -> Sub t u = (t - u)%Z.
Proof. unfold Sub. lia. Qed.

(** After a second the difference is no longer positive, however long ago
    the instant is. *)
Lemma delta_after_a_second (env : Env) (t : Time) :
  (Second <= now env - t)%Z -> (int64 (Second - Since env t) <= 0)%Z.
Proof.
  intros Hle. unfold Since, Sub.
  assert (Hv : (Second <= Z.max MinInt64 (Z.min MaxInt64 (now env - t)) <= MaxInt64)%Z)
    by (unfold MinInt64, MaxInt64, Second in *; lia).
  rewrite int64_small; unfold MinInt64, MaxInt64, Second in *; lia.
Qed.

(** ** Running forwards *)

Lemma body_bind_continue {R A : Type} (m : M R A) (k : A -> M R R) (s s1 : State)
    (w1 : list Effect) (a : A) :
  m s = (s1, w1, Continue a) ->
  body (bind m k) s = (let '(s2, w2, r) := body (k a) s1 in (s2, w1 ++ w2, r)).
Proof.
  unfold body, bind. intros ->. by destruct (k a s1) as [[s2 w2] [r|r]].
Qed.

Lemma body_bind_return {R A : Type} (m : M R A) (k : A -> M R R) (s s1 : State)
    (w1 : list Effect) (r : R) :
  m s = (s1, w1, Returned r) -> body (bind m k) s = (s1, w1, r).
Proof. unfold body, bind. by intros ->. Qed.

(** The gate of the readiness groups, when open, lets the run fall through. *)
Lemma readinessGate_passes (env : Env) (comp : Composition) (resource : Resource)
    (status : option ResourceState) (s : State) :
  gateOpen env comp resource status ->
  (if match status with
      | Some status => negb (rsReconciled status)
      | None => true
      end && negb (Deleted resource)
   then rangeDependencies env
          (RangeByReadinessGroup (cache env) (NewSynthesisRef comp)
             (ReadinessGroup resource) RangeDesc)
   else ret ()) s = (s, [], Continue tt).
Proof.
  intros [(st & -> & Hrec) | [Hdel | Hall]].
  - by rewrite Hrec.
  - by rewrite Hdel, andb_false_r.
  - destruct (_ && _); [|done].
    destruct (rangeDependencies_inv env
                (RangeByReadinessGroup (cache env) (NewSynthesisRef comp)
                   (ReadinessGroup resource) RangeDesc) s)
      as [[Hrun _] | (r & _ & Hnot)]; done.
Qed.

(** The CRD gate, when passed, lets the run fall through. *)
Lemma crdGate_passes (env : Env) (comp : Composition) (resource : Resource)
    (s : State) :
  crdGatePassed env comp resource ->
  (match cache_GetDefiningCRD (cache env) (NewSynthesisRef comp)
           (GroupKind (GVK resource)) with
   | None => ret tt
   | Some crdResource =>
       match upstream_GetSlice env (Slice (Manifest crdResource)) with
       | inl err => exit (noRequeue, Some (WrapError "getting resource slice" err))
       | inr slice =>
           match FindStatus crdResource slice with
           | None => exit (noRequeue, None)
           | Some status =>
               match rsReady status with
               | None => exit (noRequeue, None)
               | Some readyTime =>
                   let delta := int64 (Second - Since env readyTime) in
                   if (0 <? delta)%Z
                   then exit ({| Requeue := false; RequeueAfter := delta |}, None)
                   else ret tt
               end
           end
       end
   end) s = (s, [], @Continue (Result * option error) unit tt).
Proof.
  unfold crdGatePassed. destruct (cache_GetDefiningCRD _ _ _) as [crd|]; [|done].
  intros (slice & st & t & -> & -> & -> & Hle). simpl.
  pose proof (delta_after_a_second env t Hle).
  destruct (Z.ltb_spec 0 (int64 (Second - Since env t))); [lia | done].
Qed.

(** The first stages of [Reconcile] for a work item that gets to the gates. *)
Ltac to_the_gates Hcomp Hsyn Hfailed Hres :=
  unfold Reconcile;
  erewrite body_bind_continue by (rewrite Hcomp; reflexivity);
  erewrite body_bind_continue by (rewrite Hsyn, Hfailed; reflexivity);
  cbv zeta;
  erewrite body_bind_continue by (rewrite Hres; reflexivity).

(** X18.  [Reconcile] drops the work item without a request, an error or a
    requeue when the Composition is not found, has no current synthesis, has
    one that failed, or when the cache does not hold the resource. *)
Theorem work_item_dropped (c : Controller) (env : Env) (req : Request) (seen : State) :
  match upstream_GetComposition env (reqComposition req) with
  | inl e => IsNotFound e = true
  | inr comp =>
      match CurrentSynthesis comp with
      | None => True
      | Some syn =>
          Failed syn = true \/
          cache_Get (cache env) (NewSynthesisRef comp) (reqResource req) = None
      end
  end ->
  Reconcile c env req seen = (seen, [], (noRequeue, None)).
Proof.
  unfold Reconcile. open_body.
  destruct (upstream_GetComposition env (reqComposition req)) as [e|comp]; simpl.
  { by intros ->. }
  destruct (CurrentSynthesis comp) as [syn|]; [|done].
  destruct (Failed syn); [done|]. simpl.
  intros [ | -> ]; done.
Qed.

(** X19.  While the CRD that defines the kind of the resource is not ready,
    [Reconcile] sends nothing and asks for no requeue.  While the difference
    [time.Second - time.Since(ready)], as the [int64] arithmetic of Go
    computes it, is positive, [Reconcile] sends nothing and asks to be run
    again after that difference.  Unless the Ready time is so far ahead of
    the clock that the subtraction overflows, the CRD has then been ready for
    less than a second, and the delay is what is left of the second. *)
Theorem crd_gate_defers (c : Controller) (env : Env) (req : Request) (seen : State)
    (comp : Composition) (resource crd : Resource) (slice : ResourceSlice) :
  workable env req comp resource ->
  cache_GetDefiningCRD (cache env) (NewSynthesisRef comp) (GroupKind (GVK resource))
  = Some crd ->
  upstream_GetSlice env (Slice (Manifest crd)) = inr slice ->
  (notReady (FindStatus crd slice) = true ->
   Reconcile c env req seen = (seen, [], (noRequeue, None))) /\
  (forall status readyTime,
      FindStatus crd slice = Some status ->
      rsReady status = Some readyTime ->
      (0 < int64 (Second - Since env readyTime))%Z ->
      Reconcile c env req seen
      = (seen, [],
         ({| Requeue := false; RequeueAfter := int64 (Second - Since env readyTime) |},
          None))) /\
  (forall status readyTime,
      FindStatus crd slice = Some status ->
      rsReady status = Some readyTime ->
      (Second - MaxInt64 <= now env - readyTime < Second)%Z ->
      (0 < Second - (now env - readyTime) <= MaxInt64)%Z /\
      Reconcile c env req seen
      = (seen, [],
         ({| Requeue := false; RequeueAfter := (Second - (now env - readyTime))%Z |},
          None))).
Proof.
  intros (Hcomp & (syn & Hsyn & Hfailed) & Hres) Hcrd Hslice.
  assert (Hpositive :
            forall status readyTime,
              FindStatus crd slice = Some status ->
              rsReady status = Some readyTime ->
              (0 < int64 (Second - Since env readyTime))%Z ->
              Reconcile c env req seen
              = (seen, [],
                 ({| Requeue := false;
                     RequeueAfter := int64 (Second - Since env readyTime) |}, None))).
  { intros st t Hst Ht Hlt. to_the_gates Hcomp Hsyn Hfailed Hres.
    erewrite body_bind_return; [done|].
    rewrite Hcrd, Hslice, Hst, Ht. simpl.
    destruct (Z.ltb_spec 0 (int64 (Second - Since env t))); [done | lia]. }
  split; [|split].
  - intros Hnr. to_the_gates Hcomp Hsyn Hfailed Hres.
    erewrite body_bind_return; [done|].
    rewrite Hcrd, Hslice. unfold notReady in Hnr.
    destruct (FindStatus crd slice) as [st|]; [|done].
    by destruct (rsReady st).
  - exact Hpositive.
  - intros st t Hst Ht Hbound.
    assert (Hdelta : int64 (Second - Since env t) = (Second - (now env - t))%Z).
    { unfold Since. rewrite Sub_small, int64_small;
        unfold MinInt64, MaxInt64, Second in *; lia. }
    split; [unfold MaxInt64, Second in *; lia|].
    rewrite <- Hdelta. apply (Hpositive st t Hst Ht).
    rewrite Hdelta. lia.
Qed.

(** X20.  When the read of the current state fails with an error that is
    neither a not-found nor a missing-namespace error, [Reconcile] returns
    that error, wrapped, right after the read: it asks for no requeue, and
    sends and records nothing more. *)
Theorem read_error_aborts (c : Controller) (env : Env) (req : Request)
    (seen s1 : State) (comp : Composition) (resource : Resource)
    (wget : list Effect) (current : option Unstructured) (hasChanged : bool)
    (e : error) :
  workable env req comp resource ->
  crdGatePassed env comp resource ->
  getCurrent env resource seen = (s1, wget, (current, hasChanged, Some e)) ->
  IsNotFound e = false ->
  isErrMissingNS (Some e) = false ->
  Reconcile c env req seen
  = (s1, wget, (noRequeue, Some (WrapError "getting current state" e))).
Proof.
  intros (Hcomp & (syn & Hsyn & Hfailed) & Hres) Hcrd Hget Hnf Hns.
  to_the_gates Hcomp Hsyn Hfailed Hres.
  erewrite body_bind_continue by (by apply crdGate_passes).
  erewrite body_bind_continue by (unfold call; rewrite Hget; reflexivity).
  cbv beta iota zeta.
  erewrite body_bind_return; [simpl; by rewrite app_nil_r|].
  unfold IgnoreNotFound. rewrite Hnf, Hns. reflexivity.
Qed.

(** X21.  A resource that is not marked Deleted, has no JSON patch form and
    parses is created when the read finds no object (not found, or the
    missing-namespace error) and the gates are open: [Reconcile] clears the
    recorded version, sends the create, and then either asks for an immediate
    requeue or returns the error of the create; it writes no status. *)
Theorem absent_resource_is_created (c : Controller) (env : Env) (req : Request)
    (seen : State) (comp : Composition) (resource : Resource)
    (wget : list Effect) (gerr : option error) (slice : ResourceSlice)
    (obj : Unstructured) :
  workable env req comp resource ->
  crdGatePassed env comp resource ->
  getCurrent env resource seen = (seen, wget, (None, true, gerr)) ->
  IgnoreNotFound gerr = None \/ isErrMissingNS gerr = true ->
  upstream_GetSlice env (Slice (Manifest resource)) = inr slice ->
  gateOpen env comp resource (FindStatus resource slice) ->
  Deleted resource = false ->
  Patch resource = None ->
  Parse resource = inr obj ->
  Reconcile c env req seen
  = ("",
     wget ++ [CacheObserveVersion ""; DownstreamCreate obj (downstream_Create env)],
     match downstream_Create env with
     | None => ({| Requeue := true; RequeueAfter := 0%Z |}, None)
     | Some e => (noRequeue, Some (WrapError "creating resource" e))
     end).
Proof.
  intros (Hcomp & (syn & Hsyn & Hfailed) & Hres) Hcrd Hget Hgerr Hslice Hgate
    Hdel Hpatch Hparse.
  to_the_gates Hcomp Hsyn Hfailed Hres.
  erewrite body_bind_continue by (by apply crdGate_passes).
  erewrite body_bind_continue by (unfold call; rewrite Hget; reflexivity).
  cbv beta iota zeta.
  erewrite body_bind_continue; cycle 1.
  { destruct Hgerr as [-> | Hns]; [reflexivity|].
    rewrite Hns. simpl. by destruct (IgnoreNotFound gerr). }
  erewrite body_bind_continue by (rewrite Hslice; reflexivity).
  cbv zeta.
  erewrite body_bind_continue by (by apply readinessGate_passes).
  assert (Hrr : reconcileResource env comp
                  match PreviousSynthesis comp with
                  | Some previous =>
                      cache_Get (cache env)
                        (withUUID (UUID previous) (NewSynthesisRef comp))
                        (reqResource req)
                  | None => None
                  end resource None ""
                = ("", [DownstreamCreate obj (downstream_Create env)],
                   match downstream_Create env with
                   | None => (true, None)
                   | Some e => (false, Some (WrapError "creating resource" e))
                   end)).
  { unfold reconcileResource. open_body. rewrite Hdel, Hpatch, Hparse. simpl.
    by destruct (downstream_Create env). }
  destruct (downstream_Create env) as [e|].
  - erewrite body_bind_return; cycle 1.
    { unfold bind, call, ObserveVersion, exit. rewrite Hrr. reflexivity. }
    reflexivity.
  - erewrite body_bind_continue; cycle 1.
    { unfold bind, call, ObserveVersion, ret. rewrite Hrr. reflexivity. }
    erewrite body_bind_return; [|reflexivity].
    reflexivity.
Qed.

(** ** The attempt *)

(** A run that finds the downstream changed and gets past the gates: it
    clears the record, calls [reconcileResource], and goes by what that
    returns. *)
Lemma Reconcile_attempt (c : Controller) (env : Env) (req : Request) (seen : State)
    (comp : Composition) (resource : Resource) (wget : list Effect)
    (current : option Unstructured) (gerr : option error) (slice : ResourceSlice)
    (wr : list Effect) (modified : bool) (rerr : option error) :
  workable env req comp resource ->
  crdGatePassed env comp resource ->
  getCurrent env resource seen = (seen, wget, (current, true, gerr)) ->
  IgnoreNotFound gerr = None \/ isErrMissingNS gerr = true ->
  upstream_GetSlice env (Slice (Manifest resource)) = inr slice ->
  gateOpen env comp resource (FindStatus resource slice) ->
  reconcileResource env comp (previousOf env req comp) resource current ""
  = ("", wr, (modified, rerr)) ->
  Reconcile c env req seen
  = match rerr with
    | Some e => ("", wget ++ CacheObserveVersion "" :: wr, (noRequeue, Some e))
    | None =>
        if modified
        then ("", wget ++ CacheObserveVersion "" :: wr,
              ({| Requeue := true; RequeueAfter := 0%Z |}, None))
        else (observed current "",
              wget ++ CacheObserveVersion "" :: wr ++ observation current
                ++ [PatchStatusAsync (Manifest resource) (gone current)
                      (readiness resource (FindStatus resource slice) current)],
              (requeue c env resource
                 (readiness resource (FindStatus resource slice) current), None))
    end.
Proof.
  intros (Hcomp & (syn & Hsyn & Hfailed) & Hres) Hcrd Hget Hgerr Hslice Hgate Hrr.
  unfold previousOf in Hrr.
  to_the_gates Hcomp Hsyn Hfailed Hres.
  erewrite body_bind_continue by (by apply crdGate_passes).
  erewrite body_bind_continue by (unfold call; rewrite Hget; reflexivity).
  cbv beta iota zeta.
  erewrite body_bind_continue; cycle 1.
  { destruct Hgerr as [-> | Hns]; [reflexivity|].
    rewrite Hns. simpl. by destruct (IgnoreNotFound gerr). }
  erewrite body_bind_continue by (rewrite Hslice; reflexivity).
  cbv zeta.
  erewrite body_bind_continue by (by apply readinessGate_passes).
  destruct rerr as [e|].
  { erewrite body_bind_return; cycle 1.
    { unfold bind, call, ObserveVersion, exit. rewrite Hrr. reflexivity. }
    simpl. by rewrite app_nil_r. }
  erewrite body_bind_continue; cycle 1.
  { unfold bind, call, ObserveVersion, ret. rewrite Hrr. reflexivity. }
  destruct modified; cbn [fst].
  { erewrite body_bind_return; [|reflexivity]. simpl. by rewrite !app_nil_r. }
  erewrite body_bind_continue by reflexivity.
  erewrite (body_bind_continue _ _ _ (observed current "") (observation current) tt);
    cycle 1.
  { unfold observed, observation, ObserveVersion, ret.
    destruct current as [cur|]; [destruct (negb _)|]; reflexivity. }
  erewrite body_bind_continue by reflexivity.
  unfold body, requeue, readiness, gone, exit.
  destruct (if notReady (FindStatus resource slice)
            then EvalOptionally resource current
            else match FindStatus resource slice with
                 | Some status => rsReady status
                 | None => None
                 end) as [t|]; [|simpl; by rewrite !app_nil_r].
  destruct (ReconcileInterval resource) as [interval|];
    [|simpl; by rewrite !app_nil_r].
  destruct (Deleted resource); simpl; by rewrite !app_nil_r.
Qed.

(** C9.  When [getCurrent] reports that the downstream has changed and the
    run gets as far as reconciling (the work item is workable, the read did
    not fail for good, the slice can be read and the gates are open),
    [Reconcile] clears the recorded resource version right after the reads
    and then calls [reconcileResource]: the clear is in the trace before
    whatever [reconcileResource] sends, also when it sends nothing.  If
    [reconcileResource] returns an error, the run ends there with that error
    and the record cleared, so that the next [getCurrent] does the full read
    and reports a change, whatever the downstream answers.  If it reports a
    modification, the run ends with the record cleared as well.  Only when
    it did neither does the run record the version of the object read.  And
    in every run, whatever its way: a write is sent only after the clear, a
    cleared record stays cleared when the run ends in an error, and a
    version is recorded only when no request modified anything. *)
Theorem version_cleared_before_reconcile (c : Controller) (env : Env)
    (req : Request) (seen seen1 : State) (w : list Effect) (result : Result)
    (err : option error) :
  Reconcile c env req seen = (seen1, w, (result, err)) ->
  (forall comp resource wget current gerr slice wr modified rerr,
      workable env req comp resource ->
      crdGatePassed env comp resource ->
      getCurrent env resource seen = (seen, wget, (current, true, gerr)) ->
      IgnoreNotFound gerr = None \/ isErrMissingNS gerr = true ->
      upstream_GetSlice env (Slice (Manifest resource)) = inr slice ->
      gateOpen env comp resource (FindStatus resource slice) ->
      reconcileResource env comp (previousOf env req comp) resource current ""
      = ("", wr, (modified, rerr)) ->
      (exists rest, w = wget ++ CacheObserveVersion "" :: wr ++ rest) /\
      (forall e, rerr = Some e ->
         seen1 = "" /\ err = Some e /\ result = noRequeue /\
         w = wget ++ CacheObserveVersion "" :: wr /\
         forall (env1 : Env) (resource1 : Resource),
           getCurrent env1 resource1 seen1
           = ("", [DownstreamGet],
              match downstream_Get env1 with
              | inl e => (None, true, Some e)
              | inr current => (Some current, true, None)
              end)) /\
      (rerr = None -> modified = true ->
       seen1 = "" /\ w = wget ++ CacheObserveVersion "" :: wr) /\
      (seen1 <> "" ->
       rerr = None /\ modified = false /\
       exists cur, current = Some cur /\ seen1 = GetResourceVersion cur)) /\
  (forall pre e post,
      w = pre ++ e :: post -> isWrite e = true -> CacheObserveVersion "" ∈ pre) /\
  (CacheObserveVersion "" ∈ w -> err <> None ->
   seen1 = "" /\
   forall (env1 : Env) (resource1 : Resource),
     getCurrent env1 resource1 seen1
     = ("", [DownstreamGet],
        match downstream_Get env1 with
        | inl e => (None, true, Some e)
        | inr current => (Some current, true, None)
        end)) /\
  (forall rv,
      rv <> "" -> CacheObserveVersion rv ∈ w ->
      seen1 = rv /\ err = None /\ Forall (fun e => hasModified e = false) w).
Proof.
  intros Hrun. split; [|by eapply clear_comes_first].
  intros comp resource wget current gerr slice wr modified rerr
    Hwork Hcrd Hget Hgerr Hslice Hgate Hrr.
  rewrite (Reconcile_attempt c env req seen comp resource wget current gerr slice
             wr modified rerr Hwork Hcrd Hget Hgerr Hslice Hgate Hrr) in Hrun.
  split; [|split; [|split]].
  - destruct rerr as [e|]; [|destruct modified]; injection Hrun as <- <- <- <-.
    + exists []. by rewrite app_nil_r.
    + exists []. by rewrite app_nil_r.
    + by eexists.
  - intros e ->. injection Hrun as <- <- <- <-.
    do 4 (split; [done|]). intros env1 resource1. apply getCurrent_unseen.
  - intros -> ->. by injection Hrun as <- <- <- <-.
  - intros Hseen1.
    destruct rerr as [e|]; [|destruct modified]; injection Hrun as <- <- <- <-;
      try done.
    do 2 (split; [done|]). unfold observed in *.
    destruct current as [cur|]; [|done].
    destruct (negb _); [|done]. by exists cur.
Qed.

(** ** Errors and patches *)

Lemma Contains_append (prefix s substr : string) :
  Contains s substr = true -> Contains (prefix +:+ s) substr = true.
Proof.
  intros Hs. induction prefix as [|a prefix IH]; simpl; [done|].
  rewrite IH. apply orb_true_r.
Qed.

(** X22.  [isErrMissingNS] recognises the missing-namespace error however it
    has been wrapped: by [fmt.Errorf] with a message in front, or as a
    terminal error. *)
Theorem missing_namespace_seen_through_wrapping (e : error) (msg : string) :
  isErrMissingNS (Some e) = true ->
  isErrMissingNS (Some (WrapError msg e)) = true /\
  isErrMissingNS (Some (Terminal e)) = true.
Proof.
  unfold isErrMissingNS. simpl. intros He. split.
  - by do 2 apply Contains_append.
  - by apply Contains_append.
Qed.

(** X23.  A merge patch that changes fields of metadata only, labels say,
    has a single field once the resource version is written into it;
    [mungePatch] takes it for the empty patch and [reconcileResource] sends
    no request for it. *)
Theorem metadata_only_patch_is_skipped (env : Env) (comp : Composition)
    (prev : option Resource) (resource : Resource) (cur : Unstructured)
    (seen : State) (raw : bytes) (patchType : PatchType) (meta : gmap string JSON) :
  Deleted resource = false ->
  DisableUpdates resource = false ->
  buildPatch env prev resource cur = inr (raw, patchType) ->
  patchType <> JSONPatchType ->
  json_Unmarshal raw = inr (Some {[ "metadata" := JObject meta ]}) ->
  reconcileResource env comp prev resource (Some cur) seen = (seen, [], (false, None)).
Proof.
  intros Hdel Hupd Hbuild Htype Hparse.
  eapply reconcileResource_empty_patch; [done..|].
  destruct patchType; try done;
    by eapply mungePatch_drops_metadata_only_patch.
Qed.

(** X24.  For a resource that is a JSON patch, [reconcileResource] sends
    nothing when the patch does not need to be applied, and what it sends
    otherwise is the patch as the library encodes it, as a JSON patch: no
    resource version is written into it. *)
Theorem json_patch_sent_as_encoded (env : Env) (comp : Composition)
    (prev : option Resource) (resource : Resource) (cur : Unstructured)
    (seen seen1 : State) (w : list Effect) (res : bool * option error)
    (p : JSONPatch) :
  Patch resource = Some p ->
  reconcileResource env comp prev resource (Some cur) seen = (seen1, w, res) ->
  (Deleted resource = false -> NeedsToBePatched resource (Some cur) = false ->
   w = [] /\ res = (false, None)) /\
  (forall patchType patch answer,
      In (DownstreamPatch patchType patch answer) w ->
      patchType = JSONPatchType /\ json_MarshalPatch p = inr patch /\
      NeedsToBePatched resource (Some cur) = true).
Proof.
  intros Hpatch. unfold reconcileResource, buildPatch. rewrite Hpatch. open_body.
  intros Hrun. split.
  - intros Hdel Hneeds. rewrite Hdel, Hneeds in Hrun. simpl in Hrun.
    destruct (DisableUpdates resource); simpl in Hrun; by injection Hrun as <- <- <-.
  - intros patchType patch answer Hin. clear Hpatch.
    by_cases; destruct Hin as [[=] | []]; subst;
      repeat split; try done;
      by match goal with H : negb ?b = false |- _ => apply negb_false_iff in H end.
Qed.

(** X25.  Every error of [buildPatch] is a terminal error, which the work
    queue does not retry, but for two: the failure to look up the merge
    metadata and the failure to encode the JSON patch. *)
Theorem buildPatch_error_classes (env : Env) (prev : option Resource)
    (next : Resource) (cur : Unstructured) (e : error) :
  buildPatch env prev next cur = inl e ->
  IsTerminal e = true \/
  (exists e', discovery_Get env (GVK next) = inl e' /\
              e = WrapError "getting merge metadata" e') \/
  (exists p, Patch next = Some p /\ json_MarshalPatch p = inl e).
Proof.
  unfold buildPatch. intros Hrun.
  destruct (Patch next) as [p|].
  - right. right. exists p. split; [done|]. by_cases.
  - by_cases; eauto.
Qed.

End Properties.

(** ** The example, run *)

Lemma getCurrent_deleted_full_read_witness :
  Deleted deletedObj0 = true /\
  getCurrent
    (exampleEnv [deletedObj0] [] (inr "5") (inr (exampleObject "5")) None None)
    deletedObj0 "5"
  = ("5", [DownstreamGet], (Some (exampleObject "5"), true, None)).
Proof.
  assert (H0 : Deleted deletedObj0 = true) by reflexivity.
  split; [exact H0|].
  exact (proj1 (getCurrent_deleted_full_read
                  (exampleEnv [deletedObj0] [] (inr "5") (inr (exampleObject "5"))
                     None None)
                  deletedObj0 "5" H0)).
Defined.

Lemma deleted_resource_is_removed_witness :
  Deleted deletedObj0 = true /\
  GetDeletionTimestamp (exampleObject "6") = None /\
  reconcileResource deletedEnv exampleComposition None deletedObj0
    (Some (exampleObject "6")) ""
  = ("", [DownstreamDelete None], (true, None)).
Proof.
  assert (H0 : Deleted deletedObj0 = true) by reflexivity.
  assert (H1 : GetDeletionTimestamp (exampleObject "6") = None) by reflexivity.
  split; [exact H0|]. split; [exact H1|].
  exact (deleted_resource_is_removed deletedEnv exampleComposition None deletedObj0
           (exampleObject "6") "" H0 H1).
Defined.

Lemma reconcileResource_json_patch_never_creates_witness :
  Patch (exampleResource "test-obj-0" 0 0 false false None (Some [])) = Some [] /\
  reconcileResource freshEnv exampleComposition None
    (exampleResource "test-obj-0" 0 0 false false None (Some [])) None ""
  = ("", [], (false, None)) /\
  Forall (fun e => isCreate e = false) [].
Proof.
  assert (H0 : Patch (exampleResource "test-obj-0" 0 0 false false None (Some []))
               = Some []) by reflexivity.
  assert (H1 : reconcileResource freshEnv exampleComposition None
                 (exampleResource "test-obj-0" 0 0 false false None (Some [])) None ""
               = ("", [], (false, None))) by reflexivity.
  split; [exact H0|]. split; [exact H1|].
  exact (proj1 (proj2 (reconcileResource_json_patch_never_creates freshEnv
                         exampleComposition None _ None "" "" [] (false, None) []
                         H0 H1))).
Defined.

Lemma buildPatch_three_way_merge_witness :
  Patch obj0 = None /\
  FinalizeOptional None = inr [] /\
  Finalize obj0 = inr emptyObject /\
  MarshalJSON (exampleObject "6") = inr emptyObject /\
  discovery_Get freshEnv (GVK obj0) = inr None /\
  buildPatch freshEnv None obj0 (exampleObject "6") = inr (emptyObject, MergePatchType).
Proof.
  assert (H0 : Patch obj0 = None) by reflexivity.
  assert (H1 : FinalizeOptional None = inr []) by reflexivity.
  assert (H2 : Finalize obj0 = inr emptyObject) by reflexivity.
  assert (H3 : MarshalJSON (exampleObject "6") = inr emptyObject) by reflexivity.
  assert (H4 : discovery_Get freshEnv (GVK obj0) = inr None) by reflexivity.
  do 5 (split; [assumption|]).
  exact (proj1 (proj2 (proj2 (buildPatch_three_way_merge freshEnv None obj0
                                (exampleObject "6") [] emptyObject emptyObject None
                                H0 H1 H2 H3 H4)))
           (or_introl eq_refl)).
Defined.

Lemma mungePatch_strips_and_skips_witness :
  @json_Unmarshal exampleLibraries emptyObject = inr (Some examplePatchBody) /\
  munged "6" examplePatchBody !! "status" = None /\
  @mungePatch exampleLibraries emptyObject "6" = inr emptyObject.
Proof.
  assert (H0 : @json_Unmarshal exampleLibraries emptyObject
               = inr (Some examplePatchBody)) by reflexivity.
  split; [exact H0|].
  pose proof (@mungePatch_strips_and_skips exampleLibraries emptyObject "6"
                examplePatchBody H0) as (Hstatus & _ & _ & Hrun & _).
  split; [exact Hstatus|]. exact Hrun.
Defined.


Lemma version_cleared_before_reconcile_witness :
  Reconcile exampleController blindEnv (exampleRequest "test-obj-0") "5"
  = ("",
     [DownstreamGetMetadata; DownstreamGet; CacheObserveVersion ""],
     (noRequeue,
      Some (WrapError "building patch"
              (WrapError "getting merge metadata" serverTimeout)))) /\
  workable blindEnv (exampleRequest "test-obj-0") exampleComposition obj0 /\
  getCurrent blindEnv obj0 "5"
  = ("5", [DownstreamGetMetadata; DownstreamGet],
     (Some (exampleObject "6"), true, None)) /\
  gateOpen blindEnv exampleComposition obj0 (FindStatus obj0 {| Resources := [] |}) /\
  reconcileResource blindEnv exampleComposition
    (previousOf blindEnv (exampleRequest "test-obj-0") exampleComposition) obj0
    (Some (exampleObject "6")) ""
  = ("", [],
     (false,
      Some (WrapError "building patch"
              (WrapError "getting merge metadata" serverTimeout)))) /\
  [DownstreamGetMetadata; DownstreamGet; CacheObserveVersion ""]
  = [DownstreamGetMetadata; DownstreamGet] ++ CacheObserveVersion "" :: [].
Proof.
  assert (H0 : Reconcile exampleController blindEnv (exampleRequest "test-obj-0") "5"
               = ("",
                  [DownstreamGetMetadata; DownstreamGet; CacheObserveVersion ""],
                  (noRequeue,
                   Some (WrapError "building patch"
                           (WrapError "getting merge metadata" serverTimeout)))))
    by reflexivity.
  assert (H1 : workable blindEnv (exampleRequest "test-obj-0") exampleComposition obj0).
  { split; [reflexivity|]. split; [|reflexivity].
    exists (flowcontrol.exampleSynthesis "6f1c"). split; reflexivity. }
  assert (H2 : crdGatePassed blindEnv exampleComposition obj0) by exact I.
  assert (H3 : getCurrent blindEnv obj0 "5"
               = ("5", [DownstreamGetMetadata; DownstreamGet],
                  (Some (exampleObject "6"), true, None))) by reflexivity.
  assert (H4 : IgnoreNotFound None = None \/ isErrMissingNS None = true)
    by (left; reflexivity).
  assert (H5 : upstream_GetSlice blindEnv (Slice (Manifest obj0))
               = inr {| Resources := [] |}) by reflexivity.
  assert (H6 : gateOpen blindEnv exampleComposition obj0
                 (FindStatus obj0 {| Resources := [] |})).
  { right. right. exact (List.Forall_nil _). }
  assert (H7 : reconcileResource blindEnv exampleComposition
                 (previousOf blindEnv (exampleRequest "test-obj-0") exampleComposition)
                 obj0 (Some (exampleObject "6")) ""
               = ("", [],
                  (false,
                   Some (WrapError "building patch"
                           (WrapError "getting merge metadata" serverTimeout)))))
    by reflexivity.
  split; [exact H0|]. split; [exact H1|]. split; [exact H3|]. split; [exact H6|].
  split; [exact H7|].
  pose proof (proj1 (version_cleared_before_reconcile _ _ _ _ _ _ _ _ H0)
                _ _ _ _ _ _ _ _ _ H1 H2 H3 H4 H5 H6 H7) as (_ & Herr & _).
  exact (proj1 (proj2 (proj2 (proj2 (Herr _ eq_refl))))).
Defined.

Lemma readiness_gate_orders_groups_witness :
  Reconcile exampleController freshEnv (exampleRequest "test-obj-1") ""
  = ("", [DownstreamGet], (noRequeue, None)) /\
  upstream_GetComposition freshEnv (reqComposition (exampleRequest "test-obj-1"))
  = inr exampleComposition /\
  cache_Get (cache freshEnv) (NewSynthesisRef exampleComposition)
    (reqResource (exampleRequest "test-obj-1"))
  = Some obj1 /\
  upstream_GetSlice freshEnv (Slice (Manifest obj1)) = inr {| Resources := [] |} /\
  (Exists (fun e => isCreate e = true \/ isPatch e = true) [DownstreamGet] ->
   (exists st, FindStatus obj1 {| Resources := [] |} = Some st /\ rsReconciled st = true) \/
   (forall dep,
       In dep (cache_Resources (cache freshEnv) (NewSynthesisRef exampleComposition)) ->
       (ReadinessGroup dep < ReadinessGroup obj1)%Z ->
       depReady freshEnv dep)).
Proof.
  assert (H0 : Reconcile exampleController freshEnv (exampleRequest "test-obj-1") ""
               = ("", [DownstreamGet], (noRequeue, None))) by reflexivity.
  assert (H1 : upstream_GetComposition freshEnv
                 (reqComposition (exampleRequest "test-obj-1"))
               = inr exampleComposition) by reflexivity.
  assert (H2 : cache_Get (cache freshEnv) (NewSynthesisRef exampleComposition)
                 (reqResource (exampleRequest "test-obj-1"))
               = Some obj1) by reflexivity.
  assert (H3 : upstream_GetSlice freshEnv (Slice (Manifest obj1))
               = inr {| Resources := [] |}) by reflexivity.
  do 4 (split; [assumption|]).
  exact (proj2 (readiness_gate_orders_groups _ _ _ _ _ _ _ _ _ _ _ H0 H1 H2 H3)).
Defined.


(** ** The further properties, run *)

Lemma patchResourceState_settles_witness :
  patchResourceState false (Some 5%Z) None
  = Some {| rsReconciled := true; rsReady := Some 5%Z; rsDeleted := false |} /\
  patchResourceState false (Some 5%Z)
    (Some {| rsReconciled := true; rsReady := Some 5%Z; rsDeleted := false |})
  = None.
Proof.
  assert (H0 : patchResourceState false (Some 5%Z) None
               = Some {| rsReconciled := true; rsReady := Some 5%Z;
                         rsDeleted := false |}) by reflexivity.
  split; [exact H0|].
  exact (proj2 (proj1 (patchResourceState_settles false (Some 5%Z) None) _ H0)).
Defined.

Lemma getCurrent_result_witness :
  getCurrent conflictEnv obj0 "5"
  = ("5", [DownstreamGetMetadata; DownstreamGet],
     (Some (exampleObject "6"), true, None)) /\
  last [DownstreamGetMetadata; DownstreamGet] = Some DownstreamGet.
Proof.
  assert (H0 : getCurrent conflictEnv obj0 "5"
               = ("5", [DownstreamGetMetadata; DownstreamGet],
                  (Some (exampleObject "6"), true, None))) by reflexivity.
  split; [exact H0|].
  exact (proj1 (proj2 (proj2 (getCurrent_result _ _ _ _ _ _ _ _ H0))) eq_refl).
Defined.

Lemma reconcileResource_single_request_witness :
  reconcileResource conflictEnv exampleComposition None obj0
    (Some (exampleObject "6")) ""
  = ("", [DownstreamPatch MergePatchType emptyObject (Some flowcontrol.conflict)],
     (false, Some (WrapError "applying patch" flowcontrol.conflict))) /\
  length (List.filter isWrite
            [DownstreamPatch MergePatchType emptyObject (Some flowcontrol.conflict)])
  <= 1.
Proof.
  assert (H0 : reconcileResource conflictEnv exampleComposition None obj0
                 (Some (exampleObject "6")) ""
               = ("", [DownstreamPatch MergePatchType emptyObject
                         (Some flowcontrol.conflict)],
                  (false, Some (WrapError "applying patch" flowcontrol.conflict))))
    by reflexivity.
  split; [exact H0|].
  exact (proj1 (proj2 (reconcileResource_single_request _ _ _ _ _ _ _ _ _ _ H0))).
Defined.

Lemma reconcileResource_request_guards_witness :
  reconcileResource conflictEnv exampleComposition None obj0
    (Some (exampleObject "6")) ""
  = ("", [DownstreamPatch MergePatchType emptyObject (Some flowcontrol.conflict)],
     (false, Some (WrapError "applying patch" flowcontrol.conflict))) /\
  Deleted obj0 = false /\ DisableUpdates obj0 = false /\
  exists cur, Some (exampleObject "6") = Some cur.
Proof.
  assert (H0 : reconcileResource conflictEnv exampleComposition None obj0
                 (Some (exampleObject "6")) ""
               = ("", [DownstreamPatch MergePatchType emptyObject
                         (Some flowcontrol.conflict)],
                  (false, Some (WrapError "applying patch" flowcontrol.conflict))))
    by reflexivity.
  split; [exact H0|].
  exact (proj2 (proj2 (reconcileResource_request_guards _ _ _ _ _ _ _ _ _ H0))
           eq_refl).
Defined.

Lemma modification_requeues_witness :
  Reconcile exampleController freshEnv (exampleRequest "test-obj-0") ""
  = ("",
     [DownstreamGet; CacheObserveVersion ""; DownstreamCreate (exampleObject "") None],
     ({| Requeue := true; RequeueAfter := 0%Z |}, None)) /\
  existsb hasModified
    [DownstreamGet; CacheObserveVersion ""; DownstreamCreate (exampleObject "") None]
  = true /\
  existsb isStatusWrite
    [DownstreamGet; CacheObserveVersion ""; DownstreamCreate (exampleObject "") None]
  = false.
Proof.
  assert (H0 : Reconcile exampleController freshEnv (exampleRequest "test-obj-0") ""
               = ("",
                  [DownstreamGet; CacheObserveVersion "";
                   DownstreamCreate (exampleObject "") None],
                  ({| Requeue := true; RequeueAfter := 0%Z |}, None)))
    by reflexivity.
  assert (H1 : existsb hasModified
                 [DownstreamGet; CacheObserveVersion "";
                  DownstreamCreate (exampleObject "") None]
               = true) by reflexivity.
  split; [exact H0|]. split; [exact H1|].
  exact (proj2 (proj2 (proj2 (modification_requeues _ _ _ _ _ _ _ _ H0 H1)))).
Defined.

Lemma one_write_per_run_witness :
  Reconcile exampleController conflictEnv (exampleRequest "test-obj-0") "5"
  = ("",
     [DownstreamGetMetadata; DownstreamGet; CacheObserveVersion "";
      DownstreamPatch MergePatchType emptyObject (Some flowcontrol.conflict)],
     (noRequeue, Some (WrapError "applying patch" flowcontrol.conflict))) /\
  length (List.filter isWrite
            [DownstreamGetMetadata; DownstreamGet; CacheObserveVersion "";
             DownstreamPatch MergePatchType emptyObject (Some flowcontrol.conflict)])
  <= 1.
Proof.
  assert (H0 : Reconcile exampleController conflictEnv (exampleRequest "test-obj-0") "5"
               = ("",
                  [DownstreamGetMetadata; DownstreamGet; CacheObserveVersion "";
                   DownstreamPatch MergePatchType emptyObject
                     (Some flowcontrol.conflict)],
                  (noRequeue, Some (WrapError "applying patch" flowcontrol.conflict))))
    by reflexivity.
  split; [exact H0|].
  exact (proj1 (one_write_per_run _ _ _ _ _ _ _ _ H0)).
Defined.

Lemma unchanged_resource_is_not_written_witness :
  Reconcile exampleController quietEnv (exampleRequest "test-obj-0") "5"
  = ("5",
     [DownstreamGetMetadata;
      PatchStatusAsync {| Slice := ("default", "slice-0"); Index := 0 |} true None],
     ({| Requeue := false; RequeueAfter := (2 * Second)%Z |}, None)) /\
  workable quietEnv (exampleRequest "test-obj-0") exampleComposition obj0 /\
  Deleted obj0 = false /\
  downstream_GetMetadata quietEnv = inr "5" /\
  existsb isWrite
    [DownstreamGetMetadata;
     PatchStatusAsync {| Slice := ("default", "slice-0"); Index := 0 |} true None]
  = false.
Proof.
  assert (H0 : Reconcile exampleController quietEnv (exampleRequest "test-obj-0") "5"
               = ("5",
                  [DownstreamGetMetadata;
                   PatchStatusAsync {| Slice := ("default", "slice-0"); Index := 0 |}
                     true None],
                  ({| Requeue := false; RequeueAfter := (2 * Second)%Z |}, None)))
    by reflexivity.
  assert (H1 : workable quietEnv (exampleRequest "test-obj-0") exampleComposition obj0).
  { split; [reflexivity|]. split; [|reflexivity].
    exists (flowcontrol.exampleSynthesis "6f1c"). split; reflexivity. }
  assert (H2 : "5" <> "") by discriminate.
  assert (H3 : Deleted obj0 = false) by reflexivity.
  assert (H4 : downstream_GetMetadata quietEnv = inr "5") by reflexivity.
  split; [exact H0|]. split; [exact H1|]. split; [exact H3|]. split; [exact H4|].
  exact (proj1 (proj2 (unchanged_resource_is_not_written _ _ _ _ _ _ _ _ _ _
                         H0 H1 H2 H3 H4))).
Defined.

Lemma recorded_ready_time_is_kept_witness :
  Reconcile exampleController deletedEnv (exampleRequest "test-obj-0") ""
  = ("",
     [DownstreamGet; CacheObserveVersion "";
      PatchStatusAsync {| Slice := ("default", "slice-0"); Index := 0 |} true
        (Some 50%Z)],
     (noRequeue, None)) /\
  workable deletedEnv (exampleRequest "test-obj-0") exampleComposition deletedObj0 /\
  FindStatus deletedObj0
    {| Resources :=
         [ {| rsReconciled := true; rsReady := Some 50%Z; rsDeleted := false |} ] |}
  = Some {| rsReconciled := true; rsReady := Some 50%Z; rsDeleted := false |} /\
  {| Slice := ("default", "slice-0"); Index := 0 |} = Manifest deletedObj0 /\
  Some 50%Z = Some 50%Z.
Proof.
  assert (H0 : Reconcile exampleController deletedEnv (exampleRequest "test-obj-0") ""
               = ("",
                  [DownstreamGet; CacheObserveVersion "";
                   PatchStatusAsync {| Slice := ("default", "slice-0"); Index := 0 |}
                     true (Some 50%Z)],
                  (noRequeue, None))) by reflexivity.
  assert (H1 : workable deletedEnv (exampleRequest "test-obj-0") exampleComposition
                 deletedObj0).
  { split; [reflexivity|]. split; [|reflexivity].
    exists (flowcontrol.exampleSynthesis "6f1c"). split; reflexivity. }
  assert (H2 : upstream_GetSlice deletedEnv (Slice (Manifest deletedObj0))
               = inr {| Resources :=
                          [ {| rsReconciled := true; rsReady := Some 50%Z;
                               rsDeleted := false |} ] |}) by reflexivity.
  assert (H3 : FindStatus deletedObj0
                 {| Resources :=
                      [ {| rsReconciled := true; rsReady := Some 50%Z;
                           rsDeleted := false |} ] |}
               = Some {| rsReconciled := true; rsReady := Some 50%Z;
                         rsDeleted := false |}) by reflexivity.
  assert (H4 : rsReady {| rsReconciled := true; rsReady := Some 50%Z;
                          rsDeleted := false |} = Some 50%Z) by reflexivity.
  assert (H5 : In (PatchStatusAsync {| Slice := ("default", "slice-0"); Index := 0 |}
                     true (Some 50%Z))
                 [DownstreamGet; CacheObserveVersion "";
                  PatchStatusAsync {| Slice := ("default", "slice-0"); Index := 0 |}
                    true (Some 50%Z)]).
  { right. right. left. reflexivity. }
  split; [exact H0|]. split; [exact H1|]. split; [exact H3|].
  exact (recorded_ready_time_is_kept _ _ _ _ _ _ _ _ _ _ _ _ _ _ _ _
           H0 H1 H2 H3 H4 H5).
Defined.

Lemma work_item_dropped_witness :
  cache_Get (cache freshEnv) (NewSynthesisRef exampleComposition)
    (reqResource (exampleRequest "test-obj-9"))
  = None /\
  Reconcile exampleController freshEnv (exampleRequest "test-obj-9") ""
  = ("", [], (noRequeue, None)).
Proof.
  assert (H0 : cache_Get (cache freshEnv) (NewSynthesisRef exampleComposition)
                 (reqResource (exampleRequest "test-obj-9"))
               = None) by reflexivity.
  split; [exact H0|].
  exact (work_item_dropped exampleController freshEnv (exampleRequest "test-obj-9") ""
           (or_intror H0)).
Defined.

Lemma crd_gate_defers_witness :
  workable (crdEnv crdJustReady) (exampleRequest "test-obj-0") exampleComposition obj0 /\
  cache_GetDefiningCRD (cache (crdEnv crdJustReady)) (NewSynthesisRef exampleComposition)
    (GroupKind (GVK obj0))
  = Some exampleCRD /\
  FindStatus exampleCRD {| Resources := crdJustReady |}
  = Some {| rsReconciled := true; rsReady := Some 500%Z; rsDeleted := false |} /\
  (Second - MaxInt64 <= now (crdEnv crdJustReady) - 500 < Second)%Z /\
  Reconcile exampleController (crdEnv crdJustReady) (exampleRequest "test-obj-0") ""
  = ("", [],
     ({| Requeue := false;
         RequeueAfter := (Second - (now (crdEnv crdJustReady) - 500))%Z |}, None)).
Proof.
  assert (H0 : workable (crdEnv crdJustReady) (exampleRequest "test-obj-0")
                 exampleComposition obj0).
  { split; [reflexivity|]. split; [|reflexivity].
    exists (flowcontrol.exampleSynthesis "6f1c"). split; reflexivity. }
  assert (H1 : cache_GetDefiningCRD (cache (crdEnv crdJustReady))
                 (NewSynthesisRef exampleComposition) (GroupKind (GVK obj0))
               = Some exampleCRD) by reflexivity.
  assert (H2 : upstream_GetSlice (crdEnv crdJustReady) (Slice (Manifest exampleCRD))
               = inr {| Resources := crdJustReady |}) by reflexivity.
  assert (H3 : FindStatus exampleCRD {| Resources := crdJustReady |}
               = Some {| rsReconciled := true; rsReady := Some 500%Z;
                         rsDeleted := false |}) by reflexivity.
  assert (H4 : rsReady {| rsReconciled := true; rsReady := Some 500%Z;
                          rsDeleted := false |} = Some 500%Z) by reflexivity.
  assert (H5 : (Second - MaxInt64 <= now (crdEnv crdJustReady) - 500 < Second)%Z)
    by (vm_compute; split; [discriminate | reflexivity]).
  split; [exact H0|]. split; [exact H1|]. split; [exact H3|]. split; [exact H5|].
  exact (proj2 (proj2 (proj2 (crd_gate_defers exampleController _ _ "" _ _ _ _
                                H0 H1 H2))
                  _ _ H3 H4 H5)).
Defined.

Lemma read_error_aborts_witness :
  workable brokenEnv (exampleRequest "test-obj-0") exampleComposition obj0 /\
  getCurrent brokenEnv obj0 "" = ("", [DownstreamGet], (None, true, Some serverTimeout)) /\
  IsNotFound serverTimeout = false /\
  isErrMissingNS (Some serverTimeout) = false /\
  Reconcile exampleController brokenEnv (exampleRequest "test-obj-0") ""
  = ("", [DownstreamGet],
     (noRequeue, Some (WrapError "getting current state" serverTimeout))).
Proof.
  assert (H0 : workable brokenEnv (exampleRequest "test-obj-0") exampleComposition obj0).
  { split; [reflexivity|]. split; [|reflexivity].
    exists (flowcontrol.exampleSynthesis "6f1c"). split; reflexivity. }
  assert (H1 : crdGatePassed brokenEnv exampleComposition obj0) by exact I.
  assert (H2 : getCurrent brokenEnv obj0 ""
               = ("", [DownstreamGet], (None, true, Some serverTimeout)))
    by reflexivity.
  assert (H3 : IsNotFound serverTimeout = false) by reflexivity.
  assert (H4 : isErrMissingNS (Some serverTimeout) = false) by reflexivity.
  split; [exact H0|]. split; [exact H2|]. split; [exact H3|]. split; [exact H4|].
  exact (read_error_aborts exampleController _ _ _ _ _ _ _ _ _ _ H0 H1 H2 H3 H4).
Defined.

Lemma absent_resource_is_created_witness :
  workable freshEnv (exampleRequest "test-obj-0") exampleComposition obj0 /\
  getCurrent freshEnv obj0 "" = ("", [DownstreamGet], (None, true, Some notFound)) /\
  IgnoreNotFound (Some notFound) = None /\
  gateOpen freshEnv exampleComposition obj0 (FindStatus obj0 {| Resources := [] |}) /\
  Reconcile exampleController freshEnv (exampleRequest "test-obj-0") ""
  = ("",
     [DownstreamGet; CacheObserveVersion ""; DownstreamCreate (exampleObject "") None],
     ({| Requeue := true; RequeueAfter := 0%Z |}, None)).
Proof.
  assert (H0 : workable freshEnv (exampleRequest "test-obj-0") exampleComposition obj0).
  { split; [reflexivity|]. split; [|reflexivity].
    exists (flowcontrol.exampleSynthesis "6f1c"). split; reflexivity. }
  assert (H1 : crdGatePassed freshEnv exampleComposition obj0) by exact I.
  assert (H2 : getCurrent freshEnv obj0 ""
               = ("", [DownstreamGet], (None, true, Some notFound))) by reflexivity.
  assert (H3 : IgnoreNotFound (Some notFound) = None) by reflexivity.
  assert (H4 : upstream_GetSlice freshEnv (Slice (Manifest obj0))
               = inr {| Resources := [] |}) by reflexivity.
  assert (H5 : gateOpen freshEnv exampleComposition obj0
                 (FindStatus obj0 {| Resources := [] |})).
  { right. right. exact (List.Forall_nil _). }
  assert (H6 : Deleted obj0 = false) by reflexivity.
  assert (H7 : Patch obj0 = None) by reflexivity.
  assert (H8 : Parse obj0 = inr (exampleObject "")) by reflexivity.
  split; [exact H0|]. split; [exact H2|]. split; [exact H3|]. split; [exact H5|].
  exact (absent_resource_is_created exampleController _ _ _ _ _ _ _ _ _
           H0 H1 H2 (or_introl H3) H4 H5 H6 H7 H8).
Defined.

Lemma missing_namespace_seen_through_wrapping_witness :
  isErrMissingNS (Some missingNamespace) = true /\
  isErrMissingNS (Some (WrapError "creating resource" missingNamespace)) = true /\
  isErrMissingNS (Some (Terminal missingNamespace)) = true.
Proof.
  assert (H0 : isErrMissingNS (Some missingNamespace) = true) by reflexivity.
  split; [exact H0|].
  exact (missing_namespace_seen_through_wrapping missingNamespace "creating resource"
           H0).
Defined.

Lemma metadata_only_patch_is_skipped_witness :
  Deleted obj0 = false /\
  DisableUpdates obj0 = false /\
  @buildPatch labelLibraries labelEnv None obj0 (exampleObject "6")
  = inr (emptyObject, MergePatchType) /\
  @json_Unmarshal labelLibraries emptyObject
  = inr (Some {[ "metadata" :=
                   JObject {[ "labels" := JObject {[ "app" := JString "web" ]} ]} ]}) /\
  @reconcileResource labelLibraries labelEnv exampleComposition None obj0
    (Some (exampleObject "6")) ""
  = ("", [], (false, None)).
Proof.
  assert (H0 : Deleted obj0 = false) by reflexivity.
  assert (H1 : DisableUpdates obj0 = false) by reflexivity.
  assert (H2 : @buildPatch labelLibraries labelEnv None obj0 (exampleObject "6")
               = inr (emptyObject, MergePatchType)) by reflexivity.
  assert (H3 : MergePatchType <> JSONPatchType) by discriminate.
  assert (H4 : @json_Unmarshal labelLibraries emptyObject
               = inr (Some {[ "metadata" :=
                                JObject {[ "labels" :=
                                             JObject {[ "app" := JString "web" ]} ]} ]}))
    by reflexivity.
  split; [exact H0|]. split; [exact H1|]. split; [exact H2|]. split; [exact H4|].
  exact (@metadata_only_patch_is_skipped labelLibraries labelEnv exampleComposition
           None obj0 (exampleObject "6") "" emptyObject MergePatchType _
           H0 H1 H2 H3 H4).
Defined.

Lemma json_patch_sent_as_encoded_witness :
  Patch patchObj0 = Some [] /\
  reconcileResource conflictEnv exampleComposition None patchObj0
    (Some (exampleObject "6")) ""
  = ("", [DownstreamPatch JSONPatchType emptyObject (Some flowcontrol.conflict)],
     (false, Some (WrapError "applying patch" flowcontrol.conflict))) /\
  JSONPatchType = JSONPatchType /\
  @json_MarshalPatch exampleLibraries [] = inr emptyObject /\
  NeedsToBePatched patchObj0 (Some (exampleObject "6")) = true.
Proof.
  assert (H0 : Patch patchObj0 = Some []) by reflexivity.
  assert (H1 : reconcileResource conflictEnv exampleComposition None patchObj0
                 (Some (exampleObject "6")) ""
               = ("", [DownstreamPatch JSONPatchType emptyObject
                         (Some flowcontrol.conflict)],
                  (false, Some (WrapError "applying patch" flowcontrol.conflict))))
    by reflexivity.
  split; [exact H0|]. split; [exact H1|].
  exact (proj2 (json_patch_sent_as_encoded _ _ _ _ _ _ _ _ _ _ H0 H1)
           JSONPatchType emptyObject (Some flowcontrol.conflict)
           (or_introl eq_refl)).
Defined.

Lemma buildPatch_error_classes_witness :
  buildPatch blindEnv None obj0 (exampleObject "6")
  = inl (WrapError "getting merge metadata" serverTimeout) /\
  (IsTerminal (WrapError "getting merge metadata" serverTimeout) = true \/
   (exists e', discovery_Get blindEnv (GVK obj0) = inl e' /\
               WrapError "getting merge metadata" serverTimeout
               = WrapError "getting merge metadata" e') \/
   (exists p, Patch obj0 = Some p /\
              @json_MarshalPatch exampleLibraries p
              = inl (WrapError "getting merge metadata" serverTimeout))).
Proof.
  assert (H0 : buildPatch blindEnv None obj0 (exampleObject "6")
               = inl (WrapError "getting merge metadata" serverTimeout))
    by reflexivity.
  split; [exact H0|].
  exact (buildPatch_error_classes _ _ _ _ _ H0).
Defined.

End reconciler.

(** * Properties of the watchdog *)

Module watch.
Import watchdog.

(** ** Counting *)

Lemma count_le {A : Type} (p : A -> bool) (l : list A) :
  length (List.filter p l) <= length l.
Proof. induction l as [|x l IH]; simpl; [done|]. destruct (p x); simpl; lia. Qed.

Lemma count_none {A : Type} (p : A -> bool) (l : list A) :
  (forall x, In x l -> p x = false) -> length (List.filter p l) = 0.
Proof.
  induction l as [|x l IH]; intros Hp; simpl; [done|].
  rewrite (Hp x) by (by left). apply IH. intros y Hy. apply Hp. by right.
Qed.

Lemma count_mono {A : Type} (p q : A -> bool) (l : list A) :
  (forall x, In x l -> p x = true -> q x = true) ->
  length (List.filter p l) <= length (List.filter q l).
Proof.
  induction l as [|x l IH]; intros Hpq; simpl; [done|].
  assert (IH' : length (List.filter p l) <= length (List.filter q l))
    by (apply IH; intros y Hy; apply Hpq; by right).
  destruct (p x) eqn:Hpx.
  - rewrite (Hpq x) by (done || by left). simpl. lia.
  - destruct (q x); simpl; lia.
Qed.

Lemma count_same {A : Type} (p q : A -> bool) (l : list A) :
  (forall x, In x l -> p x = q x) ->
  length (List.filter p l) = length (List.filter q l).
Proof.
  intros Hpq. apply Nat.le_antisymm; apply count_mono; intros x Hx.
  - by rewrite (Hpq x Hx).
  - by rewrite (Hpq x Hx).
Qed.

Lemma count_disjoint {A : Type} (p q : A -> bool) (l : list A) :
  (forall x, In x l -> p x && q x = false) ->
  length (List.filter p l) + length (List.filter q l) <= length l.
Proof.
  induction l as [|x l IH]; intros Hpq; simpl; [done|].
  assert (IH' : length (List.filter p l) + length (List.filter q l) <= length l)
    by (apply IH; intros y Hy; apply Hpq; by right).
  pose proof (Hpq x (or_introl eq_refl)) as Hx.
  destruct (p x), (q x); simpl in *; try done; lia.
Qed.

(** The loop adds to each gauge the number of Compositions that its test
    picks. *)
Lemma tally_fold (c : watchdogController) (env : Env) (items : list Composition)
    (g : Gauges) :
  foldl (tally c env) g items
  = {| waitingOnInputsGauge :=
         waitingOnInputsGauge g + length (List.filter (waitingOnInputs c env) items);
       inputsNotInLockstepGauge :=
         inputsNotInLockstepGauge g + length (List.filter (notInLockstep c env) items);
       pendingInitialReconciliationGauge :=
         pendingInitialReconciliationGauge g
         + length (List.filter (pendingInitialReconciliation c env) items);
       stuckReconcilingGauge :=
         stuckReconcilingGauge g
         + length (List.filter (pendingReconciliation c env) items);
       pendingReadinessGauge :=
         pendingReadinessGauge g + length (List.filter (pendingReadiness c env) items);
       terminalErrorsGauge :=
         terminalErrorsGauge g + length (List.filter inTerminalError items) |}.
Proof.
  revert g. induction items as [|comp items IH]; intros g.
  - destruct g. simpl. by rewrite !Nat.add_0_r.
  - cbn [foldl List.filter]. rewrite IH. unfold tally, bump. cbn [waitingOnInputsGauge
      inputsNotInLockstepGauge pendingInitialReconciliationGauge stuckReconcilingGauge
      pendingReadinessGauge terminalErrorsGauge].
    f_equal.
    + destruct (waitingOnInputs c env comp); simpl; lia.
    + destruct (notInLockstep c env comp); simpl; lia.
    + destruct (pendingInitialReconciliation c env comp); simpl; lia.
    + destruct (pendingReconciliation c env comp); simpl; lia.
    + destruct (pendingReadiness c env comp); simpl; lia.
    + destruct (inTerminalError comp); simpl; lia.
Qed.

(** A tick that can list the Compositions sets each gauge to a count. *)
Lemma Reconcile_gauges (c : watchdogController) (env : Env) (items : list Composition) :
  client_List env = inr items ->
  Reconcile c env
  = (Some {| waitingOnInputsGauge := length (List.filter (waitingOnInputs c env) items);
             inputsNotInLockstepGauge := length (List.filter (notInLockstep c env) items);
             pendingInitialReconciliationGauge :=
               length (List.filter (pendingInitialReconciliation c env) items);
             stuckReconcilingGauge :=
               length (List.filter (pendingReconciliation c env) items);
             pendingReadinessGauge := length (List.filter (pendingReadiness c env) items);
             terminalErrorsGauge := length (List.filter inTerminalError items) |},
     (noRequeue, None)).
Proof. intros Hlist. unfold Reconcile. rewrite Hlist. by rewrite tally_fold. Qed.

(** ** The tests exclude one another *)

Lemma pendingReadiness_reconciled (c : watchdogController) (env : Env)
    (comp : Composition) :
  pendingReadiness c env comp = true ->
  synthesisHasReconciled (CurrentSynthesis comp) = true.
Proof.
  unfold pendingReadiness, timeSinceReconcilePastThreshold, synthesisHasReconciled.
  intros (_ & Hpast)%andb_true_iff.
  destruct (CurrentSynthesis comp) as [current|]; [|done].
  by destruct (Reconciled current).
Qed.

Lemma stuck_excludes_unready (c : watchdogController) (env : Env) (comp : Composition) :
  pendingReconciliation c env comp && pendingReadiness c env comp = false.
Proof.
  destruct (pendingReadiness c env comp) eqn:Hready; [|by rewrite andb_false_r].
  apply pendingReadiness_reconciled in Hready. rewrite andb_true_r.
  unfold pendingReconciliation. rewrite Hready.
  destruct (CurrentSynthesis comp) as [current|]; [|done].
  by destruct (Initialized current).
Qed.

Lemma initial_excludes_unready (c : watchdogController) (env : Env) (comp : Composition) :
  pendingInitialReconciliation c env comp && pendingReadiness c env comp = false.
Proof.
  destruct (pendingReadiness c env comp) eqn:Hready; [|by rewrite andb_false_r].
  apply pendingReadiness_reconciled in Hready.
  unfold pendingInitialReconciliation. by rewrite Hready.
Qed.

(** X6.  The gauges never exceed the number of Compositions listed; as no
    Composition is both stuck reconciling and pending readiness, nor both
    pending its initial reconciliation and pending readiness, neither do those
    sums. *)
Theorem gauges_bounded (c : watchdogController) (env : Env) (items : list Composition)
    (g : Gauges) (r : Result * option error) :
  client_List env = inr items ->
  Reconcile c env = (Some g, r) ->
  waitingOnInputsGauge g <= length items /\
  inputsNotInLockstepGauge g <= length items /\
  terminalErrorsGauge g <= length items /\
  stuckReconcilingGauge g + pendingReadinessGauge g <= length items /\
  pendingInitialReconciliationGauge g + pendingReadinessGauge g <= length items.
Proof.
  intros Hlist Hrun. rewrite (Reconcile_gauges _ _ _ Hlist) in Hrun.
  injection Hrun as <- _. simpl.
  split; [apply count_le|]. split; [apply count_le|]. split; [apply count_le|].
  split; apply count_disjoint; intros comp _.
  - apply stuck_excludes_unready.
  - apply initial_excludes_unready.
Qed.

(** X7.  While every Composition listed is no older than the threshold, no
    Composition counts as waiting on inputs, as out of lockstep or as pending
    its initial reconciliation, whatever its inputs and syntheses. *)
Theorem young_compositions_not_counted (c : watchdogController) (env : Env)
    (items : list Composition) (g : Gauges) (r : Result * option error) :
  client_List env = inr items ->
  (forall comp, In comp items -> (age env comp <= threshold c)%Z) ->
  Reconcile c env = (Some g, r) ->
  waitingOnInputsGauge g = 0 /\
  inputsNotInLockstepGauge g = 0 /\
  pendingInitialReconciliationGauge g = 0.
Proof.
  intros Hlist Hyoung Hrun. rewrite (Reconcile_gauges _ _ _ Hlist) in Hrun.
  injection Hrun as <- _. simpl.
  assert (Hnot : forall comp, In comp items ->
                   (threshold c <? Since env (CreationTimestamp comp))%Z = false).
  { intros comp Hin. apply Z.ltb_ge. by apply Hyoung. }
  split; [|split]; apply count_none; intros comp Hin.
  - unfold waitingOnInputs. rewrite (Hnot comp Hin). apply andb_false_r.
  - unfold notInLockstep. rewrite (Hnot comp Hin). apply andb_false_r.
  - unfold pendingInitialReconciliation. rewrite (Hnot comp Hin). apply andb_false_r.
Qed.

(** X8.  When the Synthesizer of no Composition can be fetched, the inputs are
    presumed to exist, so no Composition counts as waiting on inputs; yet every
    Composition older than the threshold counts as out of lockstep. *)
Theorem synthesizer_lookup_failure (c : watchdogController) (env : Env)
    (items : list Composition) (g : Gauges) (r : Result * option error) :
  client_List env = inr items ->
  (forall comp, In comp items ->
     exists e, client_Get env (SynthesizerName comp) = inl e) ->
  Reconcile c env = (Some g, r) ->
  waitingOnInputsGauge g = 0 /\
  inputsNotInLockstepGauge g
  = length (List.filter (fun comp => (threshold c <? age env comp)%Z) items).
Proof.
  intros Hlist Hfail Hrun. rewrite (Reconcile_gauges _ _ _ Hlist) in Hrun.
  injection Hrun as <- _. simpl. split.
  - apply count_none. intros comp Hin. destruct (Hfail comp Hin) as [e He].
    unfold waitingOnInputs, getInputsExist. by rewrite He.
  - apply count_same. intros comp Hin. destruct (Hfail comp Hin) as [e He].
    unfold notInLockstep, getNotInLockstep, age. by rewrite He.
Qed.

(** X9.  A watchdog with a higher threshold reports no more on any gauge that
    depends on time than one with a lower threshold does on the same tick, and
    the same number of terminal errors. *)
Theorem gauges_antitone_in_threshold (c1 c2 : watchdogController) (env : Env)
    (items : list Composition) (g1 g2 : Gauges) (r1 r2 : Result * option error) :
  client_List env = inr items ->
  (threshold c1 <= threshold c2)%Z ->
  Reconcile c1 env = (Some g1, r1) ->
  Reconcile c2 env = (Some g2, r2) ->
  waitingOnInputsGauge g2 <= waitingOnInputsGauge g1 /\
  inputsNotInLockstepGauge g2 <= inputsNotInLockstepGauge g1 /\
  pendingInitialReconciliationGauge g2 <= pendingInitialReconciliationGauge g1 /\
  stuckReconcilingGauge g2 <= stuckReconcilingGauge g1 /\
  pendingReadinessGauge g2 <= pendingReadinessGauge g1 /\
  terminalErrorsGauge g2 = terminalErrorsGauge g1.
Proof.
  intros Hlist Hle Hrun1 Hrun2.
  rewrite (Reconcile_gauges c1 _ _ Hlist) in Hrun1.
  rewrite (Reconcile_gauges c2 _ _ Hlist) in Hrun2.
  injection Hrun1 as <- _. injection Hrun2 as <- _. simpl.
  assert (Hpast : forall t, (threshold c2 <? Since env t)%Z = true ->
                            (threshold c1 <? Since env t)%Z = true).
  { intros t Ht%Z.ltb_lt. apply Z.ltb_lt. lia. }
  split; [|split; [|split; [|split; [|split]]]]; try apply count_mono;
    try done; intros comp _.
  - unfold waitingOnInputs. intros [-> Ht%Hpast]%andb_true_iff. by rewrite Ht.
  - unfold notInLockstep. intros [-> Ht%Hpast]%andb_true_iff. by rewrite Ht.
  - unfold pendingInitialReconciliation.
    intros [-> Ht%Hpast]%andb_true_iff. by rewrite Ht.
  - unfold pendingReconciliation.
    destruct (CurrentSynthesis comp) as [current|]; [|done].
    destruct (Initialized current) as [t|]; [|done].
    intros [-> Ht%Hpast]%andb_true_iff. by rewrite Ht.
  - unfold pendingReadiness, timeSinceReconcilePastThreshold.
    intros [-> Ht]%andb_true_iff.
    destruct (CurrentSynthesis comp) as [current|]; [|done].
    destruct (Reconciled current) as [t|]; [|done].
    by rewrite (Hpast _ Ht).
Qed.

(** X10.  Where the current synthesis of every Composition has been reconciled and
    its current or previous synthesis is ready, nothing counts as pending its
    initial reconciliation, as stuck reconciling or as pending readiness,
    however old the Compositions are. *)
Theorem settled_compositions_not_counted (c : watchdogController) (env : Env)
    (items : list Composition) (g : Gauges) (r : Result * option error) :
  client_List env = inr items ->
  (forall comp, In comp items ->
     synthesisHasReconciled (CurrentSynthesis comp) = true /\
     (synthesisIsReady (CurrentSynthesis comp) = true \/
      synthesisIsReady (PreviousSynthesis comp) = true)) ->
  Reconcile c env = (Some g, r) ->
  pendingInitialReconciliationGauge g = 0 /\
  stuckReconcilingGauge g = 0 /\
  pendingReadinessGauge g = 0.
Proof.
  intros Hlist Hsettled Hrun. rewrite (Reconcile_gauges _ _ _ Hlist) in Hrun.
  injection Hrun as <- _. simpl.
  split; [|split]; apply count_none; intros comp Hin;
    destruct (Hsettled comp Hin) as [Hrec Hready].
  - unfold pendingInitialReconciliation. by rewrite Hrec.
  - unfold pendingReconciliation. rewrite Hrec.
    destruct (CurrentSynthesis comp) as [current|]; [|done].
    by destruct (Initialized current).
  - unfold pendingReadiness.
    destruct Hready as [-> | ->]; [done | by rewrite andb_false_r].
Qed.

(** ** The example, run *)

Lemma gauges_bounded_witness :
  client_List (exampleEnv [stuckComposition; unreadyComposition] (inr testSynthesizer))
  = inr [stuckComposition; unreadyComposition] /\
  Reconcile exampleWatchdog
    (exampleEnv [stuckComposition; unreadyComposition] (inr testSynthesizer))
  = (Some {| waitingOnInputsGauge := 2;
             inputsNotInLockstepGauge := 0;
             pendingInitialReconciliationGauge := 1;
             stuckReconcilingGauge := 1;
             pendingReadinessGauge := 1;
             terminalErrorsGauge := 0 |},
     (noRequeue, None)) /\
  1 + 1 <= 2.
Proof.
  assert (H0 : client_List (exampleEnv [stuckComposition; unreadyComposition]
                              (inr testSynthesizer))
               = inr [stuckComposition; unreadyComposition]) by reflexivity.
  assert (H1 : Reconcile exampleWatchdog
                 (exampleEnv [stuckComposition; unreadyComposition] (inr testSynthesizer))
               = (Some {| waitingOnInputsGauge := 2;
                          inputsNotInLockstepGauge := 0;
                          pendingInitialReconciliationGauge := 1;
                          stuckReconcilingGauge := 1;
                          pendingReadinessGauge := 1;
                          terminalErrorsGauge := 0 |},
                  (noRequeue, None))) by reflexivity.
  split; [exact H0|]. split; [exact H1|].
  exact (proj1 (proj2 (proj2 (proj2 (gauges_bounded _ _ _ _ _ H0 H1))))).
Defined.

Lemma young_compositions_not_counted_witness :
  client_List (exampleEnv [youngComposition] (inr testSynthesizer))
  = inr [youngComposition] /\
  (forall comp, In comp [youngComposition] ->
     (age (exampleEnv [youngComposition] (inr testSynthesizer)) comp
      <= threshold exampleWatchdog)%Z) /\
  Reconcile exampleWatchdog (exampleEnv [youngComposition] (inr testSynthesizer))
  = (Some (mkGauges 0 0 0 0 0 0), (noRequeue, None)) /\
  waitingOnInputsGauge (mkGauges 0 0 0 0 0 0) = 0.
Proof.
  assert (H0 : client_List (exampleEnv [youngComposition] (inr testSynthesizer))
               = inr [youngComposition]) by reflexivity.
  assert (H1 : forall comp, In comp [youngComposition] ->
                 (age (exampleEnv [youngComposition] (inr testSynthesizer)) comp
                  <= threshold exampleWatchdog)%Z).
  { intros comp [<- | []]. vm_compute. discriminate. }
  assert (H2 : Reconcile exampleWatchdog
                 (exampleEnv [youngComposition] (inr testSynthesizer))
               = (Some (mkGauges 0 0 0 0 0 0), (noRequeue, None))) by reflexivity.
  split; [exact H0|]. split; [exact H1|]. split; [exact H2|].
  exact (proj1 (young_compositions_not_counted _ _ _ _ _ H0 H1 H2)).
Defined.

Lemma synthesizer_lookup_failure_witness :
  client_List (exampleEnv [stuckComposition; youngComposition]
                 (inl (StatusError ReasonNotFound "not found")))
  = inr [stuckComposition; youngComposition] /\
  (forall comp, In comp [stuckComposition; youngComposition] ->
     exists e,
       client_Get (exampleEnv [stuckComposition; youngComposition]
                     (inl (StatusError ReasonNotFound "not found")))
         (SynthesizerName comp)
       = inl e) /\
  Reconcile exampleWatchdog
    (exampleEnv [stuckComposition; youngComposition]
       (inl (StatusError ReasonNotFound "not found")))
  = (Some (mkGauges 0 1 1 1 0 0), (noRequeue, None)) /\
  waitingOnInputsGauge (mkGauges 0 1 1 1 0 0) = 0.
Proof.
  assert (H0 : client_List (exampleEnv [stuckComposition; youngComposition]
                              (inl (StatusError ReasonNotFound "not found")))
               = inr [stuckComposition; youngComposition]) by reflexivity.
  assert (H1 : forall comp, In comp [stuckComposition; youngComposition] ->
                 exists e,
                   client_Get (exampleEnv [stuckComposition; youngComposition]
                                 (inl (StatusError ReasonNotFound "not found")))
                     (SynthesizerName comp)
                   = inl e) by (intros comp _; by eexists).
  assert (H2 : Reconcile exampleWatchdog
                 (exampleEnv [stuckComposition; youngComposition]
                    (inl (StatusError ReasonNotFound "not found")))
               = (Some (mkGauges 0 1 1 1 0 0), (noRequeue, None))) by reflexivity.
  split; [exact H0|]. split; [exact H1|]. split; [exact H2|].
  exact (proj1 (synthesizer_lookup_failure _ _ _ _ _ H0 H1 H2)).
Defined.

Lemma gauges_antitone_in_threshold_witness :
  client_List (exampleEnv [stuckComposition; unreadyComposition] (inr testSynthesizer))
  = inr [stuckComposition; unreadyComposition] /\
  (threshold exampleWatchdog <= threshold {| threshold := (99 * Second)%Z |})%Z /\
  Reconcile exampleWatchdog
    (exampleEnv [stuckComposition; unreadyComposition] (inr testSynthesizer))
  = (Some (mkGauges 2 0 1 1 1 0), (noRequeue, None)) /\
  Reconcile {| threshold := (99 * Second)%Z |}
    (exampleEnv [stuckComposition; unreadyComposition] (inr testSynthesizer))
  = (Some (mkGauges 2 0 1 0 0 0), (noRequeue, None)) /\
  stuckReconcilingGauge (mkGauges 2 0 1 0 0 0)
  <= stuckReconcilingGauge (mkGauges 2 0 1 1 1 0).
Proof.
  assert (H0 : client_List (exampleEnv [stuckComposition; unreadyComposition]
                              (inr testSynthesizer))
               = inr [stuckComposition; unreadyComposition]) by reflexivity.
  assert (H1 : (threshold exampleWatchdog
                <= threshold {| threshold := (99 * Second)%Z |})%Z)
    by (vm_compute; discriminate).
  assert (H2 : Reconcile exampleWatchdog
                 (exampleEnv [stuckComposition; unreadyComposition] (inr testSynthesizer))
               = (Some (mkGauges 2 0 1 1 1 0), (noRequeue, None))) by reflexivity.
  assert (H3 : Reconcile {| threshold := (99 * Second)%Z |}
                 (exampleEnv [stuckComposition; unreadyComposition] (inr testSynthesizer))
               = (Some (mkGauges 2 0 1 0 0 0), (noRequeue, None))) by reflexivity.
  do 4 (split; [assumption|]).
  exact (proj1 (proj2 (proj2 (proj2
           (gauges_antitone_in_threshold _ _ _ _ _ _ _ _ H0 H1 H2 H3))))).
Defined.

Lemma settled_compositions_not_counted_witness :
  client_List (exampleEnv [settledComposition] (inr testSynthesizer))
  = inr [settledComposition] /\
  (forall comp, In comp [settledComposition] ->
     synthesisHasReconciled (CurrentSynthesis comp) = true /\
     (synthesisIsReady (CurrentSynthesis comp) = true \/
      synthesisIsReady (PreviousSynthesis comp) = true)) /\
  Reconcile exampleWatchdog (exampleEnv [settledComposition] (inr testSynthesizer))
  = (Some (mkGauges 1 0 0 0 0 0), (noRequeue, None)) /\
  pendingInitialReconciliationGauge (mkGauges 1 0 0 0 0 0) = 0.
Proof.
  assert (H0 : client_List (exampleEnv [settledComposition] (inr testSynthesizer))
               = inr [settledComposition]) by reflexivity.
  assert (H1 : forall comp, In comp [settledComposition] ->
                 synthesisHasReconciled (CurrentSynthesis comp) = true /\
                 (synthesisIsReady (CurrentSynthesis comp) = true \/
                  synthesisIsReady (PreviousSynthesis comp) = true)).
  { intros comp [<- | []]. split; [reflexivity | left; reflexivity]. }
  assert (H2 : Reconcile exampleWatchdog
                 (exampleEnv [settledComposition] (inr testSynthesizer))
               = (Some (mkGauges 1 0 0 0 0 0), (noRequeue, None))) by reflexivity.
  split; [exact H0|]. split; [exact H1|]. split; [exact H2|].
  exact (proj1 (settled_compositions_not_counted _ _ _ _ _ H0 H1 H2)).
Defined.

End watch.
